(** * News-sentiment dashboard: filter pipeline and aggregator

    A shallow embedding of the four dashboard programs of the repository

      - [src/flask/app.py]    (module [App]),
      - [src/flask2/app1.py]  (module [App1]),
      - [src/backend.py]      (module [Backend]),
      - [src/backnew.py]      (module [Backnew]),

    together with the part of Python and pandas they rely on.

    Modelling conventions.

      - Python strings are byte strings ([string]); case mapping and white
        space are the ASCII ones.
      - A Python [float] is [NaN] or an exact rational ([pyfloat]); pandas
        nulls of a float column are [NaN].  Arithmetic on scores is exact,
        the rounding error of binary floating point is not modelled, and
        infinities are left out.
      - A [DataFrame] is a list of present column names and a list of typed
        rows; reading an absent column raises [KeyError] as in pandas.  A
        present [Date] column always has the datetime dtype, which is what
        every [load_data] of the repository establishes.
      - DataFrames are objects on a heap and Python variables hold
        references; every pandas call that builds a new frame allocates,
        calls with [inplace=True] overwrite the object they are applied to.
      - The builtins [int()] and [float()] and the regular-expression engine
        behind [Series.str.contains] are parameters of the development
        (class [Runtime]); a concrete instance ([Builtins.runtime]) is used
        to evaluate the programs on concrete inputs. *)

From Stdlib Require Import ZArith QArith Qround List String Ascii Bool Lia.
From Stdlib Require Import Permutation Sorted DecimalString DecimalZ.
Import ListNotations.

Close Scope Q_scope.
Local Open Scope string_scope.
Local Open Scope list_scope.

(* ================================================================== *)
(** * Python values and builtins *)
(* ================================================================== *)

Module Py.

(** The exceptions the programs can raise.  [DanglingRef] is not a Python
    exception: it is the outcome of dereferencing a reference that the
    heap does not hold, which no reference obtained from an allocation
    produces. *)
Inductive exn : Type :=
| KeyError (key : string)
| ValueError
| TypeError
| IndexError
| ReError
| DanglingRef.

(** A Python float: not-a-number or a rational. *)
Inductive pyfloat : Type :=
| NaN
| Fl (q : Q).

(** [a <= b] on floats; every comparison with [NaN] is [False]. *)
Definition fle (a b : pyfloat) : bool :=
  match a, b with
  | Fl x, Fl y => Qle_bool x y
  | _, _ => false
  end.

(** [a >= b]. *)
Definition fge (a b : pyfloat) : bool := fle b a.

Definition is_nan (a : pyfloat) : bool :=
  match a with NaN => true | Fl _ => false end.

(** [pd.notna] on a float. *)
Definition notna (a : pyfloat) : bool := negb (is_nan a).

(** ** Strings *)

(** [str.isspace] on one ASCII character: TAB, LF, VT, FF, CR, the four
    separators 0x1c-0x1f and the space. *)
Definition is_space (c : ascii) : bool :=
  let n := nat_of_ascii c in
  ((9 <=? n)%nat && (n <=? 13)%nat) || ((28 <=? n)%nat && (n <=? 32)%nat).

Definition upper_char (c : ascii) : ascii :=
  let n := nat_of_ascii c in
  if ((97 <=? n)%nat && (n <=? 122)%nat)%bool then ascii_of_nat (n - 32) else c.

Definition lower_char (c : ascii) : ascii :=
  let n := nat_of_ascii c in
  if ((65 <=? n)%nat && (n <=? 90)%nat)%bool then ascii_of_nat (n + 32) else c.

Fixpoint map_string (f : ascii -> ascii) (s : string) : string :=
  match s with
  | EmptyString => EmptyString
  | String c s' => String (f c) (map_string f s')
  end.

(** [str.upper] and [str.lower]. *)
Definition upper (s : string) : string := map_string upper_char s.
Definition lower (s : string) : string := map_string lower_char s.

(** [str.lstrip]. *)
Fixpoint lstrip (s : string) : string :=
  match s with
  | EmptyString => EmptyString
  | String c s' => if is_space c then lstrip s' else s
  end.

(** [str.rstrip]. *)
Fixpoint rstrip (s : string) : string :=
  match s with
  | EmptyString => EmptyString
  | String c s' =>
      match rstrip s' with
      | EmptyString => if is_space c then EmptyString else String c EmptyString
      | r => String c r
      end
  end.

(** [str.strip]. *)
Definition strip (s : string) : string := lstrip (rstrip s).

(** [s.startswith(p)]. *)
Fixpoint startswith (p s : string) : bool :=
  match p, s with
  | EmptyString, _ => true
  | String a p', String b s' => Ascii.eqb a b && startswith p' s'
  | String _ _, EmptyString => false
  end.

(** [p in s] on strings. *)
Fixpoint contains (p s : string) : bool :=
  startswith p s ||
  match s with
  | EmptyString => false
  | String _ s' => contains p s'
  end.

(** [str(n)] for an integer. *)
Definition str_of_int (n : Z) : string := NilZero.string_of_int (Z.to_int n).

(** Truthiness of a string: [if s:]. *)
Definition truthy (s : string) : bool :=
  match s with EmptyString => false | _ => true end.

(** [dict.get(key, default)] on the query arguments. *)
Definition get {A : Type} (arg : option A) (default : A) : A :=
  match arg with Some v => v | None => default end.

(** [round(x)] to the nearest integer, ties to the even one. *)
Definition round_half_even (q : Q) : Z :=
  let f := Qfloor q in
  let r := (q - inject_Z f)%Q in
  match Qcompare r (1 # 2) with
  | Lt => f
  | Gt => (f + 1)%Z
  | Eq => if Z.even f then f else (f + 1)%Z
  end.

(** [round(x, d)]: [d] decimal places, the result kept as a fraction over
    [10^d]. *)
Definition round_to (d : positive) (q : Q) : Q :=
  Qmake (round_half_even (q * inject_Z (Zpos (10 ^ d)))%Q) (10 ^ d).

Definition fround (d : positive) (a : pyfloat) : pyfloat :=
  match a with NaN => NaN | Fl q => Fl (round_to d q) end.

End Py.

Import Py.

(** ** The runtime: the builtins taken as parameters *)

(** [py_int s] is [int(s)] and [py_float s] is [float(s)] on a string
    ([None] when Python raises [ValueError]); [re_compile_ic pat] is
    [re.compile(pat, flags=re.IGNORECASE)], returned as the function
    [fun s => regex.search(s) is not None] ([None] when the pattern is
    malformed and Python raises [re.error]). *)
Class Runtime : Type := {
  py_int : string -> option Z;
  py_float : string -> option pyfloat;
  re_compile_ic : string -> option (string -> bool)
}.

(* ================================================================== *)
(** * pandas: the tabular data model *)
(* ================================================================== *)

Module Pandas.

(** A record identifier: numeric or text ([news_id]). *)
Inductive ident : Type :=
| IdInt (n : Z)
| IdStr (s : string).

(** A value of a display-only column and of a row exported with
    [to_dict]. *)
Inductive cell : Type :=
| CNull
| CInt (n : Z)
| CFloat (q : Q)
| CStr (s : string)
| CTime (t : Z).

(** One row.  [Date] is a timestamp or [NaT]; [Year] is a nullable [Int64];
    text columns are nullable; a null score is [NaN].  [extra] holds the
    columns the programs only display. *)
Record Row : Type := mkRow {
  news_id : ident;
  Date : option Z;
  Year : option Z;
  Stock_symbol : option string;
  Article_title : option string;
  sentiment_label : option string;
  sentiment_score_signed : pyfloat;
  extra : list (string * cell)
}.

(** A frame: the names of the columns it has, and its rows in order. *)
Record DataFrame : Type := mkDF {
  columns : list string;
  rows : list Row
}.

(** [c in df.columns]. *)
Definition has_column (c : string) (df : DataFrame) : bool :=
  existsb (String.eqb c) (columns df).

(** [df.empty]. *)
Definition empty (df : DataFrame) : bool :=
  match rows df with [] => true | _ :: _ => false end.

(** [df[mask]] for a boolean mask given row by row by [p]. *)
Definition getitem_mask (p : Row -> bool) (df : DataFrame) : DataFrame :=
  mkDF (columns df) (filter p (rows df)).

(** [df[cols]] for a list of column names. *)
Definition getitem_cols (cols : list string) (df : DataFrame) : DataFrame :=
  mkDF cols (rows df).

(** [df.head(n)]. *)
Definition head (n : nat) (df : DataFrame) : DataFrame :=
  mkDF (columns df) (firstn n (rows df)).

Definition cell_of_int (o : option Z) : cell :=
  match o with Some n => CInt n | None => CNull end.
Definition cell_of_time (o : option Z) : cell :=
  match o with Some n => CTime n | None => CNull end.
Definition cell_of_str (o : option string) : cell :=
  match o with Some s => CStr s | None => CNull end.
Definition cell_of_float (a : pyfloat) : cell :=
  match a with Fl q => CFloat q | NaN => CNull end.
Definition cell_of_ident (i : ident) : cell :=
  match i with IdInt n => CInt n | IdStr s => CStr s end.

Fixpoint assoc (c : string) (l : list (string * cell)) : cell :=
  match l with
  | [] => CNull
  | (k, v) :: l' => if String.eqb c k then v else assoc c l'
  end.

(** [row[c]]. *)
Definition cell_of (c : string) (r : Row) : cell :=
  if String.eqb c "news_id" then cell_of_ident (news_id r)
  else if String.eqb c "Date" then cell_of_time (Date r)
  else if String.eqb c "Year" then cell_of_int (Year r)
  else if String.eqb c "Stock_symbol" then cell_of_str (Stock_symbol r)
  else if String.eqb c "Article_title" then cell_of_str (Article_title r)
  else if String.eqb c "sentiment_label" then cell_of_str (sentiment_label r)
  else if String.eqb c "sentiment_score_signed"
       then cell_of_float (sentiment_score_signed r)
  else assoc c (extra r).

(** [row.to_dict()] of a row of a frame with columns [cols]. *)
Definition row_to_dict (cols : list string) (r : Row) : list (string * cell) :=
  map (fun c => (c, cell_of c r)) cols.

(** [df.to_dict(orient="records")]. *)
Definition to_dict_records (df : DataFrame) : list (list (string * cell)) :=
  map (row_to_dict (columns df)) (rows df).

(** ** Element-wise predicates that build the masks *)

(** [df["Year"] == n]: a null year matches nothing. *)
Definition year_is (n : Z) (r : Row) : bool :=
  match Year r with Some y => Z.eqb y n | None => false end.

(** [df["Stock_symbol"] == s]. *)
Definition symbol_is (s : string) (r : Row) : bool :=
  match Stock_symbol r with Some x => String.eqb x s | None => false end.

(** [(df[score] >= lo) & (df[score] <= hi)]. *)
Definition score_between (lo hi : pyfloat) (r : Row) : bool :=
  fge (sentiment_score_signed r) lo && fle (sentiment_score_signed r) hi.

(** [df["Article_title"].str.contains(pat, case=False, na=False)] for the
    compiled pattern [m]: a null title gives [na], which is [False]. *)
Definition title_matches (m : string -> bool) (r : Row) : bool :=
  match Article_title r with Some t => m t | None => false end.

(** [str(x)] of an identifier, the element-wise [astype(str)]. *)
Definition str_of_ident (i : ident) : string :=
  match i with IdInt n => str_of_int n | IdStr s => s end.

(** [df["news_id"].astype(str) == s]. *)
Definition news_id_str_is (s : string) (r : Row) : bool :=
  String.eqb (str_of_ident (news_id r)) s.

(** [df["news_id"] == i] for a value [i] of the column's own type. *)
Definition news_id_is (i : ident) (r : Row) : bool :=
  match news_id r, i with
  | IdInt a, IdInt b => Z.eqb a b
  | IdStr a, IdStr b => String.eqb a b
  | _, _ => false
  end.

(** ** Sorting by date *)

(** [a] may stand before [b] in [sort_values("Date", ascending=False)]:
    later dates first, [NaT] last. *)
Definition date_geb (a b : Row) : bool :=
  match Date a, Date b with
  | Some x, Some y => (y <=? x)%Z
  | Some _, None => true
  | None, Some _ => false
  | None, None => true
  end.

Fixpoint insert_by_date (r : Row) (l : list Row) : list Row :=
  match l with
  | [] => [r]
  | x :: l' => if date_geb r x then r :: l else x :: insert_by_date r l'
  end.

(** The rows in descending date order.  pandas sorts with an unstable
    quicksort, so the order of rows with equal dates is not fixed by the
    library; this model keeps them in input order, and the statements
    below only use that the result is an ordered rearrangement. *)
Fixpoint sort_rows_desc (l : list Row) : list Row :=
  match l with
  | [] => []
  | r :: l' => insert_by_date r (sort_rows_desc l')
  end.

(** [df.sort_values("Date", ascending=False)]. *)
Definition sort_values_Date_desc (df : DataFrame) : DataFrame :=
  mkDF (columns df) (sort_rows_desc (rows df)).

(** ** Reductions of a float column *)

Definition fmin2 (a b : pyfloat) : pyfloat :=
  match a, b with
  | NaN, _ => b
  | _, NaN => a
  | Fl x, Fl y => if Qle_bool x y then a else b
  end.

Definition fmax2 (a b : pyfloat) : pyfloat :=
  match a, b with
  | NaN, _ => b
  | _, NaN => a
  | Fl x, Fl y => if Qle_bool x y then b else a
  end.

(** [Series.min()] and [Series.max()]: nulls are skipped, the result is
    [NaN] when nothing is left. *)
Definition series_min (l : list pyfloat) : pyfloat := fold_right fmin2 NaN l.
Definition series_max (l : list pyfloat) : pyfloat := fold_right fmax2 NaN l.

(** The non-null values of a float column. *)
Fixpoint dropna (l : list pyfloat) : list Q :=
  match l with
  | [] => []
  | NaN :: l' => dropna l'
  | Fl q :: l' => q :: dropna l'
  end.

Definition Qsum (l : list Q) : Q := fold_right Qplus 0%Q l.

(** [Series.mean()]: the mean of the non-null values, [NaN] when there is
    none. *)
Definition series_mean (l : list pyfloat) : pyfloat :=
  match dropna l with
  | [] => NaN
  | vs => Fl (Qsum vs / inject_Z (Z.of_nat (List.length vs)))%Q
  end.

(** The score column. *)
Definition scores (df : DataFrame) : list pyfloat :=
  map sentiment_score_signed (rows df).

End Pandas.

Import Pandas.

(* ================================================================== *)
(** * pandas: grouping and counting *)
(* ================================================================== *)

Module Agg.

(** The groups of [df.groupby("Year")["sentiment_score_signed"]]: the keys
    in ascending order ([sort=True]), each with the scores of its rows in
    row order.  Rows with a null key belong to no group ([dropna=True]). *)
Definition groups : Type := list (Z * list pyfloat).

Fixpoint add_to_group (y : Z) (v : pyfloat) (g : groups) : groups :=
  match g with
  | [] => [(y, [v])]
  | (k, vs) :: g' =>
      if (y <? k)%Z then (y, [v]) :: g
      else if (y =? k)%Z then (k, vs ++ [v]) :: g'
      else (k, vs) :: add_to_group y v g'
  end.

Definition add_row (g : groups) (r : Row) : groups :=
  match Year r with
  | Some y => add_to_group y (sentiment_score_signed r) g
  | None => g
  end.

Definition groupby_Year (rs : list Row) : groups := fold_left add_row rs [].

(** A frame of yearly means, as [reset_index()] of the grouped mean builds
    it: a year column, one value column, and possibly one of the columns
    moved into the index. *)
Record TrendFrame : Type := mkTrend {
  t_index : option string;
  t_columns : list string;
  t_rows : list (option Z * pyfloat)
}.

(** [df.groupby("Year")["sentiment_score_signed"].mean().reset_index()]. *)
Definition groupby_mean_reset_index (df : DataFrame) : TrendFrame :=
  mkTrend None ["Year"; "sentiment_score_signed"]
    (map (fun g => (Some (fst g), series_mean (snd g))) (groupby_Year (rows df))).

(** [t.dropna(subset=["Year"])]. *)
Definition dropna_Year (t : TrendFrame) : TrendFrame :=
  mkTrend (t_index t) (t_columns t)
    (filter (fun p => match fst p with Some _ => true | None => false end)
            (t_rows t)).

(** [t["Year"].astype(int).tolist()]: converting a null raises
    [ValueError]. *)
Fixpoint astype_int (l : list (option Z)) : exn + list Z :=
  match l with
  | [] => inr []
  | None :: _ => inl ValueError
  | Some y :: l' =>
      match astype_int l' with
      | inr ys => inr (y :: ys)
      | inl e => inl e
      end
  end.

(** [t["Year"].tolist()] of a column without nulls; a null would be
    exported as [pd.NA], which the chart has no place for and this model
    drops. *)
Fixpoint tolist_int (l : list (option Z)) : list Z :=
  match l with
  | [] => []
  | None :: l' => tolist_int l'
  | Some y :: l' => y :: tolist_int l'
  end.

(** [t["sentiment_score_signed"].round(4).tolist()]. *)
Definition round4_tolist (t : TrendFrame) : list pyfloat :=
  map (fun p => fround 4 (snd p)) (t_rows t).

(** [t.rename(columns={old: new})]. *)
Definition rename_column (old new : string) (t : TrendFrame) : TrendFrame :=
  mkTrend (t_index t)
    (map (fun c => if String.eqb c old then new else c) (t_columns t))
    (t_rows t).

(** [t.set_index(c)]: the column leaves the columns and becomes the index;
    an absent column raises [KeyError]. *)
Definition set_index (c : string) (t : TrendFrame) : exn + TrendFrame :=
  if existsb (String.eqb c) (t_columns t)
  then inr (mkTrend (Some c)
                    (filter (fun x => negb (String.eqb x c)) (t_columns t))
                    (t_rows t))
  else inl (KeyError c).

(** ** [value_counts] *)

Fixpoint bump (l : string) (c : list (string * nat)) : list (string * nat) :=
  match c with
  | [] => [(l, 1)]
  | (k, n) :: c' => if String.eqb k l then (k, S n) :: c' else (k, n) :: bump l c'
  end.

Definition count_label (c : list (string * nat)) (o : option string)
  : list (string * nat) :=
  match o with Some l => bump l c | None => c end.

(** The number of occurrences of each non-null label, in order of first
    appearance. *)
Definition count_labels (ls : list (option string)) : list (string * nat) :=
  fold_left count_label ls [].

Fixpoint insert_by_count (x : string * nat) (l : list (string * nat))
  : list (string * nat) :=
  match l with
  | [] => [x]
  | y :: l' => if (snd y <=? snd x)%nat then x :: l else y :: insert_by_count x l'
  end.

(** [s.sort_values(ascending=False)] on a series of counts.  The order of
    equal counts is not fixed by pandas; this model keeps the input
    order. *)
Fixpoint sort_counts_desc (l : list (string * nat)) : list (string * nat) :=
  match l with
  | [] => []
  | x :: l' => insert_by_count x (sort_counts_desc l')
  end.

(** [df["sentiment_label"].value_counts()]: counts of the non-null labels,
    largest first. *)
Definition value_counts (df : DataFrame) : list (string * nat) :=
  sort_counts_desc (count_labels (map sentiment_label (rows df))).

(** [counts.sum()]. *)
Definition counts_sum (c : list (string * nat)) : nat :=
  fold_right (fun p acc => (snd p + acc)%nat) 0%nat c.

(** [cnt / total * 100]. *)
Definition percent (cnt total : nat) : Q :=
  (inject_Z (Z.of_nat cnt) / inject_Z (Z.of_nat total) * 100)%Q.

(** [f"{x:.1f}%"] for a non-negative [x]. *)
Definition format_pct (x : Q) : string :=
  let t := round_half_even (x * 10)%Q in
  str_of_int (t / 10) ++ "." ++ str_of_int (t mod 10) ++ "%".

(** One line of the breakdown table. *)
Record SummaryRow : Type := mkSummaryRow {
  Sentiment : string;
  Count : nat;
  Percentage : string
}.

(** The yearly summary dictionary. *)
Record Summary : Type := mkSummary {
  total_articles : nat;
  dominant_label : option string;
  dominant_pct : option Q;
  summary_rows : list SummaryRow
}.

(** The summary returned when there is nothing to count. *)
Definition empty_summary : Summary := mkSummary 0 None None [].

(** The summary built from a series of counts, shared by the two Flask
    programs ([app.py] lines 71-93, [app1.py] lines 98-107). *)
Definition summary_of_counts (counts : list (string * nat)) : Summary :=
  let total := counts_sum counts in
  if (total =? 0)%nat then empty_summary
  else
    match counts with
    | [] => empty_summary
    | (dom_label, dom_cnt) :: _ =>
        mkSummary total (Some dom_label)
          (Some (round_to 1 (percent dom_cnt total)))
          (map (fun p => mkSummaryRow (fst p) (snd p)
                           (format_pct (percent (snd p) total)))
               counts)
    end.

End Agg.

Import Agg.

(* ================================================================== *)
(** * The heap of frames and the monad of the programs *)
(* ================================================================== *)

Module Mem.

(** An object: a frame of news rows or a frame of yearly means. *)
Inductive obj : Type :=
| News (df : DataFrame)
| Trend (t : TrendFrame).

(** A reference is the position of the object in the heap. *)
Definition ref : Type := nat.
Definition heap : Type := list obj.

(** A computation reads and allocates on the heap and returns a value or
    raises. *)
Definition M (A : Type) : Type := heap -> (exn + A) * heap.

Definition ret {A : Type} (a : A) : M A := fun h => (inr a, h).

Definition raise {A : Type} (e : exn) : M A := fun h => (inl e, h).

Definition bind {A B : Type} (m : M A) (k : A -> M B) : M B :=
  fun h =>
    match m h with
    | (inr a, h') => k a h'
    | (inl e, h') => (inl e, h')
    end.

(** [try: m  except: k] with a bare [except]. *)
Definition try_except {A : Type} (m : M A) (k : M A) : M A :=
  fun h =>
    match m h with
    | (inr a, h') => (inr a, h')
    | (inl _, h') => k h'
    end.

(** Lift a pure result. *)
Definition lift {A : Type} (r : exn + A) : M A :=
  match r with inr a => ret a | inl e => raise e end.

(** A new object. *)
Definition alloc (o : obj) : M ref :=
  fun h => (inr (List.length h), h ++ [o]).

(** The news frame a reference points to. *)
Definition read (r : ref) : M DataFrame :=
  fun h =>
    match nth_error h r with
    | Some (News df) => (inr df, h)
    | _ => (inl DanglingRef, h)
    end.

(** The frame of yearly means a reference points to. *)
Definition read_trend (r : ref) : M TrendFrame :=
  fun h =>
    match nth_error h r with
    | Some (Trend t) => (inr t, h)
    | _ => (inl DanglingRef, h)
    end.

Fixpoint set_nth (h : heap) (r : ref) (o : obj) : heap :=
  match h, r with
  | [], _ => []
  | _ :: h', O => o :: h'
  | x :: h', S r' => x :: set_nth h' r' o
  end.

(** Overwrite the object at [r]: what a call with [inplace=True] does. *)
Definition write (r : ref) (o : obj) : M unit :=
  fun h => (inr tt, set_nth h r o).

End Mem.

Import Mem.

Declare Scope monad_scope.
Delimit Scope monad_scope with monad.
Notation "x <- m ;; k" := (bind m (fun x => k))
  (at level 61, m at next level, right associativity) : monad_scope.
Notation "m ;;; k" := (bind m (fun _ => k))
  (at level 61, right associativity) : monad_scope.
Local Open Scope monad_scope.

(** ** Assignments to a frame variable *)

(** What one paragraph of a program does to the variable [filtered]: leave
    it, bind it to a new frame, or raise. *)
Inductive outcome : Type :=
| Keep
| Rebind (df : DataFrame)
| Raise (e : exn).

(** [y = x.copy()], [y = x[mask]] and the like: a new frame computed from
    the one [r] points to. *)
Definition derive (r : ref) (f : DataFrame -> exn + DataFrame) : M ref :=
  df <- read r ;;
  df' <- lift (f df) ;;
  alloc (News df').

(** [df.copy()]. *)
Definition copy (r : ref) : M ref := derive r (fun df => inr df).

(** Run a paragraph [st] on the variable holding [r]; the result is the
    reference the variable holds afterwards. *)
Definition assign (r : ref) (st : DataFrame -> outcome) : M ref :=
  df <- read r ;;
  match st df with
  | Keep => ret r
  | Rebind df' => alloc (News df')
  | Raise e => raise e
  end.

(** [y = f(x)] for a pandas call [f] that cannot raise. *)
Definition derive_pure (r : ref) (f : DataFrame -> DataFrame) : M ref :=
  derive r (fun df => inr (f df)).

(* ================================================================== *)
(** * What the two Flask programs share *)
(* ================================================================== *)

Module Flask.

(** The query string: [request.args], each parameter present or not. *)
Record Request : Type := mkRequest {
  arg_year : option string;
  arg_symbol : option string;
  arg_keyword : option string;
  arg_news_id : option string;
  arg_sent_min : option string;
  arg_sent_max : option string
}.

(** The module-level state: the frame loaded at startup and the bounds of
    its scores ([None] when the frame has no score column). *)
Record Globals : Type := mkGlobals {
  DF : ref;
  MIN_SCORE : option pyfloat;
  MAX_SCORE : option pyfloat
}.

(** The module-level code after [DF = load_data(...)] ([app.py] lines
    33-37, [app1.py] lines 70-74).  The option lists [YEARS] and [SYMBOLS]
    of the form widgets are not modelled. *)
Definition startup (r : ref) : M Globals :=
  df <- read r ;;
  if has_column "sentiment_score_signed" df
  then ret (mkGlobals r (Some (series_min (scores df)))
                        (Some (series_max (scores df))))
  else ret (mkGlobals r None None).

(** The keyword arguments of [render_template], without the constants
    [YEARS], [SYMBOLS], [MIN_SCORE] and [MAX_SCORE]. *)
Record Response : Type := mkResponse {
  selected_year : string;
  selected_symbol : string;
  keyword : string;
  sent_min : option pyfloat;
  sent_max : option pyfloat;
  row_count : nat;
  table_cols : list string;
  table_rows : list (list (string * cell));
  selected_news_id : string;
  selected_row : option (list (string * cell));
  trend_years : list Z;
  trend_scores : list pyfloat;
  summary_title : string;
  yearly_summary : Summary
}.

(** The candidate display columns, in display order. *)
Definition display_columns : list string :=
  ["Year"; "Date"; "Stock_symbol"; "news_id"; "Article_title";
   "sentiment_label"; "sentiment_score_signed"; "avg_sentiment_score";
   "article_count"; "publisher_count"; "avg_title_len"; "sentiment_category"].

Section WithRuntime.
Context {R : Runtime}.

(** [float(request.args.get(name, default))]: a present parameter is
    parsed, an absent one gives the default, and [float(None)] raises
    [TypeError]. *)
Definition float_arg (arg : option string) (default : option pyfloat)
  : exn + pyfloat :=
  match arg with
  | Some s =>
      match py_float s with
      | Some x => inr x
      | None => inl ValueError
      end
  | None =>
      match default with
      | Some x => inr x
      | None => inl TypeError
      end
  end.

(** The sentiment range of a request ([app.py] lines 110-115, [app1.py]
    lines 118-122): both bounds parsed, or both defaults as soon as one of
    the two conversions raises. *)
Definition sentiment_range (g : Globals) (req : Request)
  : option pyfloat * option pyfloat :=
  match float_arg (arg_sent_min req) (MIN_SCORE g),
        float_arg (arg_sent_max req) (MAX_SCORE g) with
  | inr lo, inr hi => (Some lo, Some hi)
  | _, _ => (MIN_SCORE g, MAX_SCORE g)
  end.

(** The sentiment paragraph, the same in both programs ([app.py] lines
    131-136, [app1.py] lines 139-144): applied whenever the frame has
    scores. *)
Definition filter_sentiment (g : Globals) (lo hi : option pyfloat)
  (filtered : DataFrame) : outcome :=
  match MIN_SCORE g with
  | Some _ =>
      if has_column "sentiment_score_signed" filtered then
        match lo, hi with
        | Some lo, Some hi => Rebind (getitem_mask (score_between lo hi) filtered)
        | _, _ => Raise TypeError
        end
      else Raise (KeyError "sentiment_score_signed")
  | None => Keep
  end.

End WithRuntime.

End Flask.

Import Flask.

(* ================================================================== *)
(** * [src/flask/app.py] *)
(* ================================================================== *)

Module App.

Section WithRuntime.
Context {R : Runtime}.

(** Lines 40-49. *)
Definition compute_annual_trend (df : ref) : M (list Z * list pyfloat) :=
  d <- read df ;;
  if negb (has_column "Year" d) || negb (has_column "sentiment_score_signed" d)
  then ret ([], [])
  else
    grouped <- alloc (Trend (groupby_mean_reset_index d)) ;;
    t0 <- read_trend grouped ;;
    annual <- alloc (Trend (dropna_Year t0)) ;;
    t <- read_trend annual ;;
    years <- lift (astype_int (map fst (t_rows t))) ;;
    ret (years, round4_tolist t).

(** Lines 52-93. *)
Definition compute_yearly_summary (df : ref) (selected_year : string)
  : M Summary :=
  d <- read df ;;
  df_year <-
    (if has_column "Year" d && negb (String.eqb selected_year "all")
     then try_except
            (derive df (fun d =>
               match py_int selected_year with
               | Some n => inr (getitem_mask (year_is n) d)
               | None => inl ValueError
               end))
            (copy df)
     else copy df) ;;
  dy <- read df_year ;;
  if negb (has_column "sentiment_label" dy) || empty dy
  then ret empty_summary
  else ret (summary_of_counts (sort_counts_desc (value_counts dy))).

(** Lines 120-125: the year paragraph. *)
Definition filter_year (selected_year : string) (filtered : DataFrame)
  : outcome :=
  if negb (String.eqb selected_year "all") && has_column "Year" filtered then
    match py_int selected_year with
    | Some n => Rebind (getitem_mask (year_is n) filtered)
    | None => Keep
    end
  else Keep.

(** Lines 127-129: the symbol paragraph. *)
Definition filter_symbol (selected_symbol : string) (filtered : DataFrame)
  : outcome :=
  if negb (String.eqb selected_symbol "all")
     && has_column "Stock_symbol" filtered
  then Rebind (getitem_mask (symbol_is selected_symbol) filtered)
  else Keep.

(** Lines 138-142: the keyword paragraph. *)
Definition filter_keyword (keyword : string) (filtered : DataFrame)
  : outcome :=
  if truthy keyword && has_column "Article_title" filtered then
    match re_compile_ic keyword with
    | Some m => Rebind (getitem_mask (title_matches m) filtered)
    | None => Raise ReError
    end
  else Keep.

(** Lines 144-146: the sort paragraph.  The test
    [is_datetime64_any_dtype] holds for every [Date] column of this
    model. *)
Definition sort_by_date (filtered : DataFrame) : outcome :=
  if has_column "Date" filtered
  then Rebind (sort_values_Date_desc filtered)
  else Keep.

(** Lines 117-146: the variable [filtered] after the filtering and the
    sorting paragraphs. *)
Definition filtered (g : Globals) (selected_year selected_symbol : string)
  (lo hi : option pyfloat) (keyword : string) : M ref :=
  filtered <- copy (DF g) ;;
  filtered <- assign filtered (filter_year selected_year) ;;
  filtered <- assign filtered (filter_symbol selected_symbol) ;;
  filtered <- assign filtered (filter_sentiment g lo hi) ;;
  filtered <- assign filtered (filter_keyword keyword) ;;
  filtered <- assign filtered sort_by_date ;;
  ret filtered.

(** [nid_type(selected_news_id)]: the text converted to the type of the
    first identifier of the column. *)
Definition convert_like (first : ident) (s : string) : exn + ident :=
  match first with
  | IdInt _ =>
      match py_int s with
      | Some n => inr (IdInt n)
      | None => inl ValueError
      end
  | IdStr _ => inr (IdStr s)
  end.

(** Lines 160-171: the detail section. *)
Definition detail (filtered : ref) (selected_news_id : string)
  : M (option (list (string * cell))) :=
  f <- read filtered ;;
  if truthy selected_news_id && negb (empty f) then
    row <- try_except
             (derive filtered (fun f =>
                if has_column "news_id" f then
                  match rows f with
                  | r0 :: _ =>
                      match convert_like (news_id r0) selected_news_id with
                      | inr nid => inr (getitem_mask (news_id_is nid) f)
                      | inl e => inl e
                      end
                  | [] => inl IndexError
                  end
                else inl (KeyError "news_id")))
             (derive filtered (fun f =>
                if has_column "news_id" f
                then inr (getitem_mask (news_id_str_is selected_news_id) f)
                else inl (KeyError "news_id"))) ;;
    rw <- read row ;;
    match rows rw with
    | r :: _ => ret (Some (row_to_dict (columns rw) r))
    | [] => ret None
    end
  else ret None.

(** Lines 96-202: the request handler. *)
Definition index (g : Globals) (req : Request) : M Response :=
  let selected_year := get (arg_year req) "all" in
  let selected_symbol := get (arg_symbol req) "all" in
  let keyword := strip (get (arg_keyword req) "") in
  let selected_news_id := strip (get (arg_news_id req) "") in
  let selected_year :=
    if String.eqb selected_year "" then "all" else selected_year in
  let selected_symbol :=
    if String.eqb selected_symbol "" then "all" else selected_symbol in
  let range := sentiment_range g req in
  filtered <- filtered g selected_year selected_symbol
                       (fst range) (snd range) keyword ;;
  f <- read filtered ;;
  let cols_to_show := filter (fun c => has_column c f) display_columns in
  shown <- derive_pure filtered (getitem_cols cols_to_show) ;;
  table_df <- derive_pure shown (head 200) ;;
  t <- read table_df ;;
  let table_rows := to_dict_records t in
  selected_row <- detail filtered selected_news_id ;;
  trend <- compute_annual_trend (DF g) ;;
  yearly_summary <- compute_yearly_summary (DF g) selected_year ;;
  let summary_title :=
    if String.eqb selected_year "all" then "Overall Trend for All Years"
    else String.append "Overall Trend for " selected_year in
  ret (mkResponse selected_year selected_symbol keyword
         (fst range) (snd range) (List.length (rows f)) cols_to_show
         table_rows selected_news_id selected_row (fst trend) (snd trend)
         summary_title yearly_summary).

End WithRuntime.

End App.

(* ================================================================== *)
(** * [src/flask2/app1.py] *)
(* ================================================================== *)

Module App1.

Section WithRuntime.
Context {R : Runtime}.

(** [s not in ["", "all", None]] for a string [s]. *)
Definition is_set (s : string) : bool :=
  negb (String.eqb s "" || String.eqb s "all").

(** Lines 78-82. *)
Definition compute_annual_trend (df : ref) : M (list Z * list pyfloat) :=
  d <- read df ;;
  if negb (has_column "Year" d) || negb (has_column "sentiment_score_signed" d)
  then ret ([], [])
  else
    annual <- alloc (Trend (groupby_mean_reset_index d)) ;;
    t <- read_trend annual ;;
    ret (tolist_int (map fst (t_rows t)), round4_tolist t).

(** Lines 85-107. *)
Definition compute_yearly_summary (df : ref) (selected_year : string)
  : M Summary :=
  d <- read df ;;
  df_year <-
    (if is_set selected_year && has_column "Year" d
     then try_except
            (derive df (fun d =>
               match py_int selected_year with
               | Some n => inr (getitem_mask (year_is n) d)
               | None => inl ValueError
               end))
            (copy df)
     else copy df) ;;
  dy <- read df_year ;;
  if negb (has_column "sentiment_label" dy) || empty dy
  then ret empty_summary
  else ret (summary_of_counts (value_counts dy)).

(** Lines 127-132: the year paragraph.  Both the [KeyError] of an absent
    column and the [ValueError] of [int] are swallowed. *)
Definition filter_year (selected_year : string) (filtered : DataFrame)
  : outcome :=
  if is_set selected_year then
    if has_column "Year" filtered then
      match py_int selected_year with
      | Some n => Rebind (getitem_mask (year_is n) filtered)
      | None => Keep
      end
    else Keep
  else Keep.

(** Line 136: the requested symbol, normalised. *)
Definition normalize_symbol (s : string) : string := upper (strip s).

(** Lines 134-137: the symbol paragraph. *)
Definition filter_symbol (selected_symbol : string) (filtered : DataFrame)
  : outcome :=
  if is_set selected_symbol then
    if has_column "Stock_symbol" filtered
    then Rebind (getitem_mask (symbol_is (normalize_symbol selected_symbol))
                              filtered)
    else Raise (KeyError "Stock_symbol")
  else Keep.

(** Lines 146-150: the keyword paragraph. *)
Definition filter_keyword (keyword : string) (filtered : DataFrame)
  : outcome :=
  if truthy keyword then
    if has_column "Article_title" filtered then
      match re_compile_ic keyword with
      | Some m => Rebind (getitem_mask (title_matches m) filtered)
      | None => Raise ReError
      end
    else Raise (KeyError "Article_title")
  else Keep.

(** Lines 152-154: the record-id paragraph. *)
Definition filter_news_id (selected_news_id : string) (filtered : DataFrame)
  : outcome :=
  if truthy selected_news_id then
    if has_column "news_id" filtered
    then Rebind (getitem_mask (news_id_str_is selected_news_id) filtered)
    else Raise (KeyError "news_id")
  else Keep.

(** Lines 156-158: the sort paragraph. *)
Definition sort_by_date (filtered : DataFrame) : outcome :=
  if has_column "Date" filtered
  then Rebind (sort_values_Date_desc filtered)
  else Keep.

(** Lines 124-158: the variable [filtered] after the filtering and the
    sorting paragraphs. *)
Definition filtered (g : Globals) (selected_year selected_symbol : string)
  (lo hi : option pyfloat) (keyword selected_news_id : string) : M ref :=
  filtered <- copy (DF g) ;;
  filtered <- assign filtered (filter_year selected_year) ;;
  filtered <- assign filtered (filter_symbol selected_symbol) ;;
  filtered <- assign filtered (filter_sentiment g lo hi) ;;
  filtered <- assign filtered (filter_keyword keyword) ;;
  filtered <- assign filtered (filter_news_id selected_news_id) ;;
  filtered <- assign filtered sort_by_date ;;
  ret filtered.

(** Lines 170-175: the detail section. *)
Definition detail (filtered : ref) (selected_news_id : string)
  : M (option (list (string * cell))) :=
  if truthy selected_news_id then
    found <- derive filtered (fun f =>
               if has_column "news_id" f
               then inr (getitem_mask (news_id_str_is selected_news_id) f)
               else inl (KeyError "news_id")) ;;
    m <- read found ;;
    match rows m with
    | r :: _ => ret (Some (row_to_dict (columns m) r))
    | [] => ret None
    end
  else ret None.

(** Lines 111-202: the request handler. *)
Definition index (g : Globals) (req : Request) : M Response :=
  let selected_year := get (arg_year req) "all" in
  let selected_symbol := get (arg_symbol req) "all" in
  let keyword := strip (get (arg_keyword req) "") in
  let selected_news_id := strip (get (arg_news_id req) "") in
  let range := sentiment_range g req in
  filtered <- filtered g selected_year selected_symbol
                       (fst range) (snd range) keyword selected_news_id ;;
  let selected_symbol :=
    if is_set selected_symbol then normalize_symbol selected_symbol
    else selected_symbol in
  f <- read filtered ;;
  let cols_to_show := filter (fun c => has_column c f) display_columns in
  shown <- derive_pure filtered (getitem_cols cols_to_show) ;;
  table_df <- derive_pure shown (head 200) ;;
  t <- read table_df ;;
  let table_rows := to_dict_records t in
  selected_row <- detail filtered selected_news_id ;;
  trend <- compute_annual_trend (DF g) ;;
  yearly_summary <- compute_yearly_summary (DF g) selected_year ;;
  let summary_title :=
    if String.eqb selected_year "all" then "Overall Trend for All Years"
    else String.append "Overall Trend for " selected_year in
  ret (mkResponse selected_year selected_symbol keyword
         (fst range) (snd range) (List.length (rows f)) cols_to_show
         table_rows selected_news_id selected_row (fst trend) (snd trend)
         summary_title yearly_summary).

End WithRuntime.

End App1.

(* ================================================================== *)
(** * What the two Streamlit programs share *)
(* ================================================================== *)

Module Streamlit.

(** What the sidebar widgets return in one run of the script:
    [w_year] is the choice of the year select box ([None] for the entry
    ["(All)"]), [w_symbol] the choice of the symbol select box, [w_range]
    the pair of the sentiment slider, [w_keyword] the text input and
    [w_news_id] the choice of the record select box of the detail
    viewer. *)
Record Widgets : Type := mkWidgets {
  w_year : option Z;
  w_symbol : string;
  w_range : pyfloat * pyfloat;
  w_keyword : string;
  w_news_id : ident
}.

(** The sentiment summary a script displays: the dominant label, its
    share as formatted for the metric widget, and the breakdown table
    (label, count, share). *)
Record SummaryView : Type := mkSummaryView {
  top_label : string;
  top_pct : string;
  breakdown : list (string * nat * cell)
}.

(** What one run of a script displays. *)
Record Output : Type := mkOutput {
  trend_chart : option (list (Z * pyfloat));
  summary_view : option SummaryView;
  result_count : nat;
  result_table : list (list (string * cell));
  detail_view : option (list (string * cell))
}.

(** The candidate display columns, in display order. *)
Definition display_columns : list string :=
  ["Year"; "Date"; "Stock_symbol"; "news_id"; "Article_title";
   "sentiment_label"; "sentiment_score_signed"; "avg_sentiment_score";
   "pos_ratio"; "neg_ratio"; "article_count"; "publisher_count";
   "avg_title_len"; "sentiment_category"].

(** The rows of a frame of yearly means as chart points. *)
Fixpoint chart_points (l : list (option Z * pyfloat)) : list (Z * pyfloat) :=
  match l with
  | [] => []
  | (Some y, v) :: l' => (y, v) :: chart_points l'
  | (None, _) :: l' => chart_points l'
  end.

(** The sentiment paragraph, the same in both scripts ([backend.py] lines
    85-89, [backnew.py] lines 112-116): a pair is truthy, so the range is
    applied whenever the slider exists. *)
Definition filter_sentiment (sentiment_range : option (pyfloat * pyfloat))
  (filtered : DataFrame) : outcome :=
  match sentiment_range with
  | Some (lo, hi) =>
      if has_column "sentiment_score_signed" filtered
      then Rebind (getitem_mask (score_between lo hi) filtered)
      else Raise (KeyError "sentiment_score_signed")
  | None => Keep
  end.

(** The sort paragraph, the same in both scripts ([backend.py] lines
    140-141, [backnew.py] lines 194-199).  The test
    [is_datetime64_any_dtype] holds for every [Date] column of this
    model. *)
Definition sort_by_date (filtered : DataFrame) : outcome :=
  if has_column "Date" filtered
  then Rebind (sort_values_Date_desc filtered)
  else Keep.

(** In-place update of a frame of yearly means: [t.f(..., inplace=True)]. *)
Definition update_trend (r : ref) (f : TrendFrame -> exn + TrendFrame)
  : M unit :=
  t <- read_trend r ;;
  t' <- lift (f t) ;;
  write r (Trend t').

End Streamlit.

Import Streamlit.

(* ================================================================== *)
(** * [src/backend.py] *)
(* ================================================================== *)

Module Backend.

Section WithRuntime.
Context {R : Runtime}.

(** Lines 79-80: the year paragraph. *)
Definition filter_year (selected_year : option Z) (filtered : DataFrame)
  : outcome :=
  match selected_year with
  | Some n =>
      if has_column "Year" filtered
      then Rebind (getitem_mask (year_is n) filtered)
      else Raise (KeyError "Year")
  | None => Keep
  end.

(** Lines 82-83: the symbol paragraph. *)
Definition filter_symbol (symbol : string) (filtered : DataFrame) : outcome :=
  if negb (String.eqb symbol "(All)") then
    if has_column "Stock_symbol" filtered
    then Rebind (getitem_mask (symbol_is symbol) filtered)
    else Raise (KeyError "Stock_symbol")
  else Keep.

(** Lines 91-94: the keyword paragraph. *)
Definition filter_keyword (keyword : string) (filtered : DataFrame)
  : outcome :=
  if truthy keyword then
    if has_column "Article_title" filtered then
      match re_compile_ic keyword with
      | Some m => Rebind (getitem_mask (title_matches m) filtered)
      | None => Raise ReError
      end
    else Raise (KeyError "Article_title")
  else Keep.

(** Lines 49-54: the year chosen in the sidebar. *)
Definition selected_year (d : DataFrame) (w : Widgets) : option Z :=
  if has_column "Year" d then w_year w else None.

(** Lines 56-61: the symbol chosen in the sidebar. *)
Definition symbol (d : DataFrame) (w : Widgets) : string :=
  if has_column "Stock_symbol" d then w_symbol w else "(All)".

(** Lines 63-71: the sentiment range chosen in the sidebar. *)
Definition sentiment_range (d : DataFrame) (w : Widgets)
  : option (pyfloat * pyfloat) :=
  if has_column "sentiment_score_signed" d then Some (w_range w) else None.

(** Lines 76-94 and 140-141: the variable [filtered] after the filtering
    paragraphs and the sort.  The script sorts after it has drawn the
    trend and the summary, which neither read nor assign [filtered]; the
    sort cannot raise, so it is placed here with the filters. *)
Definition filtered (df : ref) (w : Widgets) : M ref :=
  d <- read df ;;
  filtered <- copy df ;;
  filtered <- assign filtered (filter_year (selected_year d w)) ;;
  filtered <- assign filtered (filter_symbol (symbol d w)) ;;
  filtered <- assign filtered
                (Streamlit.filter_sentiment (sentiment_range d w)) ;;
  filtered <- assign filtered (filter_keyword (w_keyword w)) ;;
  filtered <- assign filtered Streamlit.sort_by_date ;;
  ret filtered.

(** Lines 96-102: the annual trend chart. *)
Definition annual_trend (df : ref) : M (option (list (Z * pyfloat))) :=
  d <- read df ;;
  if has_column "Year" d then
    if has_column "sentiment_score_signed" d
    then ret (Some (map (fun g => (fst g, series_mean (snd g)))
                        (groupby_Year (rows d))))
    else raise (KeyError "sentiment_score_signed")
  else ret None.

(** Lines 106-133: the summary for the selected year.  Without a selected
    year [year_df] is the frame [df] itself, not a copy. *)
Definition yearly_summary (df : ref) (selected_year : option Z)
  : M (option SummaryView) :=
  year_df <-
    match selected_year with
    | Some n =>
        derive df (fun d =>
          if has_column "Year" d then inr (getitem_mask (year_is n) d)
          else inl (KeyError "Year"))
    | None => ret df
    end ;;
  y <- read year_df ;;
  if has_column "sentiment_label" y && negb (empty y) then
    let counts := value_counts y in
    let total := counts_sum counts in
    match counts with
    | (label, cnt) :: _ =>
        ret (Some (mkSummaryView label (format_pct (percent cnt total))
               (map (fun p => (fst p, snd p,
                               CFloat (round_to 1 (percent (snd p) total))))
                    counts)))
    | [] => raise IndexError
    end
  else ret None.

(** Lines 155-187: the detail viewer. *)
Definition detail (filtered : ref) (selected_id : ident)
  : M (option (list (string * cell))) :=
  f <- read filtered ;;
  if empty f then ret None
  else if negb (has_column "news_id" f) then raise (KeyError "news_id")
  else
    found <- derive_pure filtered (getitem_mask (news_id_is selected_id)) ;;
    m <- read found ;;
    match rows m with
    | r :: _ =>
        if has_column "Article_title" m
        then ret (Some (row_to_dict (columns m) r))
        else raise (KeyError "Article_title")
    | [] => raise IndexError
    end.

(** One run of the script on the loaded frame [df]. *)
Definition script (df : ref) (w : Widgets) : M Output :=
  d <- read df ;;
  filtered <- filtered df w ;;
  trend <- annual_trend df ;;
  summary <- yearly_summary df (selected_year d w) ;;
  f <- read filtered ;;
  let cols := filter (fun c => has_column c f) Streamlit.display_columns in
  shown <- derive_pure filtered (getitem_cols cols) ;;
  table <- derive_pure shown (head 200) ;;
  t <- read table ;;
  view <- detail filtered (w_news_id w) ;;
  ret (mkOutput trend summary (List.length (rows f)) (to_dict_records t) view).

End WithRuntime.

End Backend.

(* ================================================================== *)
(** * [src/backnew.py] *)
(* ================================================================== *)

Module Backnew.

Section WithRuntime.
Context {R : Runtime}.

(** Lines 103-105: the year paragraph. *)
Definition filter_year (selected_year : option Z) (filtered : DataFrame)
  : outcome :=
  match selected_year with
  | Some n =>
      if has_column "Year" filtered
      then Rebind (getitem_mask (year_is n) filtered)
      else Keep
  | None => Keep
  end.

(** Lines 107-109: the symbol paragraph. *)
Definition filter_symbol (symbol : string) (filtered : DataFrame) : outcome :=
  if negb (String.eqb symbol "(All)") then
    if has_column "Stock_symbol" filtered
    then Rebind (getitem_mask (symbol_is symbol) filtered)
    else Raise (KeyError "Stock_symbol")
  else Keep.

(** Lines 118-122: the keyword paragraph. *)
Definition filter_keyword (keyword : string) (filtered : DataFrame)
  : outcome :=
  if truthy keyword && has_column "Article_title" filtered then
    match re_compile_ic keyword with
    | Some m => Rebind (getitem_mask (title_matches m) filtered)
    | None => Raise ReError
    end
  else Keep.

(** Lines 58-67: the year chosen in the sidebar. *)
Definition selected_year (d : DataFrame) (w : Widgets) : option Z :=
  if has_column "Year" d then w_year w else None.

(** Lines 69-74: the symbol chosen in the sidebar. *)
Definition symbol (d : DataFrame) (w : Widgets) : string :=
  if has_column "Stock_symbol" d then w_symbol w else "(All)".

(** Lines 76-93: the sentiment range chosen in the sidebar; when all
    scores are equal there is no slider and the range is that value. *)
Definition sentiment_range (d : DataFrame) (w : Widgets)
  : option (pyfloat * pyfloat) :=
  if has_column "sentiment_score_signed" d then
    let min_score := series_min (scores d) in
    let max_score := series_max (scores d) in
    match min_score, max_score with
    | Fl a, Fl b => if Qeq_bool a b then Some (min_score, max_score)
                    else Some (w_range w)
    | _, _ => Some (w_range w)
    end
  else None.

(** Lines 98-122 and 193-199: the variable [filtered] after the filtering
    paragraphs and the sort.  The script sorts after it has drawn the
    trend and the summary, which neither read nor assign [filtered]; the
    sort cannot raise, so it is placed here with the filters. *)
Definition filtered (df : ref) (w : Widgets) : M ref :=
  d <- read df ;;
  filtered <- copy df ;;
  filtered <- assign filtered (filter_year (selected_year d w)) ;;
  filtered <- assign filtered (filter_symbol (symbol d w)) ;;
  filtered <- assign filtered
                (Streamlit.filter_sentiment (sentiment_range d w)) ;;
  filtered <- assign filtered (filter_keyword (w_keyword w)) ;;
  filtered <- assign filtered Streamlit.sort_by_date ;;
  ret filtered.

(** Lines 124-139: the annual trend chart.  The frame of yearly means is
    renamed and re-indexed in place. *)
Definition annual_trend (df : ref) : M (option (list (Z * pyfloat))) :=
  d <- read df ;;
  if has_column "Year" d && has_column "sentiment_score_signed" d then
    annual_trend <- alloc (Trend (groupby_mean_reset_index d)) ;;
    update_trend annual_trend
      (fun t => inr (rename_column "sentiment_score_signed"
                                   "Average Sentiment Score" t)) ;;;
    update_trend annual_trend (set_index "Year") ;;;
    t <- read_trend annual_trend ;;
    ret (Some (chart_points (t_rows t)))
  else ret None.

(** Lines 141-186: the summary for the selected year. *)
Definition yearly_summary (df : ref) (selected_year : option Z)
  : M (option SummaryView) :=
  yearly_summary_df <- copy df ;;
  yearly_summary_df <-
    assign yearly_summary_df (fun d =>
      match selected_year with
      | Some n => if has_column "Year" d
                  then Rebind (getitem_mask (year_is n) d) else Keep
      | None => Keep
      end) ;;
  y <- read yearly_summary_df ;;
  if has_column "sentiment_label" y then
    let sentiment_counts := sort_counts_desc (value_counts y) in
    let total_articles := counts_sum sentiment_counts in
    if (0 <? total_articles)%nat then
      match sentiment_counts with
      | (label, cnt) :: _ =>
          ret (Some (mkSummaryView (upper label)
                 (format_pct (percent cnt total_articles))
                 (map (fun p => (fst p, snd p,
                         CStr (format_pct (percent (snd p) total_articles))))
                      sentiment_counts)))
      | [] => raise IndexError
      end
    else ret None
  else ret None.

(** Lines 227-279: the detail viewer. *)
Definition detail (filtered : ref) (selected_id : ident)
  : M (option (list (string * cell))) :=
  f <- read filtered ;;
  if empty f then ret None
  else if negb (has_column "news_id" f) then raise (KeyError "news_id")
  else
    found <- derive_pure filtered (getitem_mask (news_id_is selected_id)) ;;
    m <- read found ;;
    match rows m with
    | r :: _ => ret (Some (row_to_dict (columns m) r))
    | [] => raise IndexError
    end.

(** One run of the script on the loaded frame [df]. *)
Definition script (df : ref) (w : Widgets) : M Output :=
  d <- read df ;;
  filtered <- filtered df w ;;
  trend <- annual_trend df ;;
  summary <- yearly_summary df (selected_year d w) ;;
  f <- read filtered ;;
  let cols := filter (fun c => has_column c f) Streamlit.display_columns in
  shown <- derive_pure filtered (getitem_cols cols) ;;
  table <- derive_pure shown (head 200) ;;
  t <- read table ;;
  view <- detail filtered (w_news_id w) ;;
  ret (mkOutput trend summary (List.length (rows f)) (to_dict_records t) view).

End WithRuntime.

End Backnew.

(* ================================================================== *)
(** * Loading the dataset *)
(* ================================================================== *)

Module Loading.

(** How [load_data] can end without a frame: the exceptions the functions
    raise themselves, the exception of a reader that [app.py] lets
    through, and [st.stop()] in the Streamlit scripts. *)
Inductive load_error : Type :=
| FileNotFoundError
| ReaderError
| RuntimeError
| Stopped.

(** A cell of the [Date] column as a reader returns it. *)
Inductive raw_date : Type :=
| RawNull
| RawText (s : string)
| RawStamp (t : Z).

(** A row as read: the cell of the [Date] column, and the other columns;
    the fields [Date] of [fields] is not looked at, and its field [Year]
    is the [Year] column of the file, if it has one. *)
Record RawRow : Type := mkRaw {
  raw_Date : raw_date;
  fields : Row
}.

Record RawFrame : Type := mkRawFrame {
  raw_columns : list string;
  raw_rows : list RawRow
}.

(** The file system and the library calls [load_data] relies on.  A
    reader gives [None] when it raises.  [to_datetime] is
    [pd.to_datetime(..., errors="coerce")] on one cell, [dt_year] is
    [.dt.year] on one timestamp, and [str_of_null] is what
    [astype(str)] makes of a null: a text such as "nan" or "None" for a
    column of Python objects, and [None] for a string column that keeps
    its nulls. *)
Class Files : Type := {
  path_exists : string -> bool;
  path_isdir : string -> bool;
  read_dataset : string -> option RawFrame;
  read_parquet : string -> option RawFrame;
  read_csv : string -> option RawFrame;
  to_datetime : raw_date -> option Z;
  dt_year : Z -> Z;
  str_of_null : option string
}.

(** [s.endswith(suffix)]. *)
Fixpoint endswith (suffix s : string) : bool :=
  String.eqb s suffix ||
  match s with
  | EmptyString => false
  | String _ s' => endswith suffix s'
  end.

(** The columns after [df[c] = ...]: a new column comes last. *)
Definition setitem_column (c : string) (cols : list string) : list string :=
  if existsb (String.eqb c) cols then cols else cols ++ [c].

Definition with_dates (r : Row) (d y : option Z) : Row :=
  mkRow (news_id r) d y (Stock_symbol r) (Article_title r)
        (sentiment_label r) (sentiment_score_signed r) (extra r).

Definition with_symbol (r : Row) (s : option string) : Row :=
  mkRow (news_id r) (Date r) (Year r) s (Article_title r)
        (sentiment_label r) (sentiment_score_signed r) (extra r).

(** [df.empty] of a frame as read: no row or no column. *)
Definition raw_empty (raw : RawFrame) : bool :=
  match raw_rows raw, raw_columns raw with
  | _ :: _, _ :: _ => false
  | _, _ => true
  end.

Section WithFiles.
Context {F : Files}.

(** The date paragraph, the same in the four programs ([app.py] lines
    18-21, [app1.py] lines 31-34, [backend.py] lines 35-38, [backnew.py]
    lines 36-42). *)
Definition parse_dates (raw : RawFrame) : DataFrame :=
  if existsb (String.eqb "Date") (raw_columns raw) then
    mkDF (setitem_column "Year" (raw_columns raw))
         (map (fun r => with_dates (fields r) (to_datetime (raw_Date r))
                          (option_map dt_year (to_datetime (raw_Date r))))
              (raw_rows raw))
  else mkDF (raw_columns raw) (map fields (raw_rows raw)).

(** [astype(str)] on one cell of a text column. *)
Definition astype_str (o : option string) : option string :=
  match o with
  | Some s => Some s
  | None => str_of_null
  end.

(** [app1.py] lines 36-38: the symbol paragraph. *)
Definition normalize_symbols (df : DataFrame) : DataFrame :=
  if has_column "Stock_symbol" df then
    mkDF (columns df)
         (map (fun r => with_symbol r
                          (option_map App1.normalize_symbol
                             (astype_str (Stock_symbol r))))
              (rows df))
  else df.

(** [app.py] lines 11-23. *)
Definition App_load_data (filename : string) : load_error + DataFrame :=
  if negb (path_exists filename) then inl FileNotFoundError
  else
    match read_csv filename with
    | Some raw => inr (parse_dates raw)
    | None => inl ReaderError
    end.

(** [app1.py] lines 12-40: every failure of the reading paragraph,
    the [ValueError] of an unsupported format included, is raised again
    as [RuntimeError]. *)
Definition App1_load_data (path : string) : load_error + DataFrame :=
  if negb (path_exists path) then inl FileNotFoundError
  else
    match (if path_isdir path then read_dataset path
           else if endswith ".parquet" path then read_parquet path
           else if endswith ".csv" path then read_csv path
           else None) with
    | Some raw => inr (normalize_symbols (parse_dates raw))
    | None => inl RuntimeError
    end.

(** [backend.py] lines 15-40. *)
Definition Backend_load_data (path : string) : load_error + DataFrame :=
  if negb (path_exists path) then inl Stopped
  else
    match (if path_isdir path then read_dataset path
           else read_parquet path) with
    | Some raw => inr (parse_dates raw)
    | None => inl Stopped
    end.

(** [backnew.py] lines 17-48: a file that is missing, cannot be read or
    holds an empty frame stops the script. *)
Definition Backnew_load_data (filename : string) : load_error + DataFrame :=
  match (if path_exists filename then read_csv filename else None) with
  | Some raw => if raw_empty raw then inl Stopped else inr (parse_dates raw)
  | None => inl Stopped
  end.

End WithFiles.

End Loading.

Import Loading.

(* ================================================================== *)
(** * The option lists of the menus *)
(* ================================================================== *)

Module Options.

(** [Series.unique()]: the values in order of first appearance. *)
Fixpoint unique {A : Type} (eqb : A -> A -> bool) (l : list A) : list A :=
  match l with
  | [] => []
  | x :: l' => x :: filter (fun y => negb (eqb x y)) (unique eqb l')
  end.

(** [Series.dropna().tolist()] of a nullable column. *)
Fixpoint dropna_list {A : Type} (l : list (option A)) : list A :=
  match l with
  | [] => []
  | Some x :: l' => x :: dropna_list l'
  | None :: l' => dropna_list l'
  end.

(** [sorted(l)] for the order [leb]; equal elements keep their order.
    [sorted(l, reverse=True)] is [sorted] for the converse order. *)
Fixpoint insert_sorted {A : Type} (leb : A -> A -> bool) (x : A)
  (l : list A) : list A :=
  match l with
  | [] => [x]
  | y :: l' => if leb x y then x :: l else y :: insert_sorted leb x l'
  end.

Definition sorted {A : Type} (leb : A -> A -> bool) (l : list A) : list A :=
  fold_right (insert_sorted leb) [] l.

Definition ident_eqb (a b : ident) : bool :=
  match a, b with
  | IdInt x, IdInt y => Z.eqb x y
  | IdStr x, IdStr y => String.eqb x y
  | _, _ => false
  end.

(** [app.py] line 30, [app1.py] line 67: the years of the year menu. *)
Definition YEARS (df : DataFrame) : list Z :=
  if has_column "Year" df
  then sorted Z.leb (rev (unique Z.eqb (dropna_list (map Year (rows df)))))
  else [].

(** [app.py] line 31, [app1.py] line 68: the symbols of the symbol menu,
    in code-point order. *)
Definition SYMBOLS (df : DataFrame) : list string :=
  if has_column "Stock_symbol" df
  then sorted String.leb
         (unique String.eqb (dropna_list (map Stock_symbol (rows df))))
  else [].

(** [backend.py] lines 50-52, [backnew.py] lines 59-65: the entries of
    the year select box, [None] standing for the entry "(All)"; there is
    no select box when the frame has no year column. *)
Definition year_options (df : DataFrame) : list (option Z) :=
  if has_column "Year" df
  then None :: map Some
                 (sorted (fun a b => Z.leb b a)
                    (unique Z.eqb (dropna_list (map Year (rows df)))))
  else [].

(** [backend.py] lines 57-59, [backnew.py] lines 70-72: the entries of
    the symbol select box. *)
Definition symbol_options (df : DataFrame) : list string :=
  if has_column "Stock_symbol" df
  then "(All)" :: sorted String.leb
                    (unique String.eqb
                       (dropna_list (map Stock_symbol (rows df))))
  else [].

(** [backend.py] line 161, [backnew.py] line 235: the entries of the
    record select box, [filtered["news_id"].unique()]. *)
Definition id_options (filtered : DataFrame) : list ident :=
  unique ident_eqb (map news_id (rows filtered)).

End Options.

(* ================================================================== *)
(** * A concrete runtime *)
(* ================================================================== *)

(** An executable instance of [Runtime], used to run the programs on
    concrete inputs.  [parse_int] follows [int()] on ASCII text.
    [parse_float] covers signed decimal literals and [nan]; [compile_ic]
    covers patterns made of literal characters, [.], the class escapes
    [\d \D \s \S \w \W] and escaped punctuation.  Texts outside these
    fragments are rejected by this instance; no statement below evaluates
    it on such a text. *)
Module Builtins.

Definition digit_of (c : ascii) : option Z :=
  let n := nat_of_ascii c in
  if ((48 <=? n)%nat && (n <=? 57)%nat)%bool
  then Some (Z.of_nat (n - 48)) else None.

(** Decimal digits with single underscores between them. *)
Fixpoint digits_acc (s : string) (acc : Z) (after_digit : bool) : option Z :=
  match s with
  | EmptyString => if after_digit then Some acc else None
  | String c s' =>
      if Ascii.eqb c "_"%char then
        if after_digit then digits_acc s' acc false else None
      else
        match digit_of c with
        | Some d => digits_acc s' (acc * 10 + d)%Z true
        | None => None
        end
  end.

Definition parse_int (s : string) : option Z :=
  match strip s with
  | String c t =>
      if Ascii.eqb c "-"%char then option_map Z.opp (digits_acc t 0%Z false)
      else if Ascii.eqb c "+"%char then digits_acc t 0%Z false
      else digits_acc (String c t) 0%Z false
  | EmptyString => None
  end.

(** Leading digits of [s]: their value on top of [acc], how many there
    are, and the rest of the text. *)
Fixpoint scan_digits (s : string) (acc : Z) (n : nat) : Z * nat * string :=
  match s with
  | EmptyString => (acc, n, EmptyString)
  | String c s' =>
      match digit_of c with
      | Some d => scan_digits s' (acc * 10 + d)%Z (S n)
      | None => (acc, n, s)
      end
  end.

Definition parse_decimal (s : string) : option Q :=
  let '(ip, ni, rest) := scan_digits s 0%Z 0%nat in
  match rest with
  | EmptyString => if (0 <? ni)%nat then Some (inject_Z ip) else None
  | String c rest' =>
      if Ascii.eqb c "."%char then
        let '(v, nf, rest'') := scan_digits rest' ip 0%nat in
        match rest'' with
        | EmptyString =>
            if (0 <? ni + nf)%nat
            then Some (Qmake v (Nat.iter nf (Pos.mul 10) 1%positive))
            else None
        | String _ _ => None
        end
      else None
  end.

Definition parse_unsigned_float (s : string) : option pyfloat :=
  if String.eqb (lower s) "nan" then Some NaN
  else option_map Fl (parse_decimal s).

Definition fneg (a : pyfloat) : pyfloat :=
  match a with NaN => NaN | Fl q => Fl (- q)%Q end.

Definition parse_float (s : string) : option pyfloat :=
  match strip s with
  | String c t =>
      if Ascii.eqb c "-"%char then option_map fneg (parse_unsigned_float t)
      else if Ascii.eqb c "+"%char then parse_unsigned_float t
      else parse_unsigned_float (String c t)
  | EmptyString => None
  end.

(** ** Regular expressions *)

Inductive atom : Type :=
| Lit (c : ascii)
| AnyChar
| Digit (negated : bool)
| Space (negated : bool)
| Word (negated : bool).

Definition is_digit (c : ascii) : bool :=
  let n := nat_of_ascii c in ((48 <=? n)%nat && (n <=? 57)%nat)%bool.

Definition is_alpha (c : ascii) : bool :=
  let n := nat_of_ascii (upper_char c) in ((65 <=? n)%nat && (n <=? 90)%nat)%bool.

Definition is_word (c : ascii) : bool :=
  is_alpha c || is_digit c || Ascii.eqb c "_"%char.

(** The characters with a special meaning in a pattern. *)
Definition is_meta (c : ascii) : bool :=
  existsb (Ascii.eqb c)
    ["."; "^"; "$"; "*"; "+"; "?"; "{"; "}"; "["; "]"; "("; ")"; "|";
     "\"]%char.

(** One character against one atom, ignoring case. *)
Definition atom_matches (a : atom) (c : ascii) : bool :=
  match a with
  | Lit x => Ascii.eqb (upper_char x) (upper_char c)
  | AnyChar => negb (Ascii.eqb c (ascii_of_nat 10))
  | Digit neg => xorb neg (is_digit c)
  | Space neg => xorb neg (is_space c)
  | Word neg => xorb neg (is_word c)
  end.

Definition escape (c : ascii) : option atom :=
  if Ascii.eqb c "d"%char then Some (Digit false)
  else if Ascii.eqb c "D"%char then Some (Digit true)
  else if Ascii.eqb c "s"%char then Some (Space false)
  else if Ascii.eqb c "S"%char then Some (Space true)
  else if Ascii.eqb c "w"%char then Some (Word false)
  else if Ascii.eqb c "W"%char then Some (Word true)
  else if is_alpha c || is_digit c then None
  else Some (Lit c).

Fixpoint parse (pat : string) : option (list atom) :=
  match pat with
  | EmptyString => Some []
  | String c rest =>
      if Ascii.eqb c "\"%char then
        match rest with
        | String e rest' =>
            match escape e, parse rest' with
            | Some a, Some l => Some (a :: l)
            | _, _ => None
            end
        | EmptyString => None
        end
      else if Ascii.eqb c "."%char then option_map (cons AnyChar) (parse rest)
      else if is_meta c then None
      else option_map (cons (Lit c)) (parse rest)
  end.

Fixpoint match_here (l : list atom) (s : string) : bool :=
  match l, s with
  | [], _ => true
  | a :: l', String c s' => atom_matches a c && match_here l' s'
  | _ :: _, EmptyString => false
  end.

(** [regex.search(s) is not None]. *)
Fixpoint search (l : list atom) (s : string) : bool :=
  match_here l s ||
  match s with
  | EmptyString => false
  | String _ s' => search l s'
  end.

Definition compile_ic (pat : string) : option (string -> bool) :=
  option_map search (parse pat).

Definition runtime : Runtime := Build_Runtime parse_int parse_float compile_ic.

End Builtins.

(* ================================================================== *)
(** * The values the programs compute *)
(* ================================================================== *)

(** The statements below speak about runs of the programs above.  The
    definitions of this part only name what such a run is observed to
    do: they are the vocabulary of the statements, and are related to the
    programs by the lemmas that follow. *)

(** [h] holds the news frame [df] at [r]. *)
Definition holds (h : heap) (r : ref) (df : DataFrame) : Prop :=
  nth_error h r = Some (News df).

(** [h'] is [h] with new objects after it: every object of [h] is still
    there, at the same place, unchanged. *)
Definition extends (h h' : heap) : Prop := exists ext, h' = h ++ ext.

(** The outcome of [m] in [h] satisfies [Q]. *)
Definition post {A : Type} (m : M A) (h : heap)
  (Q : exn + A -> heap -> Prop) : Prop :=
  Q (fst (m h)) (snd (m h)).

(** The frame a paragraph leaves in the variable. *)
Definition stage_value (st : DataFrame -> outcome) (df : DataFrame)
  : exn + DataFrame :=
  match st df with
  | Keep => inr df
  | Rebind d => inr d
  | Raise e => inl e
  end.

(** The frame a sequence of paragraphs leaves in the variable. *)
Fixpoint run_stages (sts : list (DataFrame -> outcome)) (df : DataFrame)
  : exn + DataFrame :=
  match sts with
  | [] => inr df
  | st :: rest =>
      match stage_value st df with
      | inr d => run_stages rest d
      | inl e => inl e
      end
  end.

(** A computation that started in [h] ended with the variable holding a
    frame equal to [v], or raised what [v] raises. *)
Definition yields (h : heap) (v : exn + DataFrame)
  : exn + ref -> heap -> Prop :=
  fun res h' =>
    extends h h' /\
    match v with
    | inr d => exists r, res = inr r /\ holds h' r d
    | inl e => res = inl e
    end.

(** Every row of the frame a computation returns satisfies [P]. *)
Definition returned_rows (m : M ref) (h : heap) (P : Row -> Prop) : Prop :=
  forall r h', m h = (inr r, h') ->
    exists d, holds h' r d /\ Forall P (rows d).

(** Descending date order with [NaT] last, as a relation. *)
Definition date_ge (a b : Row) : Prop := date_geb a b = true.

(** [lo <= x <= hi] on floats, all three being numbers. *)
Definition within (lo hi : option pyfloat) (x : pyfloat) : Prop :=
  exists a b q, lo = Some (Fl a) /\ hi = Some (Fl b) /\ x = Fl q /\
                (a <= q)%Q /\ (q <= b)%Q.

(** The score of a row is within the range. *)
Definition score_within (lo hi : option pyfloat) (row : Row) : Prop :=
  within lo hi (sentiment_score_signed row).

(** The normalised symbol of a row is the normalised requested one. *)
Definition symbol_matches (requested : string) (row : Row) : Prop :=
  option_map App1.normalize_symbol (Stock_symbol row)
  = Some (App1.normalize_symbol requested).

(** The frame a run returned, if it returned one. *)
Definition returned_frame (x : (exn + ref) * heap) : option DataFrame :=
  match x with
  | (inr r, h') =>
      match nth_error h' r with
      | Some (News d) => Some d
      | _ => None
      end
  | (inl _, _) => None
  end.

(** A request without its year parameter. *)
Definition without_year (req : Request) : Request :=
  mkRequest None (arg_symbol req) (arg_keyword req) (arg_news_id req)
            (arg_sent_min req) (arg_sent_max req).

(** Two responses that differ at most in the year they echo and in the
    title built from it. *)
Definition same_data (a b : Response) : Prop :=
  selected_symbol a = selected_symbol b /\
  keyword a = keyword b /\
  sent_min a = sent_min b /\
  sent_max a = sent_max b /\
  row_count a = row_count b /\
  table_cols a = table_cols b /\
  table_rows a = table_rows b /\
  selected_news_id a = selected_news_id b /\
  selected_row a = selected_row b /\
  trend_years a = trend_years b /\
  trend_scores a = trend_scores b /\
  yearly_summary a = yearly_summary b.

(** Two runs of a handler that end in the same heap and either raise the
    same exception or return the same data. *)
Definition same_outcome (x y : (exn + Response) * heap) : Prop :=
  snd x = snd y /\
  match fst x, fst y with
  | inr a, inr b => same_data a b
  | inl e1, inl e2 => e1 = e2
  | _, _ => False
  end.

(** The title contains the keyword as a case-insensitive substring: the
    reading of the keyword the interface describes. *)
Definition icontains (keyword title : string) : bool :=
  contains (upper keyword) (upper title).

(** The paragraphs of each program, in order. *)
Definition App_stages {R : Runtime} (g : Globals)
  (selected_year selected_symbol : string) (lo hi : option pyfloat)
  (keyword : string) : list (DataFrame -> outcome) :=
  [App.filter_year selected_year; App.filter_symbol selected_symbol;
   Flask.filter_sentiment g lo hi; App.filter_keyword keyword;
   App.sort_by_date].

Definition App1_stages {R : Runtime} (g : Globals)
  (selected_year selected_symbol : string) (lo hi : option pyfloat)
  (keyword selected_news_id : string) : list (DataFrame -> outcome) :=
  [App1.filter_year selected_year; App1.filter_symbol selected_symbol;
   Flask.filter_sentiment g lo hi; App1.filter_keyword keyword;
   App1.filter_news_id selected_news_id; App1.sort_by_date].

Definition Backend_stages {R : Runtime} (d : DataFrame) (w : Widgets)
  : list (DataFrame -> outcome) :=
  [Backend.filter_year (Backend.selected_year d w);
   Backend.filter_symbol (Backend.symbol d w);
   Streamlit.filter_sentiment (Backend.sentiment_range d w);
   Backend.filter_keyword (w_keyword w); Streamlit.sort_by_date].

Definition Backnew_stages {R : Runtime} (d : DataFrame) (w : Widgets)
  : list (DataFrame -> outcome) :=
  [Backnew.filter_year (Backnew.selected_year d w);
   Backnew.filter_symbol (Backnew.symbol d w);
   Streamlit.filter_sentiment (Backnew.sentiment_range d w);
   Backnew.filter_keyword (w_keyword w); Streamlit.sort_by_date].

(** The globals [startup] computes from the frame [df] at [r]. *)
Definition globals_of (r : ref) (df : DataFrame) : Globals :=
  if has_column "sentiment_score_signed" df
  then mkGlobals r (Some (series_min (scores df)))
                   (Some (series_max (scores df)))
  else mkGlobals r None None.

(** The rows of [df] whose year is [y], and their scores. *)
Definition rows_of_year (y : Z) (df : DataFrame) : list Row :=
  filter (year_is y) (rows df).

Definition scores_of_year (y : Z) (df : DataFrame) : list pyfloat :=
  map sentiment_score_signed (rows_of_year y df).

(** The rows of [df] with a non-null score. *)
Definition scored_rows (df : DataFrame) : list Row :=
  filter (fun r => notna (sentiment_score_signed r)) (rows df).

(** The rows the filter pipeline keeps when no filter is set. *)
Definition unfiltered_rows (df : DataFrame) : list Row :=
  if has_column "sentiment_score_signed" df then scored_rows df else rows df.

(** The request without any parameter, and the sidebar left untouched. *)
Definition no_filter : Request := mkRequest None None None None None None.

Definition untouched (df : DataFrame) (i : ident) : Widgets :=
  mkWidgets None "(All)" (series_min (scores df), series_max (scores df))
            "" i.

(** The score of a row is not null. *)
Definition scored (row : Row) : Prop :=
  notna (sentiment_score_signed row) = true.

(** The years of a grouping. *)
Definition keys (g : groups) : list Z := map fst g.

(** The scores of the group of year [y] in a grouping, none when the year
    has no group. *)
Fixpoint group_of (y : Z) (g : groups) : list pyfloat :=
  match g with
  | [] => []
  | (k, vs) :: g' => if (k =? y)%Z then vs else group_of y g'
  end.

(** The (year, rounded mean) pairs of the annual trend. *)
Definition yearly_means (df : DataFrame) : list (Z * pyfloat) :=
  map (fun g => (fst g, fround 4 (series_mean (snd g))))
      (groupby_Year (rows df)).

(** What [compute_annual_trend] returns on the frame [df]. *)
Definition trend_value (df : DataFrame) : list Z * list pyfloat :=
  if negb (has_column "Year" df)
     || negb (has_column "sentiment_score_signed" df)
  then ([], [])
  else (map fst (yearly_means df), map snd (yearly_means df)).

(** The frame [compute_yearly_summary] counts the labels of: the rows of
    the selected year, or all rows when no year is selected or the text
    is not a number ([app.py], then [app1.py]). *)
Definition App_df_year {R : Runtime} (selected_year : string)
  (df : DataFrame) : DataFrame :=
  if has_column "Year" df && negb (String.eqb selected_year "all") then
    match py_int selected_year with
    | Some n => getitem_mask (year_is n) df
    | None => df
    end
  else df.

Definition App1_df_year {R : Runtime} (selected_year : string)
  (df : DataFrame) : DataFrame :=
  if App1.is_set selected_year && has_column "Year" df then
    match py_int selected_year with
    | Some n => getitem_mask (year_is n) df
    | None => df
    end
  else df.

(** What [compute_yearly_summary] returns on the frame [df]. *)
Definition App_summary {R : Runtime} (selected_year : string)
  (df : DataFrame) : Summary :=
  let dy := App_df_year selected_year df in
  if negb (has_column "sentiment_label" dy) || empty dy then empty_summary
  else summary_of_counts (sort_counts_desc (value_counts dy)).

Definition App1_summary {R : Runtime} (selected_year : string)
  (df : DataFrame) : Summary :=
  let dy := App1_df_year selected_year df in
  if negb (has_column "sentiment_label" dy) || empty dy then empty_summary
  else summary_of_counts (value_counts dy).

(** The filters of a request as the handlers read them. *)
Definition requested_keyword (req : Request) : string :=
  strip (get (arg_keyword req) "").

Definition requested_news_id (req : Request) : string :=
  strip (get (arg_news_id req) "").

(** [app.py]: a blank year or symbol counts as ["all"]. *)
Definition App_selected_year (req : Request) : string :=
  if String.eqb (get (arg_year req) "all") "" then "all"
  else get (arg_year req) "all".

Definition App_selected_symbol (req : Request) : string :=
  if String.eqb (get (arg_symbol req) "all") "" then "all"
  else get (arg_symbol req) "all".

(** The paragraphs a request runs through. *)
Definition App_stages_of {R : Runtime} (g : Globals) (req : Request)
  : list (DataFrame -> outcome) :=
  App_stages g (App_selected_year req) (App_selected_symbol req)
    (fst (sentiment_range g req)) (snd (sentiment_range g req))
    (requested_keyword req).

Definition App1_stages_of {R : Runtime} (g : Globals) (req : Request)
  : list (DataFrame -> outcome) :=
  App1_stages g (get (arg_year req) "all") (get (arg_symbol req) "all")
    (fst (sentiment_range g req)) (snd (sentiment_range g req))
    (requested_keyword req) (requested_news_id req).

(** The display columns a frame has, and the table shown for it: the
    first 200 rows, restricted to these columns. *)
Definition shown_columns (f : DataFrame) : list string :=
  filter (fun c => has_column c f) Flask.display_columns.

Definition shown_table (f : DataFrame) : list (list (string * cell)) :=
  map (row_to_dict (shown_columns f)) (firstn 200 (rows f)).

(** What a response shows of the frame [f] left by the filters, of the
    base frame [df] and of the summary [s]. *)
Definition shows (resp : Response) (f df : DataFrame) (s : Summary) : Prop :=
  row_count resp = List.length (rows f) /\
  table_cols resp = shown_columns f /\
  table_rows resp = shown_table f /\
  (trend_years resp, trend_scores resp) = trend_value df /\
  yearly_summary resp = s.

(** The same for the table of the Streamlit scripts. *)
Definition editor_columns (f : DataFrame) : list string :=
  filter (fun c => has_column c f) Streamlit.display_columns.

Definition editor_table (f : DataFrame) : list (list (string * cell)) :=
  map (row_to_dict (editor_columns f)) (firstn 200 (rows f)).

(** The frame the filters leave when none is set: the rows with a score
    (all rows when the frame has no score column), latest first. *)
Definition unfiltered_frame (df : DataFrame) : DataFrame :=
  mkDF (columns df) (sort_rows_desc (unfiltered_rows df)).

(** A keyword without any character that is special in a pattern, and
    the pattern that matches it letter by letter. *)
Fixpoint no_meta (s : string) : bool :=
  match s with
  | EmptyString => true
  | String c s' => negb (Builtins.is_meta c) && no_meta s'
  end.

Fixpoint literal_atoms (s : string) : list Builtins.atom :=
  match s with
  | EmptyString => []
  | String c s' => Builtins.Lit c :: literal_atoms s'
  end.

(** The title of a row is not null. *)
Definition titled (row : Row) : Prop := Article_title row <> None.

(** ** What the paragraphs keep *)

(** The rows in the order the sort paragraph leaves them in. *)
Definition date_sorted (df : DataFrame) (l : list Row) : list Row :=
  if has_column "Date" df then sort_rows_desc l else l.

(** The rows the sentiment paragraph of a Flask program keeps. *)
Definition range_keeps (g : Globals) (lo hi : option pyfloat) (row : Row)
  : bool :=
  match MIN_SCORE g, lo, hi with
  | Some _, Some a, Some b => score_between a b row
  | _, _, _ => true
  end.

(** The exception the sentiment paragraph of a Flask program raises on a
    frame with the columns of [df], if any. *)
Definition range_raises (g : Globals) (lo hi : option pyfloat)
  (df : DataFrame) : option exn :=
  match MIN_SCORE g with
  | Some _ =>
      if has_column "sentiment_score_signed" df then
        match lo, hi with
        | Some _, Some _ => None
        | _, _ => Some TypeError
        end
      else Some (KeyError "sentiment_score_signed")
  | None => None
  end.

(** [app.py]: the rows the year, symbol and keyword paragraphs keep, on a
    frame with the columns of [df]. *)
Definition App_year_keeps {R : Runtime} (y : string) (df : DataFrame)
  (row : Row) : bool :=
  if negb (String.eqb y "all") && has_column "Year" df then
    match py_int y with
    | Some n => year_is n row
    | None => true
    end
  else true.

Definition App_symbol_keeps (s : string) (df : DataFrame) (row : Row)
  : bool :=
  if negb (String.eqb s "all") && has_column "Stock_symbol" df
  then symbol_is s row else true.

Definition App_keyword_keeps {R : Runtime} (kw : string) (df : DataFrame)
  (row : Row) : bool :=
  if truthy kw && has_column "Article_title" df then
    match re_compile_ic kw with
    | Some m => title_matches m row
    | None => true
    end
  else true.

(** [app.py]: the rows that pass all four filters. *)
Definition App_keeps {R : Runtime} (g : Globals) (y s : string)
  (lo hi : option pyfloat) (kw : string) (df : DataFrame) (row : Row)
  : bool :=
  App_year_keeps y df row && App_symbol_keeps s df row
  && range_keeps g lo hi row && App_keyword_keeps kw df row.

(** [app.py]: the exception the paragraphs raise, if any. *)
Definition App_raises {R : Runtime} (g : Globals) (lo hi : option pyfloat)
  (kw : string) (df : DataFrame) : option exn :=
  match range_raises g lo hi df with
  | Some e => Some e
  | None =>
      if truthy kw && has_column "Article_title" df then
        match re_compile_ic kw with
        | Some _ => None
        | None => Some ReError
        end
      else None
  end.

(** [app1.py]: the rows the year, symbol, keyword and record-id
    paragraphs keep, on a frame with the columns of [df]. *)
Definition App1_year_keeps {R : Runtime} (y : string) (df : DataFrame)
  (row : Row) : bool :=
  if App1.is_set y && has_column "Year" df then
    match py_int y with
    | Some n => year_is n row
    | None => true
    end
  else true.

Definition App1_symbol_keeps (s : string) (row : Row) : bool :=
  if App1.is_set s then symbol_is (App1.normalize_symbol s) row else true.

Definition App1_keyword_keeps {R : Runtime} (kw : string) (row : Row)
  : bool :=
  if truthy kw then
    match re_compile_ic kw with
    | Some m => title_matches m row
    | None => true
    end
  else true.

Definition App1_news_id_keeps (nid : string) (row : Row) : bool :=
  if truthy nid then news_id_str_is nid row else true.

(** [app1.py]: the rows that pass all five filters. *)
Definition App1_keeps {R : Runtime} (g : Globals) (y s : string)
  (lo hi : option pyfloat) (kw nid : string) (df : DataFrame) (row : Row)
  : bool :=
  App1_year_keeps y df row && App1_symbol_keeps s row
  && range_keeps g lo hi row && App1_keyword_keeps kw row
  && App1_news_id_keeps nid row.

(** [app1.py]: the exception the paragraphs raise, if any: the first, in
    program order, of a missing symbol column, what the sentiment
    paragraph raises, a missing title column, a malformed pattern and a
    missing record-id column. *)
Definition App1_raises {R : Runtime} (g : Globals) (s : string)
  (lo hi : option pyfloat) (kw nid : string) (df : DataFrame) : option exn :=
  if App1.is_set s && negb (has_column "Stock_symbol" df)
  then Some (KeyError "Stock_symbol")
  else
    match range_raises g lo hi df with
    | Some e => Some e
    | None =>
        if truthy kw && negb (has_column "Article_title" df)
        then Some (KeyError "Article_title")
        else if truthy kw && negb (match re_compile_ic kw with
                                   | Some _ => true
                                   | None => false
                                   end)
        then Some ReError
        else if truthy nid && negb (has_column "news_id" df)
        then Some (KeyError "news_id")
        else None
    end.

(** The Streamlit scripts: the rows the paragraphs keep for the choices
    [y], [s], [rg] and [kw] of the sidebar. *)
Definition sidebar_keeps {R : Runtime} (y : option Z) (s : string)
  (rg : option (pyfloat * pyfloat)) (kw : string) (guarded : bool)
  (df : DataFrame) (row : Row) : bool :=
  match y with Some n => year_is n row | None => true end
  && (if negb (String.eqb s "(All)") then symbol_is s row else true)
  && match rg with
     | Some (lo, hi) => score_between lo hi row
     | None => true
     end
  && (if truthy kw && (negb guarded || has_column "Article_title" df) then
        match re_compile_ic kw with
        | Some m => title_matches m row
        | None => true
        end
      else true).

(** [backend.py]: the exception the paragraphs raise, if any. *)
Definition Backend_raises {R : Runtime} (kw : string) (df : DataFrame)
  : option exn :=
  if truthy kw then
    if has_column "Article_title" df then
      match re_compile_ic kw with
      | Some _ => None
      | None => Some ReError
      end
    else Some (KeyError "Article_title")
  else None.

(** [backnew.py]: the exception the paragraphs raise, if any. *)
Definition Backnew_raises {R : Runtime} (kw : string) (df : DataFrame)
  : option exn :=
  if truthy kw && has_column "Article_title" df then
    match re_compile_ic kw with
    | Some _ => None
    | None => Some ReError
    end
  else None.

(** What a run of a pipeline must do: raise [e], or return a reference to
    the frame [d]. *)
Definition ends_with (x : (exn + ref) * heap) (v : exn + DataFrame) : Prop :=
  match v with
  | inl e => fst x = inl e
  | inr d => exists r, fst x = inr r /\ holds (snd x) r d
  end.

(** A request without its two range parameters. *)
Definition without_range (req : Request) : Request :=
  mkRequest (arg_year req) (arg_symbol req) (arg_keyword req)
            (arg_news_id req) None None.

(** The text of a range parameter is present and is not a number. *)
Definition malformed {R : Runtime} (arg : option string) : Prop :=
  exists a, arg = Some a /\ py_float a = None.

(** The frame a run returned has no row. *)
Definition returns_no_row (m : M ref) (h : heap) : Prop :=
  forall r h', m h = (inr r, h') -> exists d, holds h' r d /\ rows d = [].

(** A table of at most 200 rows for a result of [count] rows: its
    columns are the candidates the frame has, in candidate order, and
    each of its rows shows a row of the base frame [df], unmodified. *)
Definition table_of (count : nat) (cols : list string)
  (table : list (list (string * cell))) (candidates : list string)
  (df : DataFrame) : Prop :=
  cols = filter (fun c => has_column c df) candidates /\
  List.length table = Nat.min 200 count /\
  Forall (fun d => exists row, In row (rows df) /\ d = row_to_dict cols row)
         table.

(** Some row of the frame has the score [v]. *)
Definition attained (v : pyfloat) (df : DataFrame) : Prop :=
  exists row, In row (rows df) /\ sentiment_score_signed row = v.

(** The label of a row is [l]; a row has a label; the number of rows
    labelled [l]. *)
Definition label_is (l : string) (row : Row) : bool :=
  match sentiment_label row with
  | Some k => String.eqb k l
  | None => false
  end.

Definition labelled (row : Row) : bool :=
  match sentiment_label row with
  | Some _ => true
  | None => false
  end.

Definition label_count (l : string) (rs : list Row) : nat :=
  List.length (filter (label_is l) rs).

(** The count recorded for a label in a series of counts. *)
Fixpoint count_of (l : string) (c : list (string * nat)) : nat :=
  match c with
  | [] => 0%nat
  | (k, n) :: c' => if String.eqb k l then n else count_of l c'
  end.

(** A series of counts lists each label of the rows [rs] once, with the
    number of rows that carry it, largest count first. *)
Definition count_ge (a b : string * nat) : Prop := (snd b <= snd a)%nat.

Definition counts_labels_of (c : list (string * nat)) (rs : list Row)
  : Prop :=
  NoDup (map fst c) /\
  (forall l n, In (l, n) c <-> n = label_count l rs /\ (0 < n)%nat) /\
  StronglySorted count_ge c.

(** A summary is the summary of the rows [rs]: the total is the number
    of labelled rows, the lines count the labels, each line shows its
    share of the total, and the dominant label is the one of the first
    line. *)
Definition summarises (s : Summary) (rs : list Row) : Prop :=
  total_articles s = List.length (filter labelled rs) /\
  counts_labels_of (map (fun x => (Sentiment x, Count x)) (summary_rows s))
                   rs /\
  Forall (fun x => Percentage x
                   = format_pct (percent (Count x) (total_articles s)))
         (summary_rows s) /\
  match summary_rows s with
  | [] => dominant_label s = None /\ dominant_pct s = None
  | x :: _ =>
      dominant_label s = Some (Sentiment x) /\
      dominant_pct s
      = Some (round_to 1 (percent (Count x) (total_articles s)))
  end.

(** The frame the Streamlit scripts summarise: the rows of the year
    chosen in the sidebar, or all rows. *)
Definition year_frame (df : DataFrame) (w : Widgets) : DataFrame :=
  match (if has_column "Year" df then w_year w else None) with
  | Some n => getitem_mask (year_is n) df
  | None => df
  end.

(** What the summary paragraph of [backend.py] and of [backnew.py]
    computes from that frame. *)
Definition Backend_summary_of (yf : DataFrame) : exn + option SummaryView :=
  if has_column "sentiment_label" yf && negb (empty yf) then
    match value_counts yf with
    | (label, cnt) :: _ =>
        inr (Some (mkSummaryView label
               (format_pct (percent cnt (counts_sum (value_counts yf))))
               (map (fun p => (fst p, snd p,
                       CFloat (round_to 1
                         (percent (snd p) (counts_sum (value_counts yf))))))
                    (value_counts yf))))
    | [] => inl IndexError
    end
  else inr None.

Definition Backnew_summary_of (yf : DataFrame) : exn + option SummaryView :=
  if has_column "sentiment_label" yf then
    let sentiment_counts := sort_counts_desc (value_counts yf) in
    let total_articles := counts_sum sentiment_counts in
    if (0 <? total_articles)%nat then
      match sentiment_counts with
      | (label, cnt) :: _ =>
          inr (Some (mkSummaryView (upper label)
                 (format_pct (percent cnt total_articles))
                 (map (fun p => (fst p, snd p,
                         CStr (format_pct (percent (snd p) total_articles))))
                      sentiment_counts)))
      | [] => inl IndexError
      end
    else inr None
  else inr None.

(** The share of a line of the breakdown table: a number rounded to one
    decimal in [backend.py], a formatted text in [backnew.py]. *)
Definition share_cell (as_text : bool) (n total : nat) : cell :=
  if as_text then CStr (format_pct (percent n total))
  else CFloat (round_to 1 (percent n total)).

(** A summary view is the view of the rows [rs]: the lines count the
    labels, each with its share of the labelled rows, and the label
    shown as dominant (in capitals in [backnew.py]) is a most frequent
    one, shown with its share. *)
Definition view_of (new : bool) (v : SummaryView) (rs : list Row) : Prop :=
  counts_labels_of (map fst (breakdown v)) rs /\
  Forall (fun x => snd x
                   = share_cell new (snd (fst x))
                                (List.length (filter labelled rs)))
         (breakdown v) /\
  exists l,
    top_label v = (if new then upper l else l) /\
    (0 < label_count l rs)%nat /\
    (forall k, (label_count k rs <= label_count l rs)%nat) /\
    top_pct v
    = format_pct (percent (label_count l rs)
                          (List.length (filter labelled rs))).

(** The frame has both columns the trend is computed from. *)
Definition has_trend_columns (df : DataFrame) : bool :=
  has_column "Year" df && has_column "sentiment_score_signed" df.

(** A chart has one point per year that occurs in the frame, in
    ascending order of year, each with the mean of the non-null scores
    of the rows of that year. *)
Definition chart_of (chart : list (Z * pyfloat)) (df : DataFrame) : Prop :=
  StronglySorted Z.lt (map fst chart) /\
  (forall y, In y (map fst chart) <->
             exists row, In row (rows df) /\ Year row = Some y) /\
  Forall (fun p => snd p = series_mean (scores_of_year (fst p) df)) chart.

(** The frame of yearly means as [backnew.py] leaves it after its two
    in-place calls: indexed by year, with one renamed column. *)
Definition renamed_trend (chart : list (Z * pyfloat)) : obj :=
  Trend (mkTrend (Some "Year") ["Average Sentiment Score"]
                 (map (fun p => (Some (fst p), snd p)) chart)).

(** The first row of a frame that passes a test, exported as the
    detail section shows it. *)
Definition first_row (p : Row -> bool) (f : DataFrame)
  : option (list (string * cell)) :=
  option_map (row_to_dict (columns f)) (find p (rows f)).

(** The test [app.py] looks a record up with: the identifier equals the
    text converted to the type of the first identifier of the frame, or,
    when the conversion fails, its text equals the requested text. *)
Definition App_id_test {R : Runtime} (f : DataFrame) (nid : string)
  : Row -> bool :=
  match rows f with
  | r0 :: _ =>
      match App.convert_like (news_id r0) nid with
      | inr i => news_id_is i
      | inl _ => news_id_str_is nid
      end
  | [] => news_id_str_is nid
  end.

(** The identifier of a row is an integer. *)
Definition int_id (row : Row) : Prop := exists n, news_id row = IdInt n.

(** A request that the two Flask programs read in the same way on the
    frame [df]: a symbol, when given, is already in normal form and the
    frame has symbols; the frame has titles when a keyword is given; and
    no record is asked for. *)
Definition read_alike (df : DataFrame) (req : Request) : Prop :=
  (App1.is_set (get (arg_symbol req) "all") = true ->
   has_column "Stock_symbol" df = true /\
   App1.normalize_symbol (get (arg_symbol req) "all")
   = get (arg_symbol req) "all") /\
  (truthy (requested_keyword req) = true ->
   has_column "Article_title" df = true) /\
  truthy (requested_news_id req) = false.

(** Two responses show the same result table. *)
Definition same_table (a b : Response) : Prop :=
  row_count a = row_count b /\ table_cols a = table_cols b /\
  table_rows a = table_rows b.

(** Two responses show the same trend and the same yearly summary. *)
Definition same_overview (a b : Response) : Prop :=
  trend_years a = trend_years b /\ trend_scores a = trend_scores b /\
  yearly_summary a = yearly_summary b.

(** What the trend and the detail paragraphs of the two Streamlit
    scripts compute, from the loaded frame and from the frame left by
    the filters. *)
Definition yearly_chart (df : DataFrame) : list (Z * pyfloat) :=
  map (fun g => (fst g, series_mean (snd g))) (groupby_Year (rows df)).

Definition Backend_trend_of (df : DataFrame)
  : exn + option (list (Z * pyfloat)) :=
  if has_column "Year" df then
    if has_column "sentiment_score_signed" df
    then inr (Some (yearly_chart df))
    else inl (KeyError "sentiment_score_signed")
  else inr None.

Definition Backnew_trend_of (df : DataFrame)
  : exn + option (list (Z * pyfloat)) :=
  inr (if has_trend_columns df then Some (yearly_chart df) else None).

Definition Backend_detail_of (i : ident) (f : DataFrame)
  : exn + option (list (string * cell)) :=
  if empty f then inr None
  else if has_column "news_id" f then
    match first_row (news_id_is i) f with
    | Some d => if has_column "Article_title" f then inr (Some d)
                else inl (KeyError "Article_title")
    | None => inl IndexError
    end
  else inl (KeyError "news_id").

Definition Backnew_detail_of (i : ident) (f : DataFrame)
  : exn + option (list (string * cell)) :=
  if empty f then inr None
  else if has_column "news_id" f then
    match first_row (news_id_is i) f with
    | Some d => inr (Some d)
    | None => inl IndexError
    end
  else inl (KeyError "news_id").

(** One run of a script: the first exception in program order among the
    filters, the trend, the summary and the detail viewer, or what the
    page shows. *)
Definition script_of (filtered : exn + DataFrame)
  (trend : exn + option (list (Z * pyfloat)))
  (summary : exn + option SummaryView)
  (detail : DataFrame -> exn + option (list (string * cell)))
  : exn + Output :=
  match filtered with
  | inl e => inl e
  | inr f =>
      match trend with
      | inl e => inl e
      | inr t =>
          match summary with
          | inl e => inl e
          | inr s =>
              match detail f with
              | inl e => inl e
              | inr v =>
                  inr (mkOutput t s (List.length (rows f))
                                (editor_table f) v)
              end
          end
      end
  end.

(** Strictly before, in the order [leb]. *)
Definition strictly {A : Type} (leb : A -> A -> bool) (a b : A) : Prop :=
  leb a b = true /\ a <> b.

(** The text [app1.py] compares a symbol cell by after loading, and the
    rows whose symbol reads as the requested one, whatever its case and
    the blanks around it. *)
Definition reads_as {F : Files} (requested : string) (row : Row) : bool :=
  match astype_str (Stock_symbol row) with
  | Some t =>
      String.eqb (App1.normalize_symbol t) (App1.normalize_symbol requested)
  | None => false
  end.

(** What the detail section of the two Flask programs computes from
    the frame left by the filters. *)
Definition App_detail_of {R : Runtime} (nid : string) (f : DataFrame)
  : exn + option (list (string * cell)) :=
  if truthy nid && negb (empty f) then
    if has_column "news_id" f
    then inr (first_row (App_id_test f nid) f)
    else inl (KeyError "news_id")
  else inr None.

Definition App1_detail_of (nid : string) (f : DataFrame)
  : exn + option (list (string * cell)) :=
  if truthy nid then
    if has_column "news_id" f
    then inr (first_row (news_id_str_is nid) f)
    else inl (KeyError "news_id")
  else inr None.

(** How a handler ends: with the first exception in program order of
    the filters and of the detail section, or with a response. *)
Definition handler_ends (res : exn + Response) (filtered : exn + DataFrame)
  (detail : DataFrame -> exn + option (list (string * cell))) : Prop :=
  match filtered with
  | inl e => res = inl e
  | inr f =>
      match detail f with
      | inl e => res = inl e
      | inr _ => exists resp, res = inr resp
      end
  end.

(** ** Sample data *)

(** The three records of the scenario of the specification, a record
    without score and title, and frames made of them. *)
Module Sample.

Definition all_columns : list string :=
  ["news_id"; "Date"; "Year"; "Stock_symbol"; "Article_title";
   "sentiment_label"; "sentiment_score_signed"].

Definition good : Row :=
  mkRow (IdInt 1) (Some 1583020800%Z) (Some 2020%Z) (Some "AAA")
        (Some "Good news") (Some "positive") (Fl (1 # 2)) [].

Definition bad : Row :=
  mkRow (IdInt 2) (Some 1593561600%Z) (Some 2020%Z) (Some "BBB")
        (Some "Bad news") (Some "negative") (Fl (- 3 # 10)) [].

Definition great : Row :=
  mkRow (IdInt 3) (Some 1612137600%Z) (Some 2021%Z) (Some "AAA")
        (Some "Great news") (Some "positive") (Fl (8 # 10)) [].

Definition unscored : Row :=
  mkRow (IdInt 4) (Some 1643673600%Z) (Some 2022%Z) (Some "CCC")
        None None NaN [].

Definition figures : Row :=
  mkRow (IdInt 5) (Some 1625097600%Z) (Some 2021%Z) (Some "DDD")
        (Some "Profit up 315 percent") (Some "positive") (Fl (2 # 10)) [].

Definition news : DataFrame := mkDF all_columns [good; bad; great].

Definition headlines : DataFrame := mkDF all_columns [good; figures].

Definition news_with_null : DataFrame :=
  mkDF all_columns [good; unscored].

(** The heap after [load_data]: the loaded frame at reference 0. *)
Definition loaded (df : DataFrame) : heap := [News df].

End Sample.

(** A file system with one CSV file, for running the loaders: the file
    holds the rows of [Sample.news_with_null] with their dates as
    timestamps and their symbols in mixed case; nulls of a text column
    read as "nan".  [year_of_timestamp] is the civil year of a number
    of seconds since 1970-01-01 (proleptic Gregorian calendar). *)
Module SampleFiles.

Definition year_of_timestamp (t : Z) : Z :=
  let z := (t / 86400 + 719468)%Z in
  let era := (z / 146097)%Z in
  let doe := (z - era * 146097)%Z in
  let yoe := ((doe - doe / 1460 + doe / 36524 - doe / 146096) / 365)%Z in
  let doy := (doe - (365 * yoe + yoe / 4 - yoe / 100))%Z in
  let mp := ((5 * doy + 2) / 153)%Z in
  (yoe + era * 400 + (if (mp <? 10)%Z then 0 else 1))%Z.

Definition raw_news : RawFrame :=
  mkRawFrame
    ["news_id"; "Date"; "Stock_symbol"; "Article_title"; "sentiment_label";
     "sentiment_score_signed"]
    [mkRaw (RawStamp 1583020800%Z)
           (mkRow (IdInt 1) None None (Some " aaa") (Some "Good news")
                  (Some "positive") (Fl (1 # 2)) []);
     mkRaw (RawText "not a date")
           (mkRow (IdInt 2) None None (Some "Aaa ") (Some "Bad news")
                  (Some "negative") (Fl (- 3 # 10)) []);
     mkRaw (RawStamp 1643673600%Z)
           (mkRow (IdInt 4) None None None None None NaN [])].

Definition files : Files :=
  {| path_exists := String.eqb "news.csv";
     path_isdir := fun _ => false;
     read_dataset := fun _ => None;
     read_parquet := fun _ => None;
     read_csv := fun p => if String.eqb p "news.csv" then Some raw_news
                          else None;
     to_datetime := fun c => match c with
                             | RawStamp t => Some t
                             | _ => None
                             end;
     dt_year := year_of_timestamp;
     str_of_null := Some "nan" |}.

End SampleFiles.

(** A paragraph that only drops or reorders rows. *)
Definition narrowing (st : DataFrame -> outcome) : Prop :=
  forall df d, st df = Rebind d ->
    columns d = columns df /\ (forall r, In r (rows d) -> In r (rows df)).

(** A computation that only adds objects to the heap. *)
Definition allocating {A : Type} (m : M A) : Prop :=
  forall h, extends h (snd (m h)).

(* ================================================================== *)
(** * The heap and the monad *)
(* ================================================================== *)

Lemma inr_inj {A B : Type} (x y : B) : @inr A B x = inr y -> x = y.
Proof. intros E. now injection E. Qed.

Lemma extends_refl (h : heap) : extends h h.
Proof. exists []. now rewrite app_nil_r. Qed.

Lemma extends_trans (h1 h2 h3 : heap) :
  extends h1 h2 -> extends h2 h3 -> extends h1 h3.
Proof.
  intros [e1 ->] [e2 ->]. exists (e1 ++ e2). now rewrite app_assoc.
Qed.

Lemma extends_snoc (h : heap) (o : obj) : extends h (h ++ [o]).
Proof. now exists [o]. Qed.

Lemma extends_prefix (h h' : heap) :
  extends h h' -> firstn (List.length h) h' = h.
Proof.
  intros [e ->]. rewrite firstn_app, Nat.sub_diag, firstn_all. simpl.
  now rewrite app_nil_r.
Qed.

Lemma extends_lookup (h h' : heap) (r : ref) (o : obj) :
  extends h h' -> nth_error h r = Some o -> nth_error h' r = Some o.
Proof.
  intros [e ->] H. rewrite nth_error_app1; auto.
  apply nth_error_Some. congruence.
Qed.

Lemma holds_extends (h h' : heap) (r : ref) (df : DataFrame) :
  holds h r df -> extends h h' -> holds h' r df.
Proof. intros H E. exact (extends_lookup _ _ _ _ E H). Qed.

Lemma holds_new (h : heap) (df : DataFrame) :
  holds (h ++ [News df]) (List.length h) df.
Proof.
  unfold holds. rewrite nth_error_app2, Nat.sub_diag by lia. reflexivity.
Qed.

Lemma set_nth_last (h : heap) (o o' : obj) :
  set_nth (h ++ [o]) (List.length h) o' = h ++ [o'].
Proof. induction h as [|x h IH]; simpl; [reflexivity | now rewrite IH]. Qed.

Create HintDb heap.
#[local] Hint Resolve extends_refl extends_snoc holds_new : heap.
#[local] Hint Resolve extends_trans holds_extends : heap.

(** ** Rules for [post] *)

Section PostRules.

Context {A B : Type}.

Lemma post_ret (a : A) (h : heap) (Q : exn + A -> heap -> Prop) :
  Q (inr a) h -> post (ret a) h Q.
Proof. exact (fun H => H). Qed.

Lemma post_raise (e : exn) (h : heap) (Q : exn + A -> heap -> Prop) :
  Q (inl e) h -> post (raise e) h Q.
Proof. exact (fun H => H). Qed.

Lemma post_lift (x : exn + A) (h : heap) (Q : exn + A -> heap -> Prop) :
  Q x h -> post (lift x) h Q.
Proof. destruct x; exact (fun H => H). Qed.

Lemma post_bind (m : M A) (k : A -> M B) (h : heap)
  (Q : exn + B -> heap -> Prop) :
  post m h (fun res h' =>
              match res with
              | inr a => post (k a) h' Q
              | inl e => Q (inl e) h'
              end) ->
  post (bind m k) h Q.
Proof.
  unfold post, bind. destruct (m h) as [[e | a] h']; simpl; auto.
Qed.

Lemma post_conseq (m : M A) (h : heap) (Q Q' : exn + A -> heap -> Prop) :
  post m h Q -> (forall res h', Q res h' -> Q' res h') -> post m h Q'.
Proof. unfold post. auto. Qed.

Lemma post_try (m k : M A) (h : heap) (Q : exn + A -> heap -> Prop) :
  post m h (fun res h' =>
              match res with
              | inr a => Q (inr a) h'
              | inl _ => post k h' Q
              end) ->
  post (try_except m k) h Q.
Proof.
  unfold post, try_except. destruct (m h) as [[e | a] h']; simpl; auto.
Qed.

Lemma post_run (m : M A) (h : heap) (Q : exn + A -> heap -> Prop)
  (res : exn + A) (h' : heap) :
  post m h Q -> m h = (res, h') -> Q res h'.
Proof. unfold post. intros H E. now rewrite E in H. Qed.

End PostRules.

Lemma post_alloc (o : obj) (h : heap) (Q : exn + ref -> heap -> Prop) :
  Q (inr (List.length h)) (h ++ [o]) -> post (alloc o) h Q.
Proof. exact (fun H => H). Qed.

Lemma post_read (r : ref) (h : heap) (df : DataFrame)
  (Q : exn + DataFrame -> heap -> Prop) :
  holds h r df -> Q (inr df) h -> post (read r) h Q.
Proof. unfold post, read, holds. intros ->. auto. Qed.

Lemma post_read_trend (r : ref) (h : heap) (t : TrendFrame)
  (Q : exn + TrendFrame -> heap -> Prop) :
  nth_error h r = Some (Trend t) -> Q (inr t) h -> post (read_trend r) h Q.
Proof. unfold post, read_trend. intros ->. auto. Qed.

Lemma post_derive (r : ref) (f : DataFrame -> exn + DataFrame) (h : heap)
  (df : DataFrame) (Q : exn + ref -> heap -> Prop) :
  holds h r df ->
  match f df with
  | inr d => Q (inr (List.length h)) (h ++ [News d])
  | inl e => Q (inl e) h
  end ->
  post (derive r f) h Q.
Proof.
  intros H HQ. unfold derive. apply post_bind, (post_read _ _ _ _ H).
  apply post_bind. destruct (f df); simpl; exact HQ.
Qed.

Lemma post_assign (r : ref) (st : DataFrame -> outcome) (h : heap)
  (df : DataFrame) (Q : exn + ref -> heap -> Prop) :
  holds h r df ->
  match st df with
  | Keep => Q (inr r) h
  | Rebind d => Q (inr (List.length h)) (h ++ [News d])
  | Raise e => Q (inl e) h
  end ->
  post (assign r st) h Q.
Proof.
  intros H HQ. unfold assign. apply post_bind, (post_read _ _ _ _ H).
  destruct (st df); exact HQ.
Qed.

(** ** Runs of a sequence of paragraphs *)

Lemma yields_ret (h : heap) (r : ref) (d : DataFrame) :
  holds h r d -> post (ret r) h (yields h (run_stages [] d)).
Proof. intros H. split; [auto with heap | simpl; eauto]. Qed.

Lemma yields_weaken (h0 h : heap) (v : exn + DataFrame) (res : exn + ref)
  (h' : heap) :
  extends h0 h -> yields h v res h' -> yields h0 v res h'.
Proof. intros E [E' H]. split; eauto with heap. Qed.

Lemma yields_assign (r : ref) (st : DataFrame -> outcome)
  (k : ref -> M ref) (rest : list (DataFrame -> outcome)) (h : heap)
  (d : DataFrame) :
  holds h r d ->
  (forall r' h' d', holds h' r' d' ->
     post (k r') h' (yields h' (run_stages rest d'))) ->
  post (bind (assign r st) k) h (yields h (run_stages (st :: rest) d)).
Proof.
  intros H K. apply post_bind, (post_assign _ _ _ _ _ H).
  simpl. unfold stage_value. destruct (st d) as [| d' | e].
  - apply K, H.
  - eapply post_conseq; [apply K, holds_new |].
    intros res h'. apply yields_weaken. auto with heap.
  - split; auto with heap.
Qed.

Lemma yields_copy (r : ref) (k : ref -> M ref) (h : heap) (d : DataFrame)
  (v : exn + DataFrame) :
  holds h r d ->
  (forall r' h', holds h' r' d -> post (k r') h' (yields h' v)) ->
  post (bind (copy r) k) h (yields h v).
Proof.
  intros H K. apply post_bind. unfold copy. apply (post_derive _ _ _ _ _ H).
  eapply post_conseq; [apply K, holds_new |].
  intros res h'. apply yields_weaken. auto with heap.
Qed.

(* ================================================================== *)
(** * The filter pipelines *)
(* ================================================================== *)

Section Pipelines.

Context {R : Runtime}.

Ltac run_paragraphs :=
  repeat (apply yields_assign; [assumption | clear; intros]);
  apply yields_ret; assumption.

(** [app.py]: the run of the filtering and sorting paragraphs. *)
Lemma App_filtered_yields (g : Globals) (y s : string)
  (lo hi : option pyfloat) (kw : string) (h : heap) (df : DataFrame) :
  holds h (DF g) df ->
  post (App.filtered g y s lo hi kw) h
       (yields h (run_stages (App_stages g y s lo hi kw) df)).
Proof.
  intros H. unfold App.filtered, App_stages.
  apply yields_copy with (d := df); [assumption | clear; intros].
  run_paragraphs.
Qed.

(** [app1.py]: the run of the filtering and sorting paragraphs. *)
Lemma App1_filtered_yields (g : Globals) (y s : string)
  (lo hi : option pyfloat) (kw nid : string) (h : heap) (df : DataFrame) :
  holds h (DF g) df ->
  post (App1.filtered g y s lo hi kw nid) h
       (yields h (run_stages (App1_stages g y s lo hi kw nid) df)).
Proof.
  intros H. unfold App1.filtered, App1_stages.
  apply yields_copy with (d := df); [assumption | clear; intros].
  run_paragraphs.
Qed.

(** [backend.py]: the run of the filtering and sorting paragraphs. *)
Lemma Backend_filtered_yields (r : ref) (w : Widgets) (h : heap)
  (df : DataFrame) :
  holds h r df ->
  post (Backend.filtered r w) h
       (yields h (run_stages (Backend_stages df w) df)).
Proof.
  intros H. unfold Backend.filtered, Backend_stages.
  apply post_bind, (post_read _ _ _ _ H).
  apply yields_copy with (d := df); [assumption | clear; intros].
  run_paragraphs.
Qed.

(** [backnew.py]: the run of the filtering and sorting paragraphs. *)
Lemma Backnew_filtered_yields (r : ref) (w : Widgets) (h : heap)
  (df : DataFrame) :
  holds h r df ->
  post (Backnew.filtered r w) h
       (yields h (run_stages (Backnew_stages df w) df)).
Proof.
  intros H. unfold Backnew.filtered, Backnew_stages.
  apply post_bind, (post_read _ _ _ _ H).
  apply yields_copy with (d := df); [assumption | clear; intros].
  run_paragraphs.
Qed.

End Pipelines.

(* ================================================================== *)
(** * Sorting by date *)
(* ================================================================== *)

Lemma date_geb_total (a b : Row) : date_geb a b = false -> date_geb b a = true.
Proof.
  unfold date_geb. destruct (Date a), (Date b); try congruence.
  rewrite Z.leb_gt, Z.leb_le. lia.
Qed.

Lemma date_geb_trans (a b c : Row) :
  date_geb a b = true -> date_geb b c = true -> date_geb a c = true.
Proof.
  unfold date_geb. destruct (Date a), (Date b), (Date c); try congruence.
  rewrite !Z.leb_le. lia.
Qed.

Lemma insert_by_date_perm (r : Row) (l : list Row) :
  Permutation (insert_by_date r l) (r :: l).
Proof.
  induction l as [|x l IH]; simpl; [reflexivity |].
  destruct (date_geb r x); [reflexivity |].
  rewrite IH. apply perm_swap.
Qed.

Lemma sort_rows_desc_perm (l : list Row) : Permutation (sort_rows_desc l) l.
Proof.
  induction l as [|r l IH]; simpl; [reflexivity |].
  rewrite insert_by_date_perm. now constructor.
Qed.

Lemma insert_by_date_sorted (r : Row) (l : list Row) :
  StronglySorted date_ge l -> StronglySorted date_ge (insert_by_date r l).
Proof.
  induction 1 as [| x l S IH F]; simpl.
  - repeat constructor.
  - destruct (date_geb r x) eqn:E.
    + constructor; [now constructor |].
      constructor; [exact E |].
      eapply Forall_impl; [| exact F].
      intros b Hb. exact (date_geb_trans _ _ _ E Hb).
    + constructor; [exact IH |].
      apply (Permutation_Forall (Permutation_sym (insert_by_date_perm r l))).
      constructor; [exact (date_geb_total _ _ E) | exact F].
Qed.

Lemma sort_rows_desc_sorted (l : list Row) :
  StronglySorted date_ge (sort_rows_desc l).
Proof.
  induction l; simpl; [constructor | now apply insert_by_date_sorted].
Qed.

Lemma sort_rows_desc_In (l : list Row) (r : Row) :
  In r (sort_rows_desc l) <-> In r l.
Proof.
  split; apply Permutation_in;
    [apply sort_rows_desc_perm | apply Permutation_sym, sort_rows_desc_perm].
Qed.

(* ================================================================== *)
(** * Bounds of a float column *)
(* ================================================================== *)

Lemma Qle_bool_false (x y : Q) : Qle_bool x y = false -> (y <= x)%Q.
Proof.
  intros E. apply Qlt_le_weak, Qnot_le_lt. intros C.
  apply Qle_bool_iff in C. congruence.
Qed.

Lemma fmin2_fle (a b : pyfloat) (q : Q) :
  fle a (Fl q) = true \/ fle b (Fl q) = true -> fle (fmin2 a b) (Fl q) = true.
Proof.
  destruct a as [|x], b as [|y]; simpl; intros [H | H];
    try discriminate; auto;
    destruct (Qle_bool x y) eqn:E; simpl; auto;
    apply Qle_bool_iff; apply Qle_bool_iff in H.
  - apply Qle_bool_false in E. eapply Qle_trans; eauto.
  - apply Qle_bool_iff in E. eapply Qle_trans; eauto.
Qed.

Lemma fmax2_fle (a b : pyfloat) (q : Q) :
  fle (Fl q) a = true \/ fle (Fl q) b = true -> fle (Fl q) (fmax2 a b) = true.
Proof.
  destruct a as [|x], b as [|y]; simpl; intros [H | H];
    try discriminate; auto;
    destruct (Qle_bool x y) eqn:E; simpl; auto;
    apply Qle_bool_iff; apply Qle_bool_iff in H.
  - apply Qle_bool_iff in E. eapply Qle_trans; eauto.
  - apply Qle_bool_false in E. eapply Qle_trans; eauto.
Qed.

Lemma fle_refl (q : Q) : fle (Fl q) (Fl q) = true.
Proof. simpl. apply Qle_bool_iff, Qle_refl. Qed.

(** The minimum of a column is below each of its numbers. *)
Lemma series_min_le (l : list pyfloat) (q : Q) :
  In (Fl q) l -> fle (series_min l) (Fl q) = true.
Proof.
  induction l as [|a l IH]; simpl; [contradiction |].
  intros [-> | H]; apply fmin2_fle; [left; apply fle_refl | right; auto].
Qed.

(** The maximum of a column is above each of its numbers. *)
Lemma series_max_ge (l : list pyfloat) (q : Q) :
  In (Fl q) l -> fle (Fl q) (series_max l) = true.
Proof.
  induction l as [|a l IH]; simpl; [contradiction |].
  intros [-> | H]; apply fmax2_fle; [left; apply fle_refl | right; auto].
Qed.

(** With the bounds of the column as range, a score of the column is
    inside exactly when it is not null. *)
Lemma score_between_bounds (df : DataFrame) (r : Row) :
  In r (rows df) ->
  score_between (series_min (scores df)) (series_max (scores df)) r
  = notna (sentiment_score_signed r).
Proof.
  intros H. unfold score_between, fge.
  destruct (sentiment_score_signed r) as [|q] eqn:E.
  - simpl. now destruct (series_min (scores df)).
  - assert (In (Fl q) (scores df)) as I
        by (rewrite <- E; unfold scores; now apply in_map).
    now rewrite (series_min_le _ _ I), (series_max_ge _ _ I).
Qed.

Lemma score_between_within (lo hi : pyfloat) (r : Row) :
  score_between lo hi r = true ->
  within (Some lo) (Some hi) (sentiment_score_signed r).
Proof.
  unfold score_between, fge, fle.
  destruct (sentiment_score_signed r) as [|q], lo as [|a], hi as [|b];
    simpl; try discriminate; try (rewrite andb_false_r; discriminate).
  rewrite andb_true_iff, !Qle_bool_iff. intros [H1 H2].
  exists a, b, q. auto.
Qed.

Lemma score_between_notna (lo hi : pyfloat) (r : Row) :
  score_between lo hi r = true -> notna (sentiment_score_signed r) = true.
Proof.
  unfold score_between, fge, fle.
  destruct (sentiment_score_signed r); simpl; auto.
  now destruct lo.
Qed.

(* ================================================================== *)
(** * Paragraphs only drop or reorder rows *)
(* ================================================================== *)

Lemma stage_value_narrowing (st : DataFrame -> outcome) (df d : DataFrame) :
  narrowing st -> stage_value st df = inr d ->
  columns d = columns df /\ (forall r, In r (rows d) -> In r (rows df)).
Proof.
  unfold stage_value. intros N H. destruct (st df) eqn:E; inversion H; subst.
  - auto.
  - exact (N _ _ E).
Qed.

Lemma run_stages_narrowing (sts : list (DataFrame -> outcome)) :
  Forall narrowing sts ->
  forall df d, run_stages sts df = inr d ->
    columns d = columns df /\ (forall r, In r (rows d) -> In r (rows df)).
Proof.
  induction 1 as [| st sts N F IH]; simpl; intros df d H.
  - inversion H. auto.
  - destruct (stage_value st df) as [e | x] eqn:E; [discriminate |].
    destruct (stage_value_narrowing _ _ _ N E) as [C I].
    destruct (IH _ _ H) as [C' I'].
    split; [congruence | auto].
Qed.

Lemma run_stages_app (pre rest : list (DataFrame -> outcome))
  (df : DataFrame) :
  run_stages (pre ++ rest) df =
  match run_stages pre df with
  | inr d => run_stages rest d
  | inl e => inl e
  end.
Proof.
  revert df. induction pre as [| st pre IH]; simpl; intros df; auto.
  destruct (stage_value st df); auto.
Qed.

(** What one paragraph establishes for all its rows still holds for the
    rows the whole sequence returns. *)
Lemma run_stages_establish (pre rest : list (DataFrame -> outcome))
  (st : DataFrame -> outcome) (P : Row -> Prop) (df d : DataFrame) :
  Forall narrowing pre -> Forall narrowing rest ->
  (forall x y, columns x = columns df ->
               (forall r, In r (rows x) -> In r (rows df)) ->
               stage_value st x = inr y -> Forall P (rows y)) ->
  run_stages (pre ++ st :: rest) df = inr d -> Forall P (rows d).
Proof.
  intros Npre Nrest Hst H. rewrite run_stages_app in H.
  destruct (run_stages pre df) as [e | x] eqn:E1; [discriminate |].
  simpl in H.
  destruct (stage_value st x) as [e | y] eqn:E2; [discriminate |].
  destruct (run_stages_narrowing _ Npre _ _ E1) as [C I].
  pose proof (Hst _ _ C I E2) as F.
  destruct (run_stages_narrowing _ Nrest _ _ H) as [_ I'].
  rewrite Forall_forall in *. auto.
Qed.

Lemma narrowing_Keep_or_mask (st : DataFrame -> outcome) :
  (forall df, st df = Keep \/ (exists e, st df = Raise e) \/
              (exists p, st df = Rebind (getitem_mask p df)) \/
              st df = Rebind (sort_values_Date_desc df)) ->
  narrowing st.
Proof.
  intros H df d E.
  destruct (H df) as [K | [[e K] | [[p K] | K]]]; rewrite K in E;
    inversion E; subst; simpl; split; auto.
  - intros r. rewrite filter_In. tauto.
  - intros r. apply sort_rows_desc_In.
Qed.

Section Narrowing.

Context {R : Runtime}.

Local Tactic Notation "narrow" reference(f) :=
  apply narrowing_Keep_or_mask; intros df; unfold f;
  repeat match goal with
         | |- context [match ?x with _ => _ end] => destruct x
         end; eauto 6.

Lemma narrowing_Flask_sentiment (g : Globals) (lo hi : option pyfloat) :
  narrowing (Flask.filter_sentiment g lo hi).
Proof. narrow Flask.filter_sentiment. Qed.

Lemma narrowing_Streamlit_sentiment (rg : option (pyfloat * pyfloat)) :
  narrowing (Streamlit.filter_sentiment rg).
Proof. narrow Streamlit.filter_sentiment. Qed.

Lemma narrowing_Streamlit_sort : narrowing Streamlit.sort_by_date.
Proof. narrow Streamlit.sort_by_date. Qed.

Lemma narrowing_App_year (y : string) : narrowing (App.filter_year y).
Proof. narrow App.filter_year. Qed.

Lemma narrowing_App_symbol (s : string) : narrowing (App.filter_symbol s).
Proof. narrow App.filter_symbol. Qed.

Lemma narrowing_App_keyword (kw : string) : narrowing (App.filter_keyword kw).
Proof. narrow App.filter_keyword. Qed.

Lemma narrowing_App_sort : narrowing App.sort_by_date.
Proof. narrow App.sort_by_date. Qed.

Lemma narrowing_App1_year (y : string) : narrowing (App1.filter_year y).
Proof. narrow App1.filter_year. Qed.

Lemma narrowing_App1_symbol (s : string) : narrowing (App1.filter_symbol s).
Proof. narrow App1.filter_symbol. Qed.

Lemma narrowing_App1_keyword (kw : string) :
  narrowing (App1.filter_keyword kw).
Proof. narrow App1.filter_keyword. Qed.

Lemma narrowing_App1_news_id (nid : string) :
  narrowing (App1.filter_news_id nid).
Proof. narrow App1.filter_news_id. Qed.

Lemma narrowing_App1_sort : narrowing App1.sort_by_date.
Proof. narrow App1.sort_by_date. Qed.

Lemma narrowing_Backend_year (y : option Z) :
  narrowing (Backend.filter_year y).
Proof. narrow Backend.filter_year. Qed.

Lemma narrowing_Backend_symbol (s : string) :
  narrowing (Backend.filter_symbol s).
Proof. narrow Backend.filter_symbol. Qed.

Lemma narrowing_Backend_keyword (kw : string) :
  narrowing (Backend.filter_keyword kw).
Proof. narrow Backend.filter_keyword. Qed.

Lemma narrowing_Backnew_year (y : option Z) :
  narrowing (Backnew.filter_year y).
Proof. narrow Backnew.filter_year. Qed.

Lemma narrowing_Backnew_symbol (s : string) :
  narrowing (Backnew.filter_symbol s).
Proof. narrow Backnew.filter_symbol. Qed.

Lemma narrowing_Backnew_keyword (kw : string) :
  narrowing (Backnew.filter_keyword kw).
Proof. narrow Backnew.filter_keyword. Qed.

End Narrowing.

Create HintDb narrowing.
#[local] Hint Resolve narrowing_Flask_sentiment narrowing_Streamlit_sentiment
  narrowing_Streamlit_sort narrowing_App_year narrowing_App_symbol
  narrowing_App_keyword narrowing_App_sort narrowing_App1_year
  narrowing_App1_symbol narrowing_App1_keyword narrowing_App1_news_id
  narrowing_App1_sort narrowing_Backend_year narrowing_Backend_symbol
  narrowing_Backend_keyword narrowing_Backnew_year narrowing_Backnew_symbol
  narrowing_Backnew_keyword : narrowing.

(* ================================================================== *)
(** * Startup *)
(* ================================================================== *)

Lemma startup_run (h : heap) (r : ref) (df : DataFrame) :
  holds h r df -> startup r h = (inr (globals_of r df), h).
Proof.
  unfold startup, globals_of, bind, read, holds. intros ->.
  now destruct (has_column "sentiment_score_signed" df).
Qed.

Lemma globals_of_DF (r : ref) (df : DataFrame) : DF (globals_of r df) = r.
Proof.
  unfold globals_of. now destruct (has_column "sentiment_score_signed" df).
Qed.

Lemma startup_inv (h h' : heap) (r : ref) (df : DataFrame) (g : Globals) :
  holds h r df -> startup r h = (inr g, h') -> g = globals_of r df /\ h' = h.
Proof. intros H E. rewrite (startup_run _ _ _ H) in E. now inversion E. Qed.

Lemma yields_returned (m : M ref) (h : heap) (v : exn + DataFrame)
  (P : Row -> Prop) :
  post m h (yields h v) ->
  (forall d, v = inr d -> Forall P (rows d)) ->
  returned_rows m h P.
Proof.
  intros Hp Hv r h' E. destruct (post_run _ _ _ _ _ Hp E) as [_ Y].
  destruct v as [e | d]; [discriminate |].
  destruct Y as (r0 & Er & Hh). inversion Er; subst. eauto.
Qed.

(* ================================================================== *)
(** * Null scores never pass the sentiment paragraph *)
(* ================================================================== *)

Section NullScores.

Context {R : Runtime}.

Lemma mask_Forall (p : Row -> bool) (P : Row -> Prop) (df : DataFrame) :
  (forall r, p r = true -> P r) -> Forall P (rows (getitem_mask p df)).
Proof.
  intros H. apply Forall_forall. intros r. simpl. rewrite filter_In.
  intros [_ E]. auto.
Qed.

Lemma Flask_sentiment_scored (g : Globals) (lo hi : option pyfloat)
  (x y : DataFrame) :
  MIN_SCORE g <> None ->
  stage_value (Flask.filter_sentiment g lo hi) x = inr y ->
  Forall scored (rows y).
Proof.
  unfold stage_value, Flask.filter_sentiment. intros N.
  destruct (MIN_SCORE g); [| congruence].
  destruct (has_column _ x); [| discriminate].
  destruct lo as [lo|], hi as [hi|]; try discriminate.
  intros E. inversion E. apply mask_Forall, score_between_notna.
Qed.

Lemma Streamlit_sentiment_scored (rg : pyfloat * pyfloat) (x y : DataFrame) :
  stage_value (Streamlit.filter_sentiment (Some rg)) x = inr y ->
  Forall scored (rows y).
Proof.
  unfold stage_value, Streamlit.filter_sentiment. destruct rg as [lo hi].
  destruct (has_column _ x); [| discriminate].
  intros E. inversion E. apply mask_Forall, score_between_notna.
Qed.

Lemma globals_of_MIN (r : ref) (df : DataFrame) :
  has_column "sentiment_score_signed" df = true ->
  MIN_SCORE (globals_of r df) = Some (series_min (scores df)) /\
  MAX_SCORE (globals_of r df) = Some (series_max (scores df)).
Proof. unfold globals_of. now intros ->. Qed.

(** C10.  When the frame has a score column, every row the filter
    pipeline returns has a non-null score, whatever the filters are: in
    [app.py], in [app1.py], in [backend.py] and in [backnew.py] alike. *)
Theorem returned_scores_are_not_null (h : heap) (r : ref) (df : DataFrame)
  (g : Globals) :
  holds h r df ->
  startup r h = (inr g, h) ->
  has_column "sentiment_score_signed" df = true ->
  (forall y s lo hi kw,
      returned_rows (App.filtered g y s lo hi kw) h scored) /\
  (forall y s lo hi kw nid,
      returned_rows (App1.filtered g y s lo hi kw nid) h scored) /\
  (forall w, returned_rows (Backend.filtered r w) h scored) /\
  (forall w, returned_rows (Backnew.filtered r w) h scored).
Proof.
  intros H S C. destruct (startup_inv _ _ _ _ _ H S) as [-> _].
  assert (MIN_SCORE (globals_of r df) <> None) as N
      by (destruct (globals_of_MIN r df C) as [-> _]; discriminate).
  assert (holds h (DF (globals_of r df)) df) as H'
      by now rewrite globals_of_DF.
  repeat split; intros.
  - eapply yields_returned; [apply App_filtered_yields, H' |].
    intros d. unfold App_stages.
    apply (run_stages_establish [_; _] [_; _]); auto with narrowing.
    intros x z _ _. now apply Flask_sentiment_scored.
  - eapply yields_returned; [apply App1_filtered_yields, H' |].
    intros d. unfold App1_stages.
    apply (run_stages_establish [_; _] [_; _; _]); auto with narrowing.
    intros x z _ _. now apply Flask_sentiment_scored.
  - eapply yields_returned; [apply Backend_filtered_yields, H |].
    intros d. unfold Backend_stages, Backend.sentiment_range. rewrite C.
    apply (run_stages_establish [_; _] [_; _]); auto with narrowing.
    intros x z _ _. apply Streamlit_sentiment_scored.
  - eapply yields_returned; [apply Backnew_filtered_yields, H |].
    intros d. unfold Backnew_stages.
    assert (exists rg, Backnew.sentiment_range df w = Some rg) as [rg ->].
    { unfold Backnew.sentiment_range. rewrite C.
      destruct (series_min (scores df)), (series_max (scores df)); eauto.
      destruct (Qeq_bool q q0); eauto. }
    apply (run_stages_establish [_; _] [_; _]); auto with narrowing.
    intros x z _ _. apply Streamlit_sentiment_scored.
Qed.

End NullScores.

(* ================================================================== *)
(** * Grouping by year *)
(* ================================================================== *)

Lemma add_to_group_keys (y k : Z) (v : pyfloat) (g : groups) :
  In k (keys (add_to_group y v g)) <-> k = y \/ In k (keys g).
Proof.
  induction g as [| [k0 vs] g IH]; simpl.
  - intuition.
  - destruct (y <? k0)%Z; simpl; [intuition |].
    destruct (y =? k0)%Z eqn:E; simpl.
    + apply Z.eqb_eq in E. subst. intuition.
    + rewrite IH. intuition.
Qed.

Lemma add_to_group_sorted (y : Z) (v : pyfloat) (g : groups) :
  StronglySorted Z.lt (keys g) ->
  StronglySorted Z.lt (keys (add_to_group y v g)).
Proof.
  induction g as [| [k0 vs] g IH]; simpl; intros S.
  - repeat constructor.
  - inversion S as [| ? ? S' F]; subst.
    destruct (y <? k0)%Z eqn:L; simpl.
    + apply Z.ltb_lt in L. constructor; [exact S |].
      constructor; [exact L |].
      eapply Forall_impl; [| exact F]. simpl. intros; lia.
    + destruct (y =? k0)%Z eqn:E; simpl; [now constructor |].
      apply Z.ltb_ge in L. apply Z.eqb_neq in E.
      constructor; [now apply IH |].
      apply Forall_forall. intros k Hk.
      apply add_to_group_keys in Hk. destruct Hk as [-> | Hk]; [lia |].
      rewrite Forall_forall in F. auto.
Qed.

Lemma group_of_absent (y : Z) (g : groups) :
  ~ In y (keys g) -> group_of y g = [].
Proof.
  induction g as [| [k vs] g IH]; simpl; auto.
  intros N. destruct (k =? y)%Z eqn:E.
  - apply Z.eqb_eq in E. tauto.
  - apply IH. tauto.
Qed.

Lemma add_to_group_group_of (y k : Z) (v : pyfloat) (g : groups) :
  StronglySorted Z.lt (keys g) ->
  group_of k (add_to_group y v g) =
  if (k =? y)%Z then group_of k g ++ [v] else group_of k g.
Proof.
  induction g as [| [k0 vs] g IH]; simpl; intros S.
  - rewrite (Z.eqb_sym y k). now destruct (k =? y)%Z.
  - inversion S as [| ? ? S' F]; subst.
    destruct (y <? k0)%Z eqn:L; simpl.
    + apply Z.ltb_lt in L. rewrite (Z.eqb_sym y k).
      destruct (k =? y)%Z eqn:E; [| reflexivity].
      apply Z.eqb_eq in E. subst k.
      assert ((k0 =? y)%Z = false) as -> by (apply Z.eqb_neq; lia).
      rewrite group_of_absent; [reflexivity |].
      intros I. rewrite Forall_forall in F. specialize (F _ I). lia.
    + destruct (y =? k0)%Z eqn:E; simpl.
      * apply Z.eqb_eq in E. subst k0.
        rewrite (Z.eqb_sym y k). now destruct (k =? y)%Z.
      * destruct (k0 =? k)%Z eqn:E'.
        -- apply Z.eqb_eq in E'. subst k0.
           now rewrite Z.eqb_sym, E.
        -- now apply IH.
Qed.

Lemma group_of_In (k : Z) (vs : list pyfloat) (g : groups) :
  StronglySorted Z.lt (keys g) -> In (k, vs) g -> group_of k g = vs.
Proof.
  induction g as [| [k0 vs0] g IH]; simpl; [contradiction |].
  intros S [E | I].
  - inversion E; subst. now rewrite Z.eqb_refl.
  - inversion S as [| ? ? S' F]; subst.
    assert (k0 < k)%Z as L.
    { rewrite Forall_forall in F. apply F.
      change k with (fst (k, vs)). now apply in_map. }
    assert ((k0 =? k)%Z = false) as -> by (apply Z.eqb_neq; lia).
    auto.
Qed.

Lemma fold_add_row_sorted (rs : list Row) (g : groups) :
  StronglySorted Z.lt (keys g) ->
  StronglySorted Z.lt (keys (fold_left add_row rs g)).
Proof.
  revert g. induction rs as [| r rs IH]; simpl; intros g S; [exact S |].
  apply IH. unfold add_row. destruct (Year r); [| exact S].
  now apply add_to_group_sorted.
Qed.

Lemma fold_add_row_keys (rs : list Row) (g : groups) (k : Z) :
  In k (keys (fold_left add_row rs g)) <->
  In k (keys g) \/ exists r, In r rs /\ Year r = Some k.
Proof.
  revert g. induction rs as [| r rs IH]; simpl; intros g.
  - split; [auto | intros [H | (r & [] & _)]; exact H].
  - rewrite IH. unfold add_row. destruct (Year r) as [y |] eqn:E.
    + rewrite add_to_group_keys. split.
      * intros [[-> | H] | (x & I & Hx)]; eauto.
      * intros [H | (x & [-> | I] & Hx)]; eauto.
        left. left. congruence.
    + split.
      * intros [H | (x & I & Hx)]; eauto.
      * intros [H | (x & [-> | I] & Hx)]; eauto. congruence.
Qed.

Lemma fold_add_row_group_of (rs : list Row) (g : groups) (k : Z) :
  StronglySorted Z.lt (keys g) ->
  group_of k (fold_left add_row rs g) =
  group_of k g ++ map sentiment_score_signed (filter (year_is k) rs).
Proof.
  revert g. induction rs as [| r rs IH]; simpl; intros g S.
  - now rewrite app_nil_r.
  - unfold add_row at 2, year_is at 1. destruct (Year r) as [y |] eqn:E.
    + rewrite IH by now apply add_to_group_sorted.
      rewrite add_to_group_group_of by exact S.
      rewrite (Z.eqb_sym y k). destruct (k =? y)%Z; simpl;
        [now rewrite <- app_assoc | reflexivity].
    + now apply IH.
Qed.

(** The years of the grouping are in strictly ascending order. *)
Lemma groupby_Year_sorted (rs : list Row) :
  StronglySorted Z.lt (keys (groupby_Year rs)).
Proof. apply fold_add_row_sorted. constructor. Qed.

(** A year has a group exactly when some row has that year. *)
Lemma groupby_Year_keys (rs : list Row) (k : Z) :
  In k (keys (groupby_Year rs)) <-> exists r, In r rs /\ Year r = Some k.
Proof.
  unfold groupby_Year. rewrite fold_add_row_keys. simpl. tauto.
Qed.

(** The group of a year holds the scores of the rows of that year, in
    row order. *)
Lemma groupby_Year_group (rs : list Row) (k : Z) (vs : list pyfloat) :
  In (k, vs) (groupby_Year rs) ->
  vs = map sentiment_score_signed (filter (year_is k) rs).
Proof.
  intros I.
  rewrite <- (group_of_In _ _ _ (groupby_Year_sorted rs) I).
  unfold groupby_Year. now rewrite fold_add_row_group_of by constructor.
Qed.

(* ================================================================== *)
(** * The annual trend *)
(* ================================================================== *)

Lemma nth_error_new (h : heap) (o : obj) :
  nth_error (h ++ [o]) (List.length h) = Some o.
Proof. rewrite nth_error_app2, Nat.sub_diag by lia. reflexivity. Qed.

Lemma dropna_Year_reset_index (df : DataFrame) :
  dropna_Year (groupby_mean_reset_index df) = groupby_mean_reset_index df.
Proof.
  unfold dropna_Year, groupby_mean_reset_index. simpl. f_equal.
  induction (groupby_Year (rows df)) as [| g l IH]; simpl; congruence.
Qed.

Lemma astype_int_reset_index (df : DataFrame) :
  astype_int (map fst (t_rows (groupby_mean_reset_index df)))
  = inr (map fst (yearly_means df)).
Proof.
  unfold groupby_mean_reset_index, yearly_means. simpl.
  induction (groupby_Year (rows df)) as [| g l IH]; simpl; [reflexivity |].
  now rewrite IH.
Qed.

Lemma tolist_int_reset_index (df : DataFrame) :
  tolist_int (map fst (t_rows (groupby_mean_reset_index df)))
  = map fst (yearly_means df).
Proof.
  unfold groupby_mean_reset_index, yearly_means. simpl.
  induction (groupby_Year (rows df)) as [| g l IH]; simpl; congruence.
Qed.

Lemma round4_reset_index (df : DataFrame) :
  round4_tolist (groupby_mean_reset_index df) = map snd (yearly_means df).
Proof.
  unfold round4_tolist, groupby_mean_reset_index, yearly_means. simpl.
  now rewrite !map_map.
Qed.

(** [app.py]: [compute_annual_trend] never raises and only allocates. *)
Lemma App_compute_annual_trend_run (h : heap) (r : ref) (df : DataFrame) :
  holds h r df ->
  post (App.compute_annual_trend r) h
       (fun res h' => extends h h' /\ res = inr (trend_value df)).
Proof.
  intros H. unfold App.compute_annual_trend, trend_value.
  apply post_bind, (post_read _ _ _ _ H).
  destruct (negb (has_column "Year" df)
            || negb (has_column "sentiment_score_signed" df)).
  - apply post_ret. split; auto with heap.
  - apply post_bind, post_alloc.
    apply post_bind, (post_read_trend _ _ _ _ (nth_error_new _ _)).
    apply post_bind, post_alloc.
    apply post_bind, (post_read_trend _ _ _ _ (nth_error_new _ _)).
    rewrite dropna_Year_reset_index, astype_int_reset_index.
    apply post_bind. simpl. split.
    + exists [Trend (groupby_mean_reset_index df);
              Trend (groupby_mean_reset_index df)].
      now rewrite <- app_assoc.
    + now rewrite round4_reset_index.
Qed.

(** [app1.py]: [compute_annual_trend] never raises and only allocates. *)
Lemma App1_compute_annual_trend_run (h : heap) (r : ref) (df : DataFrame) :
  holds h r df ->
  post (App1.compute_annual_trend r) h
       (fun res h' => extends h h' /\ res = inr (trend_value df)).
Proof.
  intros H. unfold App1.compute_annual_trend, trend_value.
  apply post_bind, (post_read _ _ _ _ H).
  destruct (negb (has_column "Year" df)
            || negb (has_column "sentiment_score_signed" df)).
  - apply post_ret. split; auto with heap.
  - apply post_bind, post_alloc.
    apply post_bind, (post_read_trend _ _ _ _ (nth_error_new _ _)).
    rewrite tolist_int_reset_index, round4_reset_index.
    apply post_ret. split; auto with heap.
Qed.

(** The annual trend of a frame that has years and scores: the years in
    strictly ascending order, one per year that occurs in the frame, each
    with the rounded mean of the non-null scores of its rows. *)
Lemma trend_value_spec (df : DataFrame) :
  has_column "Year" df = true ->
  has_column "sentiment_score_signed" df = true ->
  let years := fst (trend_value df) in
  StronglySorted Z.lt years /\
  (forall y, In y years <-> exists r, In r (rows df) /\ Year r = Some y) /\
  snd (trend_value df) =
    map (fun y => fround 4 (series_mean (scores_of_year y df))) years.
Proof.
  intros HY HS. unfold trend_value. rewrite HY, HS. simpl.
  unfold yearly_means. rewrite !map_map. simpl.
  repeat split.
  - apply groupby_Year_sorted.
  - apply groupby_Year_keys.
  - apply groupby_Year_keys.
  - apply map_ext_in. intros [k vs] I. simpl.
    now rewrite (groupby_Year_group _ _ _ I).
Qed.

(* ================================================================== *)
(** * The yearly summary *)
(* ================================================================== *)

Section YearlySummary.

Context {R : Runtime}.

Lemma yields_new (h : heap) (d : DataFrame) :
  yields h (inr d) (inr (List.length h)) (h ++ [News d]).
Proof. split; eauto with heap. Qed.

Lemma post_copy (r : ref) (h : heap) (df : DataFrame) :
  holds h r df -> post (copy r) h (yields h (inr df)).
Proof. intros H. apply (post_derive _ _ _ _ _ H). apply yields_new. Qed.

(** [app.py]: [compute_yearly_summary] never raises and only allocates. *)
Lemma App_compute_yearly_summary_run (h : heap) (r : ref) (df : DataFrame)
  (y : string) :
  holds h r df ->
  post (App.compute_yearly_summary r y) h
       (fun res h' => extends h h' /\ res = inr (App_summary y df)).
Proof.
  intros H. unfold App.compute_yearly_summary.
  apply post_bind, (post_read _ _ _ _ H).
  apply post_bind.
  apply post_conseq with (Q := yields h (inr (App_df_year y df))).
  - unfold App_df_year.
    destruct (has_column "Year" df && negb (String.eqb y "all")).
    + apply post_try, (post_derive _ _ _ _ _ H).
      destruct (py_int y); [apply yields_new | now apply post_copy].
    + now apply post_copy.
  - intros res h' [E (r' & -> & Hd)].
    apply post_bind, (post_read _ _ _ _ Hd). unfold App_summary.
    destruct (negb (has_column "sentiment_label" (App_df_year y df))
              || empty (App_df_year y df)); apply post_ret; auto.
Qed.

(** [app1.py]: [compute_yearly_summary] never raises and only allocates. *)
Lemma App1_compute_yearly_summary_run (h : heap) (r : ref) (df : DataFrame)
  (y : string) :
  holds h r df ->
  post (App1.compute_yearly_summary r y) h
       (fun res h' => extends h h' /\ res = inr (App1_summary y df)).
Proof.
  intros H. unfold App1.compute_yearly_summary.
  apply post_bind, (post_read _ _ _ _ H).
  apply post_bind.
  apply post_conseq with (Q := yields h (inr (App1_df_year y df))).
  - unfold App1_df_year.
    destruct (App1.is_set y && has_column "Year" df).
    + apply post_try, (post_derive _ _ _ _ _ H).
      destruct (py_int y); [apply yields_new | now apply post_copy].
    + now apply post_copy.
  - intros res h' [E (r' & -> & Hd)].
    apply post_bind, (post_read _ _ _ _ Hd). unfold App1_summary.
    destruct (negb (has_column "sentiment_label" (App1_df_year y df))
              || empty (App1_df_year y df)); apply post_ret; auto.
Qed.

End YearlySummary.

(* ================================================================== *)
(** * The programs only add objects to the heap *)
(* ================================================================== *)

Section Allocating.

Context {A B : Type}.

Lemma allocating_ret (a : A) : allocating (ret a).
Proof. intros h. apply extends_refl. Qed.

Lemma allocating_raise (e : exn) : allocating (@raise A e).
Proof. intros h. apply extends_refl. Qed.

Lemma allocating_lift (x : exn + A) : allocating (lift x).
Proof. destruct x; [apply allocating_raise | apply allocating_ret]. Qed.

Lemma allocating_bind (m : M A) (k : A -> M B) :
  allocating m -> (forall a, allocating (k a)) -> allocating (bind m k).
Proof.
  intros Hm Hk h. unfold bind. specialize (Hm h).
  destruct (m h) as [[e | a] h']; simpl in *; [exact Hm |].
  exact (extends_trans _ _ _ Hm (Hk a h')).
Qed.

Lemma allocating_try (m k : M A) :
  allocating m -> allocating k -> allocating (try_except m k).
Proof.
  intros Hm Hk h. unfold try_except. specialize (Hm h).
  destruct (m h) as [[e | a] h']; simpl in *; [| exact Hm].
  exact (extends_trans _ _ _ Hm (Hk h')).
Qed.

End Allocating.

Lemma allocating_alloc (o : obj) : allocating (alloc o).
Proof. intros h. apply extends_snoc. Qed.

Lemma allocating_read (r : ref) : allocating (read r).
Proof.
  intros h. unfold read. destruct (nth_error h r) as [[|] |];
    apply extends_refl.
Qed.

Lemma allocating_read_trend (r : ref) : allocating (read_trend r).
Proof.
  intros h. unfold read_trend. destruct (nth_error h r) as [[|] |];
    apply extends_refl.
Qed.

Ltac allocating_step :=
  match goal with
  | |- allocating (bind _ _) => apply allocating_bind; [| intros]
  | |- allocating (try_except _ _) => apply allocating_try
  | |- allocating (ret _) => apply allocating_ret
  | |- allocating (raise _) => apply allocating_raise
  | |- allocating (lift _) => apply allocating_lift
  | |- allocating (alloc _) => apply allocating_alloc
  | |- allocating (read _) => apply allocating_read
  | |- allocating (read_trend _) => apply allocating_read_trend
  | |- allocating (match ?x with _ => _ end) => destruct x
  | |- allocating _ => solve [auto with allocating]
  end.

Ltac allocating_auto := repeat allocating_step.

Create HintDb allocating.

Lemma allocating_derive (r : ref) (f : DataFrame -> exn + DataFrame) :
  allocating (derive r f).
Proof. unfold derive. allocating_auto. Qed.

Lemma allocating_assign (r : ref) (st : DataFrame -> outcome) :
  allocating (assign r st).
Proof. unfold assign. allocating_auto. Qed.

#[local] Hint Resolve allocating_derive allocating_assign : allocating.

Lemma allocating_copy (r : ref) : allocating (copy r).
Proof. unfold copy. allocating_auto. Qed.

Lemma allocating_derive_pure (r : ref) (f : DataFrame -> DataFrame) :
  allocating (derive_pure r f).
Proof. unfold derive_pure. allocating_auto. Qed.

#[local] Hint Resolve allocating_copy allocating_derive_pure : allocating.

(** The in-place updates of [backnew.py] overwrite the frame of yearly
    means that the same paragraph has just allocated. *)
Lemma update_trend_new (h : heap) (t : TrendFrame)
  (f : TrendFrame -> exn + TrendFrame) :
  update_trend (List.length h) f (h ++ [Trend t]) =
  match f t with
  | inr t' => (inr tt, h ++ [Trend t'])
  | inl e => (inl e, h ++ [Trend t])
  end.
Proof.
  unfold update_trend, bind, read_trend, write. rewrite nth_error_new.
  destruct (f t); simpl; [reflexivity |]. now rewrite set_nth_last.
Qed.

Section AllocatingPrograms.

Context {R : Runtime}.

Lemma allocating_startup (r : ref) : allocating (startup r).
Proof. unfold startup. allocating_auto. Qed.

Lemma allocating_App_trend (r : ref) : allocating (App.compute_annual_trend r).
Proof. unfold App.compute_annual_trend. allocating_auto. Qed.

Lemma allocating_App_summary (r : ref) (y : string) :
  allocating (App.compute_yearly_summary r y).
Proof. unfold App.compute_yearly_summary. allocating_auto. Qed.

Lemma allocating_App_filtered (g : Globals) (y s : string)
  (lo hi : option pyfloat) (kw : string) :
  allocating (App.filtered g y s lo hi kw).
Proof. unfold App.filtered. allocating_auto. Qed.

Lemma allocating_App_detail (r : ref) (nid : string) :
  allocating (App.detail r nid).
Proof. unfold App.detail. allocating_auto. Qed.

Hint Resolve allocating_App_trend allocating_App_summary
  allocating_App_filtered allocating_App_detail : allocating.

Lemma allocating_App_index (g : Globals) (req : Request) :
  allocating (App.index g req).
Proof. unfold App.index. cbv zeta. allocating_auto. Qed.

Lemma allocating_App1_trend (r : ref) :
  allocating (App1.compute_annual_trend r).
Proof. unfold App1.compute_annual_trend. allocating_auto. Qed.

Lemma allocating_App1_summary (r : ref) (y : string) :
  allocating (App1.compute_yearly_summary r y).
Proof. unfold App1.compute_yearly_summary. allocating_auto. Qed.

Lemma allocating_App1_filtered (g : Globals) (y s : string)
  (lo hi : option pyfloat) (kw nid : string) :
  allocating (App1.filtered g y s lo hi kw nid).
Proof. unfold App1.filtered. allocating_auto. Qed.

Lemma allocating_App1_detail (r : ref) (nid : string) :
  allocating (App1.detail r nid).
Proof. unfold App1.detail. allocating_auto. Qed.

Hint Resolve allocating_App1_trend allocating_App1_summary
  allocating_App1_filtered allocating_App1_detail : allocating.

Lemma allocating_App1_index (g : Globals) (req : Request) :
  allocating (App1.index g req).
Proof. unfold App1.index. cbv zeta. allocating_auto. Qed.

Lemma allocating_Backend_filtered (r : ref) (w : Widgets) :
  allocating (Backend.filtered r w).
Proof. unfold Backend.filtered. allocating_auto. Qed.

Lemma allocating_Backend_trend (r : ref) : allocating (Backend.annual_trend r).
Proof. unfold Backend.annual_trend. allocating_auto. Qed.

Lemma allocating_Backend_summary (r : ref) (y : option Z) :
  allocating (Backend.yearly_summary r y).
Proof. unfold Backend.yearly_summary. allocating_auto. Qed.

Lemma allocating_Backend_detail (r : ref) (i : ident) :
  allocating (Backend.detail r i).
Proof. unfold Backend.detail. allocating_auto. Qed.

Hint Resolve allocating_Backend_filtered allocating_Backend_trend
  allocating_Backend_summary allocating_Backend_detail : allocating.

Lemma allocating_Backend_script (r : ref) (w : Widgets) :
  allocating (Backend.script r w).
Proof. unfold Backend.script. cbv zeta. allocating_auto. Qed.

Lemma allocating_Backnew_filtered (r : ref) (w : Widgets) :
  allocating (Backnew.filtered r w).
Proof. unfold Backnew.filtered. allocating_auto. Qed.

Lemma allocating_Backnew_trend (r : ref) : allocating (Backnew.annual_trend r).
Proof.
  intros h. unfold Backnew.annual_trend, bind at 1, read.
  destruct (nth_error h r) as [[d | t] |]; simpl; try apply extends_refl.
  destruct (has_column "Year" d && has_column "sentiment_score_signed" d);
    [| apply extends_refl].
  unfold bind, alloc. rewrite !update_trend_new. simpl.
  unfold read_trend. rewrite nth_error_new. apply extends_snoc.
Qed.

Lemma allocating_Backnew_summary (r : ref) (y : option Z) :
  allocating (Backnew.yearly_summary r y).
Proof. unfold Backnew.yearly_summary. allocating_auto. Qed.

Lemma allocating_Backnew_detail (r : ref) (i : ident) :
  allocating (Backnew.detail r i).
Proof. unfold Backnew.detail. allocating_auto. Qed.

Hint Resolve allocating_Backnew_filtered allocating_Backnew_trend
  allocating_Backnew_summary allocating_Backnew_detail : allocating.

Lemma allocating_Backnew_script (r : ref) (w : Widgets) :
  allocating (Backnew.script r w).
Proof. unfold Backnew.script. cbv zeta. allocating_auto. Qed.

(** C9.  A request to either Flask program and a run of either Streamlit
    script leave every object that was on the heap before unchanged, at
    the same reference: in particular the frame loaded at startup holds
    the same rows with the same values afterwards, whatever the filters
    are and whether the run returns or raises. *)
Theorem filtering_never_mutates_the_dataset (h : heap) (r : ref)
  (df : DataFrame) :
  holds h r df ->
  (forall g req, holds (snd (App.index g req h)) r df) /\
  (forall g req, holds (snd (App1.index g req h)) r df) /\
  (forall base w, holds (snd (Backend.script base w h)) r df) /\
  (forall base w, holds (snd (Backnew.script base w h)) r df).
Proof.
  intros H. repeat split; intros; eapply holds_extends; try exact H.
  - apply allocating_App_index.
  - apply allocating_App1_index.
  - apply allocating_Backend_script.
  - apply allocating_Backnew_script.
Qed.

End AllocatingPrograms.

(* ================================================================== *)
(** * The request handlers *)
(* ================================================================== *)

Section Handlers.

Context {R : Runtime}.

Lemma App_detail_run (h : heap) (r : ref) (f : DataFrame) (nid : string) :
  holds h r f ->
  post (App.detail r nid) h
       (fun res h' => extends h h' /\ (truthy nid = false -> res = inr None)).
Proof.
  intros H. split; [apply allocating_App_detail |].
  intros T. unfold App.detail, bind, read. rewrite H, T. reflexivity.
Qed.

Lemma App1_detail_run (h : heap) (r : ref) (f : DataFrame) (nid : string) :
  holds h r f ->
  post (App1.detail r nid) h
       (fun res h' => extends h h' /\ (truthy nid = false -> res = inr None)).
Proof.
  intros H. split; [apply allocating_App1_detail |].
  intros T. unfold App1.detail. rewrite T. reflexivity.
Qed.

(** [app.py]: what a request computes.  The response, when there is one,
    shows the frame left by the paragraphs, the trend of the base frame
    and the summary of the base frame for the requested year; and there
    is one as soon as the paragraphs do not raise and no record is
    asked for. *)
Lemma App_index_run (g : Globals) (req : Request) (h : heap)
  (df : DataFrame) :
  holds h (DF g) df ->
  post (App.index g req) h
    (fun res h' =>
       (forall resp, res = inr resp ->
          exists f, run_stages (App_stages_of g req) df = inr f /\
                    shows resp f df (App_summary (App_selected_year req) df)) /\
       (truthy (requested_news_id req) = false ->
        forall f, run_stages (App_stages_of g req) df = inr f ->
                  exists resp, res = inr resp)).
Proof.
  intros H. unfold App.index. cbv zeta.
  fold (App_selected_year req) (App_selected_symbol req)
       (requested_keyword req) (requested_news_id req).
  apply post_bind.
  eapply post_conseq; [apply App_filtered_yields, H |].
  fold (App_stages_of g req).
  intros res h1 [E1 Y].
  destruct (run_stages (App_stages_of g req) df) as [e | f].
  { subst res. split; [discriminate | intros _ f' C; discriminate]. }
  destruct Y as (r1 & -> & H1).
  apply post_bind, (post_read _ _ _ _ H1).
  apply post_bind. unfold derive_pure.
  apply (post_derive _ _ _ _ _ H1).
  apply post_bind, (post_derive _ _ _ _ _ (holds_new _ _)).
  apply post_bind, (post_read _ _ _ _ (holds_new _ _)).
  set (h2 := (h1 ++ _) ++ _).
  assert (extends h1 h2) as E2 by (subst h2; eauto with heap).
  apply post_bind.
  eapply post_conseq; [apply (App_detail_run h2 r1 f); eauto with heap |].
  intros res3 h3 [E3 D].
  destruct res3 as [e | sel].
  { split; [discriminate | intros T; specialize (D T); discriminate]. }
  apply post_bind.
  eapply post_conseq;
    [apply (App_compute_annual_trend_run h3 (DF g) df); eauto 6 with heap |].
  intros res4 h4 [E4 ->].
  apply post_bind.
  eapply post_conseq;
    [apply (App_compute_yearly_summary_run h4 (DF g) df);
     eauto 7 with heap |].
  intros res5 h5 [E5 ->].
  apply post_ret. split.
  - intros resp Er. apply inr_inj in Er. subst resp. exists f.
    split; [reflexivity |]. unfold shows.
    cbn [row_count table_cols table_rows trend_years trend_scores
         yearly_summary].
    split; [reflexivity |]. split; [reflexivity |].
    split; [reflexivity |]. split; [| reflexivity].
    destruct (trend_value df); reflexivity.
  - intros _ f' _. eexists. reflexivity.
Qed.

(** [app1.py]: what a request computes. *)
Lemma App1_index_run (g : Globals) (req : Request) (h : heap)
  (df : DataFrame) :
  holds h (DF g) df ->
  post (App1.index g req) h
    (fun res h' =>
       (forall resp, res = inr resp ->
          exists f, run_stages (App1_stages_of g req) df = inr f /\
                    shows resp f df
                          (App1_summary (get (arg_year req) "all") df)) /\
       (truthy (requested_news_id req) = false ->
        forall f, run_stages (App1_stages_of g req) df = inr f ->
                  exists resp, res = inr resp)).
Proof.
  intros H. unfold App1.index. cbv zeta.
  fold (requested_keyword req) (requested_news_id req).
  apply post_bind.
  eapply post_conseq; [apply App1_filtered_yields, H |].
  fold (App1_stages_of g req).
  intros res h1 [E1 Y].
  destruct (run_stages (App1_stages_of g req) df) as [e | f].
  { subst res. split; [discriminate | intros _ f' C; discriminate]. }
  destruct Y as (r1 & -> & H1).
  apply post_bind, (post_read _ _ _ _ H1).
  apply post_bind. unfold derive_pure.
  apply (post_derive _ _ _ _ _ H1).
  apply post_bind, (post_derive _ _ _ _ _ (holds_new _ _)).
  apply post_bind, (post_read _ _ _ _ (holds_new _ _)).
  set (h2 := (h1 ++ _) ++ _).
  assert (extends h1 h2) as E2 by (subst h2; eauto with heap).
  apply post_bind.
  eapply post_conseq; [apply (App1_detail_run h2 r1 f); eauto with heap |].
  intros res3 h3 [E3 D].
  destruct res3 as [e | sel].
  { split; [discriminate | intros T; specialize (D T); discriminate]. }
  apply post_bind.
  eapply post_conseq;
    [apply (App1_compute_annual_trend_run h3 (DF g) df); eauto 6 with heap |].
  intros res4 h4 [E4 ->].
  apply post_bind.
  eapply post_conseq;
    [apply (App1_compute_yearly_summary_run h4 (DF g) df);
     eauto 7 with heap |].
  intros res5 h5 [E5 ->].
  apply post_ret. split.
  - intros resp Er. apply inr_inj in Er. subst resp. exists f.
    split; [reflexivity |]. unfold shows.
    cbn [row_count table_cols table_rows trend_years trend_scores
         yearly_summary].
    split; [reflexivity |]. split; [reflexivity |].
    split; [reflexivity |]. split; [| reflexivity].
    destruct (trend_value df); reflexivity.
  - intros _ f' _. eexists. reflexivity.
Qed.

End Handlers.

(* ================================================================== *)
(** * The Streamlit scripts *)
(* ================================================================== *)

Section Scripts.

Context {R : Runtime}.

Lemma post_allocating {A : Type} (m : M A) (h : heap)
  (Q : exn + A -> heap -> Prop) :
  allocating m -> (forall res h', extends h h' -> Q res h') -> post m h Q.
Proof. intros Hm HQ. apply HQ, Hm. Qed.

(** [backend.py]: when a run of the script completes, it shows the frame
    left by the paragraphs. *)
Lemma Backend_script_run (r : ref) (w : Widgets) (h : heap) (df : DataFrame) :
  holds h r df ->
  post (Backend.script r w) h
    (fun res h' =>
       forall out, res = inr out ->
         exists f, run_stages (Backend_stages df w) df = inr f /\
                   result_count out = List.length (rows f) /\
                   result_table out = editor_table f).
Proof.
  intros H. unfold Backend.script.
  apply post_bind, (post_read _ _ _ _ H).
  apply post_bind.
  eapply post_conseq; [apply Backend_filtered_yields, H |].
  intros res h1 [E1 Y].
  destruct (run_stages (Backend_stages df w) df) as [e | f].
  { subst res. discriminate. }
  destruct Y as (r1 & -> & H1).
  apply post_bind, post_allocating; [apply allocating_Backend_trend |].
  intros [e | trend] h2 E2; [discriminate |].
  apply post_bind, post_allocating; [apply allocating_Backend_summary |].
  intros [e | summary] h3 E3; [discriminate |].
  assert (holds h3 r1 f) as H3 by eauto with heap.
  apply post_bind, (post_read _ _ _ _ H3).
  apply post_bind. unfold derive_pure.
  apply (post_derive _ _ _ _ _ H3).
  apply post_bind, (post_derive _ _ _ _ _ (holds_new _ _)).
  apply post_bind, (post_read _ _ _ _ (holds_new _ _)).
  apply post_bind, post_allocating; [apply allocating_Backend_detail |].
  intros [e | view] h4 E4; [discriminate |].
  apply post_ret. intros out Eo. apply inr_inj in Eo. subst out. exists f.
  cbn [result_count result_table].
  split; [reflexivity |]. split; reflexivity.
Qed.

End Scripts.

(* ================================================================== *)
(** * No filter set *)
(* ================================================================== *)

Section NoFilter.

Context {R : Runtime}.

Lemma has_column_mask (c : string) (p : Row -> bool) (df : DataFrame) :
  has_column c (getitem_mask p df) = has_column c df.
Proof. reflexivity. Qed.

Lemma scored_rows_by_bounds (df : DataFrame) :
  filter (score_between (series_min (scores df)) (series_max (scores df)))
         (rows df)
  = scored_rows df.
Proof.
  unfold scored_rows. apply filter_ext_in. intros r I.
  now apply score_between_bounds.
Qed.

Lemma sentiment_range_no_filter (r : ref) (df : DataFrame) :
  sentiment_range (globals_of r df) no_filter
  = (MIN_SCORE (globals_of r df), MAX_SCORE (globals_of r df)).
Proof.
  unfold sentiment_range, globals_of.
  now destruct (has_column "sentiment_score_signed" df).
Qed.

(** [app.py]: the frame left by the paragraphs of a request without
    parameters. *)
Lemma App_no_filter_stages (r : ref) (df : DataFrame) :
  has_column "Date" df = true ->
  run_stages (App_stages_of (globals_of r df) no_filter) df
  = inr (unfiltered_frame df).
Proof.
  intros HD. unfold App_stages_of. rewrite sentiment_range_no_filter.
  unfold unfiltered_frame, unfiltered_rows, globals_of, App_stages.
  destruct (has_column "sentiment_score_signed" df) eqn:HS; simpl;
    unfold stage_value; simpl.
  - unfold Flask.filter_sentiment. simpl. rewrite HS. simpl.
    unfold App.sort_by_date. rewrite has_column_mask, HD.
    unfold sort_values_Date_desc. simpl.
    now rewrite scored_rows_by_bounds.
  - unfold App.sort_by_date. now rewrite HD.
Qed.

(** [backend.py]: the frame left by the paragraphs when the sidebar is
    left untouched. *)
Lemma Backend_no_filter_stages (df : DataFrame) (i : ident) :
  has_column "Date" df = true ->
  run_stages (Backend_stages df (untouched df i)) df
  = inr (unfiltered_frame df).
Proof.
  intros HD.
  unfold unfiltered_frame, unfiltered_rows, Backend_stages,
    Backend.selected_year, Backend.symbol, Backend.sentiment_range.
  simpl w_year. simpl w_symbol. simpl w_range. simpl w_keyword.
  assert (Backend.filter_year
            (if has_column "Year" df then None else None) df = Keep) as EY
      by now destruct (has_column "Year" df).
  assert (Backend.filter_symbol
            (if has_column "Stock_symbol" df then "(All)" else "(All)") df
          = Keep) as ES
      by now destruct (has_column "Stock_symbol" df).
  simpl. unfold stage_value at 1. rewrite EY.
  unfold stage_value at 1. rewrite ES.
  destruct (has_column "sentiment_score_signed" df) eqn:HS;
    unfold stage_value; simpl.
  - rewrite HS. simpl. unfold Streamlit.sort_by_date.
    rewrite has_column_mask, HD.
    unfold sort_values_Date_desc. simpl.
    now rewrite scored_rows_by_bounds.
  - unfold Streamlit.sort_by_date. now rewrite HD.
Qed.

End NoFilter.

Section NoFilterClaim.

Context {R : Runtime}.

Lemma unfiltered_frame_perm (df : DataFrame) :
  Permutation (rows (unfiltered_frame df)) (unfiltered_rows df).
Proof. apply sort_rows_desc_perm. Qed.

Lemma unfiltered_frame_length (df : DataFrame) :
  List.length (rows (unfiltered_frame df)) = List.length (unfiltered_rows df).
Proof. apply Permutation_length, unfiltered_frame_perm. Qed.

Lemma shown_columns_unfiltered (df : DataFrame) :
  shown_columns (unfiltered_frame df) = shown_columns df.
Proof. unfold shown_columns. apply filter_ext. reflexivity. Qed.

Lemma editor_columns_unfiltered (df : DataFrame) :
  editor_columns (unfiltered_frame df) = editor_columns df.
Proof. unfold editor_columns. apply filter_ext. reflexivity. Qed.

(** C1, amended.  For a frame with a date column, a request without any
    parameter to [app.py] and a run of [backend.py] with the sidebar left
    untouched return the rows that have a score (all rows when the frame
    has no score column): the frame left in [filtered] is a rearrangement
    of these rows in descending date order, the count shown is their
    number and the table shows the first 200 of them. *)
Theorem no_filter_returns_the_scored_rows (h : heap) (r : ref)
  (df : DataFrame) (g : Globals) :
  holds h r df ->
  startup r h = (inr g, h) ->
  has_column "Date" df = true ->
  Permutation (rows (unfiltered_frame df)) (unfiltered_rows df) /\
  StronglySorted date_ge (rows (unfiltered_frame df)) /\
  (exists resp h',
      App.index g no_filter h = (inr resp, h') /\
      row_count resp = List.length (unfiltered_rows df) /\
      table_cols resp = shown_columns df /\
      table_rows resp =
        map (row_to_dict (shown_columns df))
            (firstn 200 (rows (unfiltered_frame df)))) /\
  (forall i, exists ref h',
      Backend.filtered r (untouched df i) h = (inr ref, h') /\
      holds h' ref (unfiltered_frame df)) /\
  (forall i out h',
      Backend.script r (untouched df i) h = (inr out, h') ->
      result_count out = List.length (unfiltered_rows df) /\
      result_table out =
        map (row_to_dict (editor_columns df))
            (firstn 200 (rows (unfiltered_frame df)))).
Proof.
  intros H S HD. destruct (startup_inv _ _ _ _ _ H S) as [-> _].
  assert (holds h (DF (globals_of r df)) df) as H'
      by now rewrite globals_of_DF.
  split; [apply unfiltered_frame_perm |].
  split; [apply sort_rows_desc_sorted |].
  split; [| split].
  - pose proof (App_index_run (globals_of r df) no_filter h df H') as P.
    destruct (App.index (globals_of r df) no_filter h) as [res h'] eqn:E.
    destruct (post_run _ _ _ _ _ P E) as [P1 P2].
    destruct (P2 eq_refl _ (App_no_filter_stages r df HD)) as [resp ->].
    destruct (P1 resp eq_refl) as (f & Ef & C & TC & TR & _).
    rewrite App_no_filter_stages in Ef by exact HD.
    apply inr_inj in Ef. subst f.
    exists resp, h'. rewrite C, TC, TR, unfiltered_frame_length.
    unfold shown_table. rewrite shown_columns_unfiltered.
    split; [reflexivity |]. split; [reflexivity |]. split; reflexivity.
  - intros i.
    pose proof (Backend_filtered_yields r (untouched df i) h df H) as P.
    unfold post in P. rewrite Backend_no_filter_stages in P by exact HD.
    destruct (Backend.filtered r (untouched df i) h) as [res h'].
    destruct P as [_ (ref & E & Hh)]. cbn [fst] in E. subst res.
    exists ref, h'. split; [reflexivity | exact Hh].
  - intros i out h' E.
    pose proof (Backend_script_run r (untouched df i) h df H) as P.
    destruct (post_run _ _ _ _ _ P E out eq_refl) as (f & Ef & C & T).
    rewrite Backend_no_filter_stages in Ef by exact HD.
    apply inr_inj in Ef. subst f.
    rewrite C, T, unfiltered_frame_length.
    unfold editor_table. rewrite editor_columns_unfiltered.
    split; reflexivity.
Qed.

End NoFilterClaim.


(** C1 as stated fails on a frame with a null score: the request without
    parameters returns one of the two rows of the frame, not the full
    frame. *)
Lemma no_filter_drops_rows_without_score :
  match fst (@App.index Builtins.runtime (globals_of 0 Sample.news_with_null)
               no_filter (Sample.loaded Sample.news_with_null)) with
  | inr resp =>
      row_count resp = 1%nat /\
      row_count resp <> List.length (rows Sample.news_with_null)
  | inl _ => False
  end.
Proof. vm_compute. split; [reflexivity | discriminate]. Qed.

Lemma no_filter_returns_the_scored_rows_witness :
  holds (Sample.loaded Sample.news) 0 Sample.news /\
  has_column "Date" Sample.news = true /\
  exists resp h',
    @App.index Builtins.runtime (globals_of 0 Sample.news) no_filter
               (Sample.loaded Sample.news) = (inr resp, h') /\
    row_count resp = List.length (unfiltered_rows Sample.news).
Proof.
  assert (holds (Sample.loaded Sample.news) 0 Sample.news) as H
      by reflexivity.
  assert (startup 0 (Sample.loaded Sample.news)
          = (inr (globals_of 0 Sample.news), Sample.loaded Sample.news)) as S
      by reflexivity.
  assert (has_column "Date" Sample.news = true) as D by reflexivity.
  split; [exact H |]. split; [exact D |].
  destruct (@no_filter_returns_the_scored_rows Builtins.runtime _ _ _ _ H S D)
    as (_ & _ & (resp & h' & E & C & _) & _).
  exists resp, h'. split; [exact E | exact C].
Defined.

Lemma returned_scores_are_not_null_witness :
  holds (Sample.loaded Sample.news_with_null) 0 Sample.news_with_null /\
  has_column "sentiment_score_signed" Sample.news_with_null = true /\
  returned_rows
    (@App.filtered Builtins.runtime (globals_of 0 Sample.news_with_null)
                   "all" "all" (Some (Fl (-1))) (Some (Fl 1)) "")
    (Sample.loaded Sample.news_with_null) scored.
Proof.
  assert (holds (Sample.loaded Sample.news_with_null) 0
                Sample.news_with_null) as H by reflexivity.
  assert (startup 0 (Sample.loaded Sample.news_with_null)
          = (inr (globals_of 0 Sample.news_with_null),
             Sample.loaded Sample.news_with_null)) as S by reflexivity.
  assert (has_column "sentiment_score_signed" Sample.news_with_null = true)
    as C by reflexivity.
  split; [exact H |]. split; [exact C |].
  destruct (@returned_scores_are_not_null Builtins.runtime _ _ _ _ H S C)
    as (A & _).
  apply A.
Defined.

Lemma filtering_never_mutates_the_dataset_witness :
  holds (Sample.loaded Sample.news) 0 Sample.news /\
  holds (snd (@App.index Builtins.runtime (globals_of 0 Sample.news)
                (mkRequest (Some "2020") (Some "AAA") (Some "good") None
                           None None)
                (Sample.loaded Sample.news)))
        0 Sample.news.
Proof.
  assert (holds (Sample.loaded Sample.news) 0 Sample.news) as H
      by reflexivity.
  split; [exact H |].
  destruct (@filtering_never_mutates_the_dataset Builtins.runtime _ _ _ H)
    as (A & _).
  apply A.
Defined.

(* ================================================================== *)
(** * The sentiment range *)
(* ================================================================== *)

Section SentimentRange.

Context {R : Runtime}.

Lemma Flask_sentiment_within (g : Globals) (lo hi : option pyfloat)
  (x y : DataFrame) :
  MIN_SCORE g <> None ->
  stage_value (Flask.filter_sentiment g lo hi) x = inr y ->
  Forall (score_within lo hi) (rows y).
Proof.
  unfold stage_value, Flask.filter_sentiment. intros N.
  destruct (MIN_SCORE g); [| congruence].
  destruct (has_column _ x); [| discriminate].
  destruct lo as [lo|], hi as [hi|]; try discriminate.
  intros E. apply inr_inj in E. subst y.
  apply mask_Forall, score_between_within.
Qed.

Lemma filter_all (A : Type) (p : A -> bool) (l : list A) :
  Forall (fun x => p x = true) l -> filter p l = l.
Proof.
  induction 1 as [| x l Hx F IH]; simpl; [reflexivity |].
  now rewrite Hx, IH.
Qed.

(** C2, amended.  For a frame with a score column: with the bounds of
    the column as range, the sentiment paragraph of the Flask programs
    keeps exactly the rows with a non-null score, so it returns what no
    range filter returns exactly when no score is null; and for every
    range, every row the pipelines of [app.py] and [app1.py] return has a
    score between the two bounds, both included. *)
Theorem sentiment_range_keeps_scores_within_bounds (h : heap) (r : ref)
  (df : DataFrame) (g : Globals) :
  holds h r df ->
  startup r h = (inr g, h) ->
  has_column "sentiment_score_signed" df = true ->
  (forall f, columns f = columns df ->
             (forall x, In x (rows f) -> In x (rows df)) ->
     Flask.filter_sentiment g (MIN_SCORE g) (MAX_SCORE g) f
     = Rebind (getitem_mask (fun x => notna (sentiment_score_signed x)) f) /\
     (stage_value (Flask.filter_sentiment g (MIN_SCORE g) (MAX_SCORE g)) f
      = inr f <-> Forall scored (rows f))) /\
  (forall y s lo hi kw,
      returned_rows (App.filtered g y s lo hi kw) h (score_within lo hi)) /\
  (forall y s lo hi kw nid,
      returned_rows (App1.filtered g y s lo hi kw nid) h (score_within lo hi)).
Proof.
  intros H S C. destruct (startup_inv _ _ _ _ _ H S) as [-> _].
  destruct (globals_of_MIN r df C) as [Emin Emax].
  assert (MIN_SCORE (globals_of r df) <> None) as N
      by (rewrite Emin; discriminate).
  assert (holds h (DF (globals_of r df)) df) as H'
      by now rewrite globals_of_DF.
  split; [| split].
  - intros f Cf I.
    assert (has_column "sentiment_score_signed" f = true) as Cf'
        by (unfold has_column in *; now rewrite Cf).
    assert (getitem_mask
              (score_between (series_min (scores df))
                             (series_max (scores df))) f
            = getitem_mask (fun x => notna (sentiment_score_signed x)) f)
      as Em.
    { unfold getitem_mask. f_equal. apply filter_ext_in. intros x Hx.
      apply score_between_bounds. auto. }
    assert (Flask.filter_sentiment (globals_of r df)
              (MIN_SCORE (globals_of r df)) (MAX_SCORE (globals_of r df)) f
            = Rebind (getitem_mask
                        (fun x => notna (sentiment_score_signed x)) f))
      as Ef.
    { unfold Flask.filter_sentiment. rewrite Emin, Emax, Cf'. now rewrite Em. }
    split; [exact Ef |].
    unfold stage_value. rewrite Ef. split.
    + intros E. apply inr_inj in E. rewrite <- E. apply mask_Forall.
      intros x Hx. exact Hx.
    + intros F. unfold getitem_mask.
      rewrite filter_all by exact F. now destruct f.
  - intros. eapply yields_returned; [apply App_filtered_yields, H' |].
    intros d. unfold App_stages.
    apply (run_stages_establish [_; _] [_; _]); auto with narrowing.
    intros x z _ _. now apply Flask_sentiment_within.
  - intros. eapply yields_returned; [apply App1_filtered_yields, H' |].
    intros d. unfold App1_stages.
    apply (run_stages_establish [_; _] [_; _; _]); auto with narrowing.
    intros x z _ _. now apply Flask_sentiment_within.
Qed.

End SentimentRange.

(** C2 as stated fails on a frame with a null score: with the bounds of
    the column as range, the sentiment paragraph returns one row of the
    two that no range filter returns. *)
Lemma default_range_drops_null_scores :
  stage_value
    (Flask.filter_sentiment (globals_of 0 Sample.news_with_null)
       (MIN_SCORE (globals_of 0 Sample.news_with_null))
       (MAX_SCORE (globals_of 0 Sample.news_with_null)))
    Sample.news_with_null
  = inr (mkDF Sample.all_columns [Sample.good]) /\
  rows (mkDF Sample.all_columns [Sample.good]) <> rows Sample.news_with_null.
Proof. split; [reflexivity | discriminate]. Qed.

Lemma sentiment_range_keeps_scores_within_bounds_witness :
  holds (Sample.loaded Sample.news) 0 Sample.news /\
  has_column "sentiment_score_signed" Sample.news = true /\
  returned_rows
    (@App.filtered Builtins.runtime (globals_of 0 Sample.news) "all" "all"
                   (Some (Fl 0)) (Some (Fl 1)) "")
    (Sample.loaded Sample.news) (score_within (Some (Fl 0)) (Some (Fl 1))).
Proof.
  assert (holds (Sample.loaded Sample.news) 0 Sample.news) as H
      by reflexivity.
  assert (startup 0 (Sample.loaded Sample.news)
          = (inr (globals_of 0 Sample.news), Sample.loaded Sample.news)) as S
      by reflexivity.
  assert (has_column "sentiment_score_signed" Sample.news = true) as C
      by reflexivity.
  split; [exact H |]. split; [exact C |].
  destruct (@sentiment_range_keeps_scores_within_bounds Builtins.runtime
              _ _ _ _ H S C) as (_ & A & _).
  apply A.
Defined.

(* ================================================================== *)
(** * The annual trend of the whole frame *)
(* ================================================================== *)

Section AnnualTrend.

Context {R : Runtime}.

Lemma series_mean_all_null (l : list pyfloat) :
  Forall (fun v => v = NaN) l -> series_mean l = NaN.
Proof.
  intros F. unfold series_mean.
  assert (dropna l = []) as ->; [| reflexivity].
  induction F as [| v l -> F IH]; simpl; auto.
Qed.

(** C3, amended.  The annual trend is computed from the whole frame, not
    from the filtered rows: both Flask programs return, for every
    request, the trend of the base frame.  For a frame with years and
    scores it has one entry for each year that some row has, in strictly
    ascending order of the years, with the mean, rounded to 4 places, of
    the non-null scores of the rows of that year.  A year whose rows all
    have a null score is present as well, with a null mean; only years
    that no row has are absent. *)
Theorem annual_trend_has_one_mean_per_year (h : heap) (r : ref)
  (df : DataFrame) :
  holds h r df ->
  has_column "Year" df = true ->
  has_column "sentiment_score_signed" df = true ->
  (exists h', App.compute_annual_trend r h = (inr (trend_value df), h')) /\
  (exists h', App1.compute_annual_trend r h = (inr (trend_value df), h')) /\
  (forall g req resp h',
      DF g = r -> App.index g req h = (inr resp, h') ->
      (trend_years resp, trend_scores resp) = trend_value df) /\
  (forall g req resp h',
      DF g = r -> App1.index g req h = (inr resp, h') ->
      (trend_years resp, trend_scores resp) = trend_value df) /\
  StronglySorted Z.lt (fst (trend_value df)) /\
  (forall y, In y (fst (trend_value df)) <->
             exists row, In row (rows df) /\ Year row = Some y) /\
  snd (trend_value df) =
    map (fun y => fround 4 (series_mean (scores_of_year y df)))
        (fst (trend_value df)) /\
  (forall y, Forall (fun row => sentiment_score_signed row = NaN)
                    (rows_of_year y df) ->
             fround 4 (series_mean (scores_of_year y df)) = NaN).
Proof.
  intros H HY HS.
  destruct (trend_value_spec df HY HS) as (S1 & S2 & S3).
  split; [| split; [| split; [| split; [| split; [| split; [| split]]]]]];
    auto.
  - pose proof (App_compute_annual_trend_run h r df H) as P.
    unfold post in P. destruct (App.compute_annual_trend r h) as [res h'].
    destruct P as [_ P]. cbn [fst] in P. subst res. now exists h'.
  - pose proof (App1_compute_annual_trend_run h r df H) as P.
    unfold post in P. destruct (App1.compute_annual_trend r h) as [res h'].
    destruct P as [_ P]. cbn [fst] in P. subst res. now exists h'.
  - intros g req resp h' <- E.
    destruct (post_run _ _ _ _ _ (App_index_run g req h df H) E)
      as [P _].
    destruct (P resp eq_refl) as (f & _ & _ & _ & _ & T & _). exact T.
  - intros g req resp h' <- E.
    destruct (post_run _ _ _ _ _ (App1_index_run g req h df H) E)
      as [P _].
    destruct (P resp eq_refl) as (f & _ & _ & _ & _ & T & _). exact T.
  - intros y F. rewrite series_mean_all_null; [reflexivity |].
    unfold scores_of_year. apply Forall_forall. intros v Hv.
    apply in_map_iff in Hv. destruct Hv as (row & <- & I).
    rewrite Forall_forall in F. auto.
Qed.

End AnnualTrend.

(** C3 as stated fails on a frame with a year whose only row has a null
    score: that year has no row that contributes to a mean, and it
    appears in the trend, with a null mean. *)
Lemma year_without_scores_appears_in_trend :
  fst (App.compute_annual_trend 0 (Sample.loaded Sample.news_with_null))
  = inr ([2020; 2022]%Z, [Fl (5000 # 10000); NaN]) /\
  dropna (scores_of_year 2022 Sample.news_with_null) = [].
Proof. split; reflexivity. Qed.

Lemma annual_trend_has_one_mean_per_year_witness :
  holds (Sample.loaded Sample.news) 0 Sample.news /\
  has_column "Year" Sample.news = true /\
  has_column "sentiment_score_signed" Sample.news = true /\
  snd (trend_value Sample.news) =
    map (fun y => fround 4 (series_mean (scores_of_year y Sample.news)))
        (fst (trend_value Sample.news)).
Proof.
  assert (holds (Sample.loaded Sample.news) 0 Sample.news) as H
      by reflexivity.
  assert (has_column "Year" Sample.news = true) as HY by reflexivity.
  assert (has_column "sentiment_score_signed" Sample.news = true) as HS
      by reflexivity.
  split; [exact H |]. split; [exact HY |]. split; [exact HS |].
  destruct (@annual_trend_has_one_mean_per_year Builtins.runtime
              _ _ _ H HY HS) as (_ & _ & _ & _ & _ & _ & A & _).
  exact A.
Defined.

(* ================================================================== *)
(** * The yearly summary of the whole frame *)
(* ================================================================== *)

Section YearlySummaryClaims.

Context {R : Runtime}.

Lemma post_returns {A : Type} (m : M A) (h : heap) (v : A) :
  post m h (fun res h' => extends h h' /\ res = inr v) ->
  exists h', m h = (inr v, h').
Proof.
  unfold post. destruct (m h) as [res h']. intros [_ E].
  cbn [fst] in E. subst res. now exists h'.
Qed.

(** C4.  The yearly summary of a response depends on the base frame and
    on the requested year only: two requests to [app.py] (and likewise to
    [app1.py]) with the same year parameter, whatever their symbol,
    sentiment range, keyword and record id, show the same summary, which
    is the one [compute_yearly_summary] computes from the base frame
    restricted by the year alone. *)
Theorem yearly_summary_depends_only_on_the_year (h : heap) (g : Globals)
  (df : DataFrame) (req1 req2 : Request) :
  holds h (DF g) df ->
  arg_year req1 = arg_year req2 ->
  (forall resp1 resp2 h1 h2,
      App.index g req1 h = (inr resp1, h1) ->
      App.index g req2 h = (inr resp2, h2) ->
      yearly_summary resp1 = yearly_summary resp2 /\
      yearly_summary resp1 = App_summary (App_selected_year req1) df) /\
  (forall resp1 resp2 h1 h2,
      App1.index g req1 h = (inr resp1, h1) ->
      App1.index g req2 h = (inr resp2, h2) ->
      yearly_summary resp1 = yearly_summary resp2 /\
      yearly_summary resp1 = App1_summary (get (arg_year req1) "all") df) /\
  (exists h',
      App.compute_yearly_summary (DF g) (App_selected_year req1) h
      = (inr (App_summary (App_selected_year req1) df), h')) /\
  (exists h',
      App1.compute_yearly_summary (DF g) (get (arg_year req1) "all") h
      = (inr (App1_summary (get (arg_year req1) "all") df), h')).
Proof.
  intros H Ey. split; [| split; [| split]].
  - intros resp1 resp2 h1 h2 E1 E2.
    destruct (post_run _ _ _ _ _ (App_index_run g req1 h df H) E1) as [P1 _].
    destruct (post_run _ _ _ _ _ (App_index_run g req2 h df H) E2) as [P2 _].
    destruct (P1 resp1 eq_refl) as (f1 & _ & _ & _ & _ & _ & S1).
    destruct (P2 resp2 eq_refl) as (f2 & _ & _ & _ & _ & _ & S2).
    rewrite S1, S2. unfold App_selected_year. rewrite Ey. auto.
  - intros resp1 resp2 h1 h2 E1 E2.
    destruct (post_run _ _ _ _ _ (App1_index_run g req1 h df H) E1) as [P1 _].
    destruct (post_run _ _ _ _ _ (App1_index_run g req2 h df H) E2) as [P2 _].
    destruct (P1 resp1 eq_refl) as (f1 & _ & _ & _ & _ & _ & S1).
    destruct (P2 resp2 eq_refl) as (f2 & _ & _ & _ & _ & _ & S2).
    rewrite S1, S2, Ey. auto.
  - apply post_returns, App_compute_yearly_summary_run, H.
  - apply post_returns, App1_compute_yearly_summary_run, H.
Qed.

Lemma App_df_year_columns (y : string) (df : DataFrame) :
  columns (App_df_year y df) = columns df.
Proof.
  unfold App_df_year.
  destruct (has_column "Year" df && negb (String.eqb y "all"));
    [destruct (py_int y) |]; reflexivity.
Qed.

Lemma App1_df_year_columns (y : string) (df : DataFrame) :
  columns (App1_df_year y df) = columns df.
Proof.
  unfold App1_df_year.
  destruct (App1.is_set y && has_column "Year" df);
    [destruct (py_int y) |]; reflexivity.
Qed.

Lemma has_column_columns (c : string) (d1 d2 : DataFrame) :
  columns d1 = columns d2 -> has_column c d1 = has_column c d2.
Proof. unfold has_column. now intros ->. Qed.

Lemma App_summary_empty (y : string) (df : DataFrame) :
  has_column "sentiment_label" df = false \/ rows (App_df_year y df) = [] ->
  App_summary y df = empty_summary.
Proof.
  unfold App_summary.
  rewrite (has_column_columns _ _ _ (App_df_year_columns y df)).
  unfold empty. intros [-> | ->]; [reflexivity |].
  now rewrite orb_true_r.
Qed.

Lemma App1_summary_empty (y : string) (df : DataFrame) :
  has_column "sentiment_label" df = false \/ rows (App1_df_year y df) = [] ->
  App1_summary y df = empty_summary.
Proof.
  unfold App1_summary.
  rewrite (has_column_columns _ _ _ (App1_df_year_columns y df)).
  unfold empty. intros [-> | ->]; [reflexivity |].
  now rewrite orb_true_r.
Qed.

Lemma eqb_neq_false (a b : string) : a <> b -> String.eqb a b = false.
Proof. intros N. now apply String.eqb_neq. Qed.

(** C7.  [compute_yearly_summary] never raises, in [app.py] and in
    [app1.py].  When the frame has no label column, or when no row is
    left by the year restriction, it returns the empty summary: total 0,
    no dominant label, no percentage, an empty breakdown.  A requested
    year that is a number and that no row has leaves no row. *)
Theorem yearly_summary_is_empty_without_rows_or_labels (h : heap) (r : ref)
  (df : DataFrame) (y : string) :
  holds h r df ->
  (exists s h', App.compute_yearly_summary r y h = (inr s, h')) /\
  (exists s h', App1.compute_yearly_summary r y h = (inr s, h')) /\
  (has_column "sentiment_label" df = false \/ rows (App_df_year y df) = [] ->
   exists h', App.compute_yearly_summary r y h = (inr empty_summary, h')) /\
  (has_column "sentiment_label" df = false \/ rows (App1_df_year y df) = [] ->
   exists h', App1.compute_yearly_summary r y h = (inr empty_summary, h')) /\
  (forall n, py_int y = Some n -> has_column "Year" df = true ->
             y <> "all" -> y <> "" -> rows_of_year n df = [] ->
             rows (App_df_year y df) = [] /\ rows (App1_df_year y df) = []) /\
  total_articles empty_summary = 0%nat /\
  dominant_label empty_summary = None /\
  dominant_pct empty_summary = None /\
  summary_rows empty_summary = [].
Proof.
  intros H.
  pose proof (post_returns _ _ _ (App_compute_yearly_summary_run h r df y H))
    as PA.
  pose proof (post_returns _ _ _ (App1_compute_yearly_summary_run h r df y H))
    as PB.
  split; [destruct PA as [h' E]; eauto |].
  split; [destruct PB as [h' E]; eauto |].
  split; [intros C; now rewrite <- (App_summary_empty y df C) |].
  split; [intros C; now rewrite <- (App1_summary_empty y df C) |].
  split; [| repeat split].
  intros n En HY N1 N2 E.
  unfold App_df_year, App1_df_year, App1.is_set.
  rewrite HY, En, (eqb_neq_false _ _ N1), (eqb_neq_false _ _ N2).
  simpl. split; exact E.
Qed.

End YearlySummaryClaims.

(* ================================================================== *)
(** * A year that is not a number *)
(* ================================================================== *)

Section BadYear.

Context {R : Runtime}.

Lemma assign_ext (r : ref) (st1 st2 : DataFrame -> outcome) (h : heap) :
  (forall df, st1 df = st2 df) -> assign r st1 h = assign r st2 h.
Proof.
  intros E. unfold assign, bind. destruct (read r h) as [[e | df] h'];
    [reflexivity | now rewrite E].
Qed.

Lemma same_outcome_bind {A : Type} (m1 m2 : M A) (k1 k2 : A -> M Response)
  (h : heap) :
  m1 h = m2 h ->
  (forall a h', same_outcome (k1 a h') (k2 a h')) ->
  same_outcome (bind m1 k1 h) (bind m2 k2 h).
Proof.
  intros E K. unfold bind. rewrite E.
  destruct (m2 h) as [[e | a] h']; [now split | apply K].
Qed.

Lemma same_outcome_ret (a b : Response) (h : heap) :
  same_data a b -> same_outcome (ret a h) (ret b h).
Proof. intros D. split; [reflexivity | exact D]. Qed.

Ltac same_data_fields :=
  apply same_outcome_ret; unfold same_data;
  cbn [selected_symbol keyword sent_min sent_max row_count table_cols
       table_rows selected_news_id selected_row trend_years trend_scores
       yearly_summary];
  repeat (split; [reflexivity |]); reflexivity.

Lemma bind_cong {A B : Type} (m1 m2 : M A) (k1 k2 : A -> M B) (h : heap) :
  m1 h = m2 h -> (forall a h', k1 a h' = k2 a h') ->
  bind m1 k1 h = bind m2 k2 h.
Proof.
  intros E K. unfold bind. rewrite E.
  destruct (m2 h) as [[e | a] h']; [reflexivity | apply K].
Qed.

(** A [try] whose body raises after reading amounts to its handler. *)
Lemma try_derive_copy (r : ref) (f : DataFrame -> exn + DataFrame)
  (h : heap) :
  (forall d, exists e, f d = inl e) ->
  try_except (derive r f) (copy r) h = copy r h.
Proof.
  intros Hf. unfold try_except, derive, bind, read.
  destruct (nth_error h r) as [[d | t] |] eqn:En.
  - destruct (Hf d) as [e ->]. reflexivity.
  - reflexivity.
  - reflexivity.
Qed.

Lemma App_summary_bad_year (r : ref) (bad : string) (h : heap) :
  py_int bad = None ->
  App.compute_yearly_summary r bad h = App.compute_yearly_summary r "all" h.
Proof.
  intros E. unfold App.compute_yearly_summary.
  apply bind_cong; [reflexivity | intros d h1].
  apply bind_cong; [| reflexivity].
  change (String.eqb "all" "all") with true.
  rewrite andb_false_r.
  destruct (has_column "Year" d && negb (String.eqb bad "all"));
    [| reflexivity].
  apply try_derive_copy. intros d0. rewrite E. eauto.
Qed.

Lemma App1_summary_bad_year (r : ref) (bad : string) (h : heap) :
  py_int bad = None ->
  App1.compute_yearly_summary r bad h
  = App1.compute_yearly_summary r "all" h.
Proof.
  intros E. unfold App1.compute_yearly_summary.
  apply bind_cong; [reflexivity | intros d h1].
  apply bind_cong; [| reflexivity].
  change (App1.is_set "all") with false. cbn [andb].
  destruct (App1.is_set bad && has_column "Year" d); [| reflexivity].
  apply try_derive_copy. intros d0. rewrite E. eauto.
Qed.

(** C6.  A requested year on which [int()] fails is ignored: the year
    paragraph of [app.py] and of [app1.py] leaves the frame as it is and
    raises nothing, and the whole pipeline behaves, on every heap, as it
    does for the year ["all"], that is, for a request without a year.
    The handler as a whole ends in the same heap as for the request
    without the year parameter, and raises the same exception or returns
    the same data, apart from the year it echoes and the title built from
    it. *)
Theorem unparsable_year_is_ignored (g : Globals) (bad : string) :
  py_int bad = None ->
  (forall df, App.filter_year bad df = Keep) /\
  (forall df, App1.filter_year bad df = Keep) /\
  (forall s lo hi kw h,
      App.filtered g bad s lo hi kw h = App.filtered g "all" s lo hi kw h) /\
  (forall s lo hi kw nid h,
      App1.filtered g bad s lo hi kw nid h
      = App1.filtered g "all" s lo hi kw nid h) /\
  (forall req h, arg_year req = Some bad ->
      same_outcome (App.index g req h) (App.index g (without_year req) h)) /\
  (forall req h, arg_year req = Some bad ->
      same_outcome (App1.index g req h) (App1.index g (without_year req) h)).
Proof.
  intros E.
  assert (forall df, App.filter_year bad df = Keep) as K.
  { intros df. unfold App.filter_year. rewrite E.
    now destruct (negb (String.eqb bad "all") && has_column "Year" df). }
  assert (forall df, App1.filter_year bad df = Keep) as K1.
  { intros df. unfold App1.filter_year. rewrite E.
    destruct (App1.is_set bad); [| reflexivity].
    now destruct (has_column "Year" df). }
  assert (forall s lo hi kw h,
             App.filtered g bad s lo hi kw h
             = App.filtered g "all" s lo hi kw h) as F.
  { intros. unfold App.filtered, bind.
    destruct (copy (DF g) h) as [[e | r1] h1]; [reflexivity |].
    rewrite (assign_ext r1 (App.filter_year bad) (App.filter_year "all"));
      [reflexivity |].
    intros df. now rewrite K. }
  assert (forall s lo hi kw nid h,
             App1.filtered g bad s lo hi kw nid h
             = App1.filtered g "all" s lo hi kw nid h) as F1.
  { intros. unfold App1.filtered, bind.
    destruct (copy (DF g) h) as [[e | r1] h1]; [reflexivity |].
    rewrite (assign_ext r1 (App1.filter_year bad) (App1.filter_year "all"));
      [reflexivity |].
    intros df. now rewrite K1. }
  split; [exact K |]. split; [exact K1 |].
  split; [exact F |]. split; [exact F1 |]. split.
  - intros req h Ey. unfold App.index. cbv zeta.
    unfold sentiment_range.
    cbn [without_year arg_year arg_symbol arg_keyword arg_news_id
         arg_sent_min arg_sent_max].
    rewrite Ey. cbn [get].
    change (String.eqb "all" "") with false. cbv iota.
    destruct (String.eqb bad "").
    + repeat (apply same_outcome_bind; [reflexivity | intros]).
      same_data_fields.
    + apply same_outcome_bind; [apply F | intros].
      repeat (apply same_outcome_bind;
              [first [reflexivity | now apply App_summary_bad_year]
              | intros]).
      same_data_fields.
  - intros req h Ey. unfold App1.index. cbv zeta.
    unfold sentiment_range.
    cbn [without_year arg_year arg_symbol arg_keyword arg_news_id
         arg_sent_min arg_sent_max].
    rewrite Ey. cbn [get].
    apply same_outcome_bind; [apply F1 | intros].
    repeat (apply same_outcome_bind;
            [first [reflexivity | now apply App1_summary_bad_year]
            | intros]).
    same_data_fields.
Qed.

End BadYear.

Lemma yearly_summary_depends_only_on_the_year_witness :
  holds (Sample.loaded Sample.news) 0 Sample.news /\
  exists resp1 resp2 h1 h2,
    @App.index Builtins.runtime (globals_of 0 Sample.news)
      (mkRequest (Some "2020") (Some "AAA") None None None None)
      (Sample.loaded Sample.news) = (inr resp1, h1) /\
    @App.index Builtins.runtime (globals_of 0 Sample.news)
      (mkRequest (Some "2020") None (Some "bad") None (Some "-1") None)
      (Sample.loaded Sample.news) = (inr resp2, h2) /\
    yearly_summary resp1 = yearly_summary resp2.
Proof.
  assert (holds (Sample.loaded Sample.news) (DF (globals_of 0 Sample.news))
                Sample.news) as H by reflexivity.
  split; [exact H |].
  destruct (@App.index Builtins.runtime (globals_of 0 Sample.news)
              (mkRequest (Some "2020") (Some "AAA") None None None None)
              (Sample.loaded Sample.news)) as [[e1 | resp1] h1] eqn:E1;
    [vm_compute in E1; discriminate E1 |].
  destruct (@App.index Builtins.runtime (globals_of 0 Sample.news)
              (mkRequest (Some "2020") None (Some "bad") None (Some "-1")
                         None)
              (Sample.loaded Sample.news)) as [[e2 | resp2] h2] eqn:E2;
    [vm_compute in E2; discriminate E2 |].
  exists resp1, resp2, h1, h2.
  split; [reflexivity |]. split; [reflexivity |].
  destruct (@yearly_summary_depends_only_on_the_year Builtins.runtime
              _ _ _
              (mkRequest (Some "2020") (Some "AAA") None None None None)
              (mkRequest (Some "2020") None (Some "bad") None (Some "-1")
                         None)
              H eq_refl) as (A & _).
  destruct (A resp1 resp2 h1 h2 E1 E2) as (S & _). exact S.
Defined.

Lemma yearly_summary_is_empty_without_rows_or_labels_witness :
  holds (Sample.loaded Sample.news) 0 Sample.news /\
  rows (@App_df_year Builtins.runtime "2019" Sample.news) = [] /\
  exists h',
    @App.compute_yearly_summary Builtins.runtime 0 "2019"
      (Sample.loaded Sample.news) = (inr empty_summary, h').
Proof.
  assert (holds (Sample.loaded Sample.news) 0 Sample.news) as H
      by reflexivity.
  assert (rows (@App_df_year Builtins.runtime "2019" Sample.news) = []) as E
      by reflexivity.
  split; [exact H |]. split; [exact E |].
  destruct (@yearly_summary_is_empty_without_rows_or_labels Builtins.runtime
              _ _ _ "2019" H) as (_ & _ & A & _).
  apply A. right. exact E.
Defined.

Lemma unparsable_year_is_ignored_witness :
  @py_int Builtins.runtime "20x0" = None /\
  @App.filter_year Builtins.runtime "20x0" Sample.news = Keep.
Proof.
  assert (@py_int Builtins.runtime "20x0" = None) as E by reflexivity.
  split; [exact E |].
  destruct (@unparsable_year_is_ignored Builtins.runtime
              (globals_of 0 Sample.news) "20x0" E) as (A & _).
  apply A.
Defined.

(* ================================================================== *)
(** * Normalising a symbol *)
(* ================================================================== *)

Lemma is_space_upper_char (c : ascii) : is_space (upper_char c) = is_space c.
Proof. destruct c as [[] [] [] [] [] [] [] []]; reflexivity. Qed.

Lemma upper_char_idem (c : ascii) : upper_char (upper_char c) = upper_char c.
Proof. destruct c as [[] [] [] [] [] [] [] []]; reflexivity. Qed.

Lemma upper_idem (s : string) : upper (upper s) = upper s.
Proof.
  unfold upper. induction s as [| c s IH]; cbn [map_string];
    [reflexivity |].
  now rewrite upper_char_idem, IH.
Qed.

Lemma lstrip_upper (s : string) : lstrip (upper s) = upper (lstrip s).
Proof.
  unfold upper. induction s as [| c s IH]; cbn [map_string lstrip];
    [reflexivity |].
  rewrite is_space_upper_char. now destruct (is_space c).
Qed.

Lemma rstrip_upper (s : string) : rstrip (upper s) = upper (rstrip s).
Proof.
  unfold upper. induction s as [| c s IH]; cbn [map_string rstrip];
    [reflexivity |].
  rewrite IH, is_space_upper_char.
  destruct (rstrip s); cbn [map_string];
    [now destruct (is_space c) | reflexivity].
Qed.

Lemma strip_upper (s : string) : strip (upper s) = upper (strip s).
Proof. unfold strip. now rewrite rstrip_upper, lstrip_upper. Qed.

Lemma lstrip_idem (s : string) : lstrip (lstrip s) = lstrip s.
Proof.
  induction s as [| c s IH]; simpl; [reflexivity |].
  destruct (is_space c) eqn:E; [exact IH | simpl; now rewrite E].
Qed.

Lemma rstrip_idem (s : string) : rstrip (rstrip s) = rstrip s.
Proof.
  induction s as [| c s IH]; simpl; [reflexivity |].
  destruct (rstrip s) as [| a r] eqn:E.
  - destruct (is_space c) eqn:Ec; simpl; [reflexivity | now rewrite Ec].
  - change (rstrip (String c (String a r))) with
      (match rstrip (String a r) with
       | EmptyString =>
           if is_space c then EmptyString else String c EmptyString
       | String x y => String c (String x y)
       end).
    now rewrite IH.
Qed.

Lemma rstrip_lstrip_fixed (t : string) :
  rstrip t = t -> rstrip (lstrip t) = lstrip t.
Proof.
  induction t as [| c t IH]; simpl; [reflexivity |].
  intros E. destruct (is_space c) eqn:Ec.
  - apply IH. destruct (rstrip t) as [| a r].
    + discriminate.
    + now injection E.
  - simpl. now rewrite Ec in *.
Qed.

Lemma strip_idem (s : string) : strip (strip s) = strip s.
Proof.
  unfold strip.
  rewrite (rstrip_lstrip_fixed (rstrip s) (rstrip_idem s)).
  apply lstrip_idem.
Qed.

(** Normalising twice is normalising once. *)
Lemma normalize_symbol_idem (s : string) :
  App1.normalize_symbol (App1.normalize_symbol s) = App1.normalize_symbol s.
Proof.
  unfold App1.normalize_symbol.
  now rewrite strip_upper, upper_idem, strip_idem.
Qed.

(* ================================================================== *)
(** * The symbol filter *)
(* ================================================================== *)

Section SymbolFilter.

Context {R : Runtime}.

Lemma symbol_is_true (s : string) (row : Row) :
  symbol_is s row = true -> Stock_symbol row = Some s.
Proof.
  unfold symbol_is. destruct (Stock_symbol row) as [x |]; [| discriminate].
  intros E. apply String.eqb_eq in E. now subst.
Qed.

Lemma App_symbol_stage (df x y : DataFrame) (sym : string) :
  has_column "Stock_symbol" df = true -> sym <> "all" ->
  columns x = columns df ->
  stage_value (App.filter_symbol sym) x = inr y ->
  Forall (symbol_matches sym) (rows y).
Proof.
  intros C N Cx. unfold stage_value, App.filter_symbol.
  rewrite (has_column_columns _ _ _ Cx), C, (eqb_neq_false _ _ N).
  cbn [negb andb]. intros E. apply inr_inj in E. subst y.
  apply mask_Forall. intros row Hr. unfold symbol_matches.
  now rewrite (symbol_is_true _ _ Hr).
Qed.

Lemma App1_symbol_stage (df x y : DataFrame) (sym : string) :
  has_column "Stock_symbol" df = true -> sym <> "all" -> sym <> "" ->
  columns x = columns df ->
  stage_value (App1.filter_symbol sym) x = inr y ->
  Forall (symbol_matches sym) (rows y).
Proof.
  intros C N1 N2 Cx. unfold stage_value, App1.filter_symbol, App1.is_set.
  rewrite (has_column_columns _ _ _ Cx), C, (eqb_neq_false _ _ N1),
    (eqb_neq_false _ _ N2).
  cbn [negb orb]. intros E. apply inr_inj in E. subst y.
  apply mask_Forall. intros row Hr. unfold symbol_matches.
  rewrite (symbol_is_true _ _ Hr). cbn [option_map].
  now rewrite normalize_symbol_idem.
Qed.

(** C5, amended.  For a frame with a symbol column and a requested
    symbol that is neither empty nor ["all"], every row the pipelines of
    [app.py] and [app1.py] return has a normalised (trimmed, upper-cased)
    symbol equal to the normalised requested one; [app.py] passes the
    requested text on unchanged when it is not blank. *)
Theorem symbol_filter_returns_only_that_symbol (h : heap) (g : Globals)
  (df : DataFrame) (sym : string) :
  holds h (DF g) df ->
  has_column "Stock_symbol" df = true ->
  sym <> "all" ->
  sym <> "" ->
  (forall y lo hi kw,
      returned_rows (App.filtered g y sym lo hi kw) h (symbol_matches sym)) /\
  (forall y lo hi kw nid,
      returned_rows (App1.filtered g y sym lo hi kw nid) h
                    (symbol_matches sym)) /\
  (forall req, arg_symbol req = Some sym -> App_selected_symbol req = sym).
Proof.
  intros H C N1 N2. split; [| split].
  - intros. eapply yields_returned; [apply App_filtered_yields, H |].
    intros d. unfold App_stages.
    apply (run_stages_establish [_] [_; _; _]); auto with narrowing.
    intros x z Cx _. now apply (App_symbol_stage df).
  - intros. eapply yields_returned; [apply App1_filtered_yields, H |].
    intros d. unfold App1_stages.
    apply (run_stages_establish [_] [_; _; _; _]); auto with narrowing.
    intros x z Cx _. now apply (App1_symbol_stage df).
  - intros req E. unfold App_selected_symbol. rewrite E. cbn [get].
    now rewrite (eqb_neq_false _ _ N2).
Qed.

End SymbolFilter.

(** C5 as stated fails for the blank symbol, which is not the ["all"]
    sentinel: both programs treat it as no filter and return every row,
    among them one whose normalised symbol is not the normalised blank. *)
Lemma blank_symbol_is_no_filter :
  option_map rows
    (returned_frame
       (@App1.filtered Builtins.runtime (globals_of 0 Sample.news) "all" ""
          (Some (Fl (-1))) (Some (Fl 1)) "" ""
          (Sample.loaded Sample.news)))
  = Some [Sample.great; Sample.bad; Sample.good] /\
  match fst (@App.index Builtins.runtime (globals_of 0 Sample.news)
               (mkRequest None (Some "") None None None None)
               (Sample.loaded Sample.news)) with
  | inr resp => row_count resp = 3%nat
  | inl _ => False
  end /\
  ~ symbol_matches "" Sample.good.
Proof.
  split; [vm_compute; reflexivity |].
  split; [vm_compute; reflexivity |].
  unfold symbol_matches. vm_compute. discriminate.
Qed.

Lemma symbol_filter_returns_only_that_symbol_witness :
  holds (Sample.loaded Sample.news) 0 Sample.news /\
  has_column "Stock_symbol" Sample.news = true /\
  " aaa" <> "all" /\ " aaa" <> "" /\
  returned_rows
    (@App1.filtered Builtins.runtime (globals_of 0 Sample.news) "all" " aaa"
                    (Some (Fl (-1))) (Some (Fl 1)) "" "")
    (Sample.loaded Sample.news) (symbol_matches " aaa").
Proof.
  assert (holds (Sample.loaded Sample.news) (DF (globals_of 0 Sample.news))
                Sample.news) as H by reflexivity.
  assert (has_column "Stock_symbol" Sample.news = true) as C by reflexivity.
  assert (" aaa" <> "all") as N1 by discriminate.
  assert (" aaa" <> "") as N2 by discriminate.
  split; [exact H |]. split; [exact C |].
  split; [exact N1 |]. split; [exact N2 |].
  destruct (@symbol_filter_returns_only_that_symbol Builtins.runtime
              _ _ _ _ H C N1 N2) as (_ & A & _).
  apply A.
Defined.

(* ================================================================== *)
(** * The keyword filter *)
(* ================================================================== *)

Section KeywordFilter.

Context {R : Runtime}.

Lemma keyword_mask_titled (m : string -> bool) (df : DataFrame) :
  Forall titled (rows (getitem_mask (title_matches m) df)).
Proof.
  apply mask_Forall. unfold title_matches, titled. intros r.
  destruct (Article_title r); [discriminate | discriminate].
Qed.

Lemma App1_keyword_stage (kw : string) (x y : DataFrame) :
  truthy kw = true ->
  stage_value (App1.filter_keyword kw) x = inr y -> Forall titled (rows y).
Proof.
  unfold stage_value, App1.filter_keyword. intros ->.
  destruct (has_column "Article_title" x); [| discriminate].
  destruct (re_compile_ic kw); [| discriminate].
  intros E. apply inr_inj in E. subst y. apply keyword_mask_titled.
Qed.

Lemma Backend_keyword_stage (kw : string) (x y : DataFrame) :
  truthy kw = true ->
  stage_value (Backend.filter_keyword kw) x = inr y -> Forall titled (rows y).
Proof.
  unfold stage_value, Backend.filter_keyword. intros ->.
  destruct (has_column "Article_title" x); [| discriminate].
  destruct (re_compile_ic kw); [| discriminate].
  intros E. apply inr_inj in E. subst y. apply keyword_mask_titled.
Qed.

(** The part of C8 that holds for every keyword: a row with a null title
    is never returned by a non-empty keyword filter, in [app1.py] and in
    [backend.py]. *)
Lemma keyword_filter_returns_titled_rows (h : heap) (g : Globals)
  (df : DataFrame) (kw : string) :
  holds h (DF g) df ->
  truthy kw = true ->
  (forall y s lo hi nid,
      returned_rows (App1.filtered g y s lo hi kw nid) h titled) /\
  (forall w, w_keyword w = kw ->
             returned_rows (Backend.filtered (DF g) w) h titled).
Proof.
  intros H T. split.
  - intros. eapply yields_returned; [apply App1_filtered_yields, H |].
    intros d. unfold App1_stages.
    apply (run_stages_establish [_; _; _] [_; _]); auto with narrowing.
    intros x z _ _. now apply App1_keyword_stage.
  - intros w <-. eapply yields_returned; [apply Backend_filtered_yields, H |].
    intros d. unfold Backend_stages.
    apply (run_stages_establish [_; _; _] [_]); auto with narrowing.
    intros x z _ _. now apply Backend_keyword_stage.
Qed.

End KeywordFilter.

(** ** Keywords without special characters *)

Lemma is_meta_false (c : ascii) :
  Builtins.is_meta c = false ->
  Ascii.eqb c "\"%char = false /\ Ascii.eqb c "."%char = false.
Proof.
  unfold Builtins.is_meta. cbn [existsb].
  destruct (Ascii.eqb c "."%char); [discriminate |].
  destruct (Ascii.eqb c "\"%char); [| auto].
  rewrite !orb_true_r. discriminate.
Qed.

Lemma parse_literal (kw : string) :
  no_meta kw = true -> Builtins.parse kw = Some (literal_atoms kw).
Proof.
  induction kw as [| c kw IH]; cbn [no_meta Builtins.parse literal_atoms];
    [reflexivity |].
  rewrite andb_true_iff, negb_true_iff. intros [Hc Hk].
  destruct (is_meta_false c Hc) as [-> ->]. rewrite Hc, (IH Hk).
  reflexivity.
Qed.

Lemma match_here_literal (kw t : string) :
  Builtins.match_here (literal_atoms kw) t = startswith (upper kw) (upper t).
Proof.
  unfold upper. revert t.
  induction kw as [| c kw IH]; intros t;
    [now destruct t |].
  destruct t as [| a t];
    cbn [literal_atoms Builtins.match_here map_string startswith
         Builtins.atom_matches];
    [reflexivity |].
  now rewrite IH.
Qed.

Lemma search_literal (kw t : string) :
  Builtins.search (literal_atoms kw) t = icontains kw t.
Proof.
  unfold icontains. induction t as [| a t IH].
  - cbn [Builtins.search contains upper map_string].
    now rewrite match_here_literal.
  - change (Builtins.search (literal_atoms kw) (String a t)) with
      (Builtins.match_here (literal_atoms kw) (String a t)
       || Builtins.search (literal_atoms kw) t).
    change (contains (upper kw) (upper (String a t))) with
      (startswith (upper kw) (upper (String a t))
       || contains (upper kw) (upper t)).
    now rewrite match_here_literal, IH.
Qed.

(** On a keyword without special characters the pattern search of the
    concrete runtime is the case-insensitive substring search. *)
Lemma literal_keyword_is_a_substring_search (kw : string) :
  no_meta kw = true ->
  exists m, Builtins.compile_ic kw = Some m /\
            forall t, m t = icontains kw t.
Proof.
  intros N. exists (Builtins.search (literal_atoms kw)). split.
  - unfold Builtins.compile_ic. now rewrite (parse_literal kw N).
  - apply search_literal.
Qed.

(** C8 fails on the code.  The keyword is handed to [str.contains] as a
    regular expression.  With the keyword [3.5], whose dot matches any
    character, [app1.py] and [backend.py] return the row titled "Profit
    up 315 percent", which does not contain [3.5]; and the keyword [\d]
    and its upper-case form [\D] return different rows. *)
Theorem keyword_is_matched_as_a_pattern :
  option_map rows
    (returned_frame
       (@App1.filtered Builtins.runtime (globals_of 0 Sample.headlines)
          "all" "all" (Some (Fl (-1))) (Some (Fl 1)) "3.5" ""
          (Sample.loaded Sample.headlines)))
  = Some [Sample.figures] /\
  option_map rows
    (returned_frame
       (@Backend.filtered Builtins.runtime 0
          (mkWidgets None "(All)" (Fl (-1), Fl 1) "3.5" (IdInt 5))
          (Sample.loaded Sample.headlines)))
  = Some [Sample.figures] /\
  Article_title Sample.figures = Some "Profit up 315 percent" /\
  icontains "3.5" "Profit up 315 percent" = false /\
  upper "\d" = "\D" /\
  option_map rows
    (returned_frame
       (@App1.filtered Builtins.runtime (globals_of 0 Sample.headlines)
          "all" "all" (Some (Fl (-1))) (Some (Fl 1)) "\d" ""
          (Sample.loaded Sample.headlines)))
  = Some [Sample.figures] /\
  option_map rows
    (returned_frame
       (@App1.filtered Builtins.runtime (globals_of 0 Sample.headlines)
          "all" "all" (Some (Fl (-1))) (Some (Fl 1)) "\D" ""
          (Sample.loaded Sample.headlines)))
  = Some [Sample.figures; Sample.good].
Proof. repeat split; vm_compute; reflexivity. Qed.

(* ================================================================== *)
(** * The scenario of the specification *)
(* ================================================================== *)

(** The three records of the scenario, run through [app.py] with the
    concrete runtime. *)

Example scenario_year_2020 :
  match fst (@App.index Builtins.runtime (globals_of 0 Sample.news)
               (mkRequest (Some "2020") None None None None None)
               (Sample.loaded Sample.news)) with
  | inr resp =>
      row_count resp = 2%nat /\
      trend_years resp = [2020; 2021]%Z /\
      trend_scores resp = [Fl (1000 # 10000); Fl (8000 # 10000)] /\
      total_articles (yearly_summary resp) = 2%nat /\
      dominant_label (yearly_summary resp) = Some "positive" /\
      dominant_pct (yearly_summary resp) = Some (500 # 10)%Q
  | inl _ => False
  end.
Proof. vm_compute. repeat split. Qed.

Example scenario_symbol_and_keyword :
  option_map rows
    (returned_frame
       (@App.filtered Builtins.runtime (globals_of 0 Sample.news) "all" "AAA"
          (MIN_SCORE (globals_of 0 Sample.news))
          (MAX_SCORE (globals_of 0 Sample.news)) "good"
          (Sample.loaded Sample.news)))
  = Some [Sample.good].
Proof. vm_compute. reflexivity. Qed.

Example scenario_keyword_case :
  returned_frame
    (@App1.filtered Builtins.runtime (globals_of 0 Sample.news) "all" "all"
       (Some (Fl (-1))) (Some (Fl 1)) "news" "" (Sample.loaded Sample.news))
  = returned_frame
      (@App1.filtered Builtins.runtime (globals_of 0 Sample.news) "all" "all"
         (Some (Fl (-1))) (Some (Fl 1)) "NEWS" ""
         (Sample.loaded Sample.news)).
Proof. vm_compute. reflexivity. Qed.

(* ================================================================== *)
(** * The pipeline of [app.py] in closed form *)
(* ================================================================== *)

Lemma filter_andb {A : Type} (p q : A -> bool) (l : list A) :
  filter (fun x => p x && q x) l = filter q (filter p l).
Proof.
  induction l as [| a l IH]; simpl; [reflexivity |].
  destruct (p a); simpl; [destruct (q a) |]; now rewrite IH.
Qed.

Lemma filter_true {A : Type} (l : list A) : filter (fun _ => true) l = l.
Proof. induction l; simpl; congruence. Qed.

Section AppClosedForm.

Context {R : Runtime}.

(** The filtering and sorting paragraphs of [app.py] amount to one
    filter by the conjunction of the four predicates followed by the
    sort, or to the first exception a paragraph raises. *)
Theorem App_pipeline_is_one_filter (g : Globals) (y s : string)
  (lo hi : option pyfloat) (kw : string) (df : DataFrame) :
  run_stages (App_stages g y s lo hi kw) df =
  match App_raises g lo hi kw df with
  | Some e => inl e
  | None =>
      inr (mkDF (columns df)
                (date_sorted df (filter (App_keeps g y s lo hi kw df)
                                        (rows df))))
  end.
Proof.
  destruct df as [cols rws].
  unfold App_keeps. rewrite !filter_andb.
  unfold App_stages, App_raises, range_raises, range_keeps, date_sorted,
    App_year_keeps, App_symbol_keeps, App_keyword_keeps,
    App.filter_year, App.filter_symbol, Flask.filter_sentiment,
    App.filter_keyword, App.sort_by_date, run_stages, stage_value,
    has_column, getitem_mask, sort_values_Date_desc.
  cbn [columns rows].
  destruct (negb (String.eqb y "all") && existsb (String.eqb "Year") cols);
    [destruct (py_int y) |]; cbn [columns rows];
  (destruct (negb (String.eqb s "all")
             && existsb (String.eqb "Stock_symbol") cols));
  cbn [columns rows];
  (destruct (MIN_SCORE g);
   [destruct (existsb (String.eqb "sentiment_score_signed") cols);
    [destruct lo, hi |] |]);
  cbn [columns rows]; rewrite ?filter_true; try reflexivity;
  (destruct (truthy kw && existsb (String.eqb "Article_title") cols);
   [destruct (re_compile_ic kw) |]);
  cbn [columns rows]; rewrite ?filter_true; try reflexivity;
  destruct (existsb (String.eqb "Date") cols);
  cbn [columns rows]; rewrite ?filter_true; reflexivity.
Qed.

End AppClosedForm.

Lemma yields_ends_with (m : M ref) (h : heap) (v : exn + DataFrame) :
  post m h (yields h v) -> ends_with (m h) v.
Proof.
  unfold post, yields, ends_with. intros [_ Y].
  destruct v as [e | d]; [exact Y |].
  destruct Y as (r & E & H). eauto.
Qed.

Lemma date_sorted_perm (df : DataFrame) (l : list Row) :
  Permutation (date_sorted df l) l.
Proof.
  unfold date_sorted. destruct (has_column "Date" df);
    [apply sort_rows_desc_perm | reflexivity].
Qed.

Lemma date_sorted_sorted (df : DataFrame) (l : list Row) :
  has_column "Date" df = true -> StronglySorted date_ge (date_sorted df l).
Proof. unfold date_sorted. intros ->. apply sort_rows_desc_sorted. Qed.

Section ClosedForms.

Context {R : Runtime}.

(** X1.  [app.py]: the variable [filtered] ends up holding exactly the
    rows of the base frame that pass the year, symbol, sentiment and
    keyword tests together, each as often as in the base frame, in
    descending date order when the frame has dates; the run raises only
    when the sentiment paragraph or the pattern does. *)
Theorem App_filtered_is_one_filter (g : Globals) (y s : string)
  (lo hi : option pyfloat) (kw : string) (h : heap) (df : DataFrame) :
  holds h (DF g) df ->
  ends_with (App.filtered g y s lo hi kw h)
    match App_raises g lo hi kw df with
    | Some e => inl e
    | None =>
        inr (mkDF (columns df)
                  (date_sorted df (filter (App_keeps g y s lo hi kw df)
                                          (rows df))))
    end /\
  Permutation
    (date_sorted df (filter (App_keeps g y s lo hi kw df) (rows df)))
    (filter (App_keeps g y s lo hi kw df) (rows df)) /\
  (has_column "Date" df = true ->
   StronglySorted date_ge
     (date_sorted df (filter (App_keeps g y s lo hi kw df) (rows df)))).
Proof.
  intros H. split; [| split].
  - rewrite <- App_pipeline_is_one_filter.
    apply yields_ends_with, App_filtered_yields, H.
  - apply date_sorted_perm.
  - apply date_sorted_sorted.
Qed.

Lemma App1_pipeline_is_one_filter (g : Globals) (y s : string)
  (lo hi : option pyfloat) (kw nid : string) (df : DataFrame) :
  run_stages (App1_stages g y s lo hi kw nid) df =
  match App1_raises g s lo hi kw nid df with
  | Some e => inl e
  | None =>
      inr (mkDF (columns df)
                (date_sorted df (filter (App1_keeps g y s lo hi kw nid df)
                                        (rows df))))
  end.
Proof.
  destruct df as [cols rws].
  unfold App1_keeps. rewrite !filter_andb.
  unfold App1_stages, App1_raises, range_raises, range_keeps, date_sorted,
    App1_year_keeps, App1_symbol_keeps, App1_keyword_keeps,
    App1_news_id_keeps,
    App1.filter_year, App1.filter_symbol, Flask.filter_sentiment,
    App1.filter_keyword, App1.filter_news_id, App1.sort_by_date,
    run_stages, stage_value, has_column, getitem_mask,
    sort_values_Date_desc.
  cbn [columns rows].
  destruct (App1.is_set y); cbn [andb];
    [destruct (existsb (String.eqb "Year") cols); [destruct (py_int y) |] |];
  cbn [columns rows];
  (destruct (App1.is_set s); cbn [andb negb];
   [destruct (existsb (String.eqb "Stock_symbol") cols) |]);
  cbn [columns rows negb]; rewrite ?filter_true; try reflexivity;
  (destruct (MIN_SCORE g);
   [destruct (existsb (String.eqb "sentiment_score_signed") cols);
    [destruct lo, hi |] |]);
  cbn [columns rows]; rewrite ?filter_true; try reflexivity;
  (destruct (truthy kw); cbn [andb negb];
   [destruct (existsb (String.eqb "Article_title") cols);
    [destruct (re_compile_ic kw) |] |]);
  cbn [columns rows negb]; rewrite ?filter_true; try reflexivity;
  (destruct (truthy nid); cbn [andb negb];
   [destruct (existsb (String.eqb "news_id") cols) |]);
  cbn [columns rows negb]; rewrite ?filter_true; try reflexivity;
  destruct (existsb (String.eqb "Date") cols);
  cbn [columns rows]; rewrite ?filter_true; reflexivity.
Qed.

End ClosedForms.

Section ClosedFormsMore.

Context {R : Runtime}.

(** X2.  [app1.py]: the variable [filtered] ends up holding exactly the
    rows of the base frame that pass the year, symbol, sentiment,
    keyword and record-id tests together, in descending date order when
    the frame has dates.  The run raises [KeyError] when a filter is set
    whose column the frame lacks (symbol, title, record id), and
    otherwise only when the sentiment paragraph or the pattern does. *)
Theorem App1_filtered_is_one_filter (g : Globals) (y s : string)
  (lo hi : option pyfloat) (kw nid : string) (h : heap) (df : DataFrame) :
  holds h (DF g) df ->
  ends_with (App1.filtered g y s lo hi kw nid h)
    match App1_raises g s lo hi kw nid df with
    | Some e => inl e
    | None =>
        inr (mkDF (columns df)
                  (date_sorted df (filter (App1_keeps g y s lo hi kw nid df)
                                          (rows df))))
    end /\
  Permutation
    (date_sorted df (filter (App1_keeps g y s lo hi kw nid df) (rows df)))
    (filter (App1_keeps g y s lo hi kw nid df) (rows df)) /\
  (has_column "Date" df = true ->
   StronglySorted date_ge
     (date_sorted df (filter (App1_keeps g y s lo hi kw nid df) (rows df)))).
Proof.
  intros H. split; [| split].
  - rewrite <- App1_pipeline_is_one_filter.
    apply yields_ends_with, App1_filtered_yields, H.
  - apply date_sorted_perm.
  - apply date_sorted_sorted.
Qed.

Lemma Backend_pipeline_is_one_filter (w : Widgets) (df : DataFrame) :
  run_stages (Backend_stages df w) df =
  match Backend_raises (w_keyword w) df with
  | Some e => inl e
  | None =>
      inr (mkDF (columns df)
             (date_sorted df
                (filter (sidebar_keeps (Backend.selected_year df w)
                           (Backend.symbol df w)
                           (Backend.sentiment_range df w)
                           (w_keyword w) false df)
                        (rows df))))
  end.
Proof.
  destruct df as [cols rws].
  unfold sidebar_keeps. rewrite !filter_andb.
  unfold Backend_stages, Backend_raises, date_sorted,
    Backend.selected_year, Backend.symbol, Backend.sentiment_range,
    Backend.filter_year, Backend.filter_symbol, Streamlit.filter_sentiment,
    Backend.filter_keyword, Streamlit.sort_by_date,
    run_stages, stage_value, has_column, getitem_mask,
    sort_values_Date_desc.
  cbn [columns rows negb orb].
  destruct (existsb (String.eqb "Year") cols) eqn:EY;
    [destruct (w_year w) |]; cbn [columns rows]; rewrite ?EY;
  cbn [columns rows];
  (destruct (existsb (String.eqb "Stock_symbol") cols) eqn:ES;
   [destruct (negb (String.eqb (w_symbol w) "(All)")) |]);
  try change (String.eqb "(All)" "(All)") with true;
  cbn [columns rows negb]; rewrite ?ES;
  cbn [columns rows];
  (destruct (existsb (String.eqb "sentiment_score_signed") cols) eqn:EC;
   [destruct (w_range w) as [lo hi] |]);
  cbn [columns rows]; rewrite ?EC; cbn [columns rows];
  (destruct (truthy (w_keyword w)); cbn [andb];
   [destruct (existsb (String.eqb "Article_title") cols);
    [destruct (re_compile_ic (w_keyword w)) |] |]);
  cbn [columns rows]; rewrite ?filter_true; try reflexivity;
  destruct (existsb (String.eqb "Date") cols);
  cbn [columns rows]; rewrite ?filter_true; reflexivity.
Qed.

Lemma Backnew_range_has_scores (df : DataFrame) (w : Widgets)
  (rg : pyfloat * pyfloat) :
  Backnew.sentiment_range df w = Some rg ->
  has_column "sentiment_score_signed" df = true.
Proof.
  unfold Backnew.sentiment_range.
  destruct (has_column "sentiment_score_signed" df); [auto | discriminate].
Qed.

Lemma Backnew_pipeline_is_one_filter (w : Widgets) (df : DataFrame) :
  run_stages (Backnew_stages df w) df =
  match Backnew_raises (w_keyword w) df with
  | Some e => inl e
  | None =>
      inr (mkDF (columns df)
             (date_sorted df
                (filter (sidebar_keeps (Backnew.selected_year df w)
                           (Backnew.symbol df w)
                           (Backnew.sentiment_range df w)
                           (w_keyword w) true df)
                        (rows df))))
  end.
Proof.
  pose proof (Backnew_range_has_scores df w) as HR.
  unfold Backnew_stages.
  destruct (Backnew.sentiment_range df w) as [[lo hi] |];
    [specialize (HR _ eq_refl) | clear HR];
  destruct df as [cols rws];
  unfold sidebar_keeps; rewrite !filter_andb;
  unfold Backnew_stages, Backnew_raises, date_sorted,
    Backnew.selected_year, Backnew.symbol,
    Backnew.filter_year, Backnew.filter_symbol, Streamlit.filter_sentiment,
    Backnew.filter_keyword, Streamlit.sort_by_date,
    run_stages, stage_value, has_column, getitem_mask,
    sort_values_Date_desc in *;
  cbn [columns rows negb orb] in *;
  (destruct (existsb (String.eqb "Year") cols) eqn:EY;
   [destruct (w_year w) |]); cbn [columns rows]; rewrite ?EY;
  cbn [columns rows];
  (destruct (existsb (String.eqb "Stock_symbol") cols) eqn:ES;
   [destruct (negb (String.eqb (w_symbol w) "(All)")) |]);
  try change (String.eqb "(All)" "(All)") with true;
  cbn [columns rows negb]; rewrite ?ES;
  cbn [columns rows]; rewrite ?HR; cbn [columns rows];
  (destruct (truthy (w_keyword w)); cbn [andb];
   [destruct (existsb (String.eqb "Article_title") cols);
    [destruct (re_compile_ic (w_keyword w)) |] |]);
  cbn [columns rows]; rewrite ?filter_true; try reflexivity;
  destruct (existsb (String.eqb "Date") cols);
  cbn [columns rows]; rewrite ?filter_true; reflexivity.
Qed.

(** X3.  [backend.py] and [backnew.py]: the variable [filtered] ends up
    holding exactly the rows of the loaded frame that pass the year,
    symbol, range and keyword chosen in the sidebar together, in
    descending date order when the frame has dates.  [backend.py] raises
    [KeyError] when a keyword is typed and the frame has no title column,
    where [backnew.py] skips the keyword; both raise on a malformed
    pattern, and, for the values the widgets returned, on nothing
    else. *)
Theorem sidebar_filtered_is_one_filter (w : Widgets) (h : heap) (r : ref)
  (df : DataFrame) :
  holds h r df ->
  ends_with (Backend.filtered r w h)
    match Backend_raises (w_keyword w) df with
    | Some e => inl e
    | None =>
        inr (mkDF (columns df)
               (date_sorted df
                  (filter (sidebar_keeps (Backend.selected_year df w)
                             (Backend.symbol df w)
                             (Backend.sentiment_range df w)
                             (w_keyword w) false df)
                          (rows df))))
    end /\
  ends_with (Backnew.filtered r w h)
    match Backnew_raises (w_keyword w) df with
    | Some e => inl e
    | None =>
        inr (mkDF (columns df)
               (date_sorted df
                  (filter (sidebar_keeps (Backnew.selected_year df w)
                             (Backnew.symbol df w)
                             (Backnew.sentiment_range df w)
                             (w_keyword w) true df)
                          (rows df))))
    end.
Proof.
  intros H. split.
  - rewrite <- Backend_pipeline_is_one_filter.
    apply yields_ends_with, Backend_filtered_yields, H.
  - rewrite <- Backnew_pipeline_is_one_filter.
    apply yields_ends_with, Backnew_filtered_yields, H.
Qed.

End ClosedFormsMore.

(* ================================================================== *)
(** * The range parameters *)
(* ================================================================== *)

Section RangeParameters.

Context {R : Runtime}.

Lemma sentiment_range_fallback (g : Globals) (req : Request) :
  malformed (arg_sent_min req) \/ malformed (arg_sent_max req) ->
  sentiment_range g req = (MIN_SCORE g, MAX_SCORE g).
Proof.
  unfold sentiment_range, float_arg.
  intros [(a & -> & ->) | (b & -> & ->)]; [reflexivity |].
  destruct (arg_sent_min req) as [a |];
    [destruct (py_float a) | destruct (MIN_SCORE g)]; reflexivity.
Qed.

Lemma sentiment_range_default (g : Globals) (req : Request) :
  sentiment_range g (without_range req) = (MIN_SCORE g, MAX_SCORE g).
Proof.
  unfold sentiment_range, float_arg, without_range.
  cbn [arg_sent_min arg_sent_max].
  destruct (MIN_SCORE g), (MAX_SCORE g); reflexivity.
Qed.

(** X4.  The two range parameters stand or fall together: when either
    [sent_min] or [sent_max] is present and is not a number, both
    handlers behave exactly as for the same request without the two
    parameters, so a valid bound given next to a malformed one is
    discarded as well. *)
Theorem malformed_bound_discards_both (g : Globals) (req : Request)
  (h : heap) :
  malformed (arg_sent_min req) \/ malformed (arg_sent_max req) ->
  App.index g req h = App.index g (without_range req) h /\
  App1.index g req h = App1.index g (without_range req) h.
Proof.
  intros B. unfold App.index, App1.index. cbv zeta.
  rewrite (sentiment_range_fallback g req B), sentiment_range_default.
  split; reflexivity.
Qed.

Lemma score_between_ordered (lo hi : pyfloat) (row : Row) :
  score_between lo hi row = true -> fle lo hi = true.
Proof.
  unfold score_between, fge, fle.
  destruct (sentiment_score_signed row) as [| q], lo as [| a], hi as [| b];
    cbn [andb]; try discriminate; try (rewrite andb_false_r; discriminate).
  rewrite andb_true_iff, !Qle_bool_iff. intros [H1 H2].
  eapply Qle_trans; eauto.
Qed.

Lemma Flask_sentiment_empty (g : Globals) (lo hi : pyfloat)
  (x y : DataFrame) :
  MIN_SCORE g <> None -> fle lo hi = false ->
  stage_value (Flask.filter_sentiment g (Some lo) (Some hi)) x = inr y ->
  Forall (fun _ => False) (rows y).
Proof.
  unfold stage_value, Flask.filter_sentiment. intros N F.
  destruct (MIN_SCORE g); [| congruence].
  destruct (has_column _ x); [| discriminate].
  intros E. apply inr_inj in E. subst y.
  apply mask_Forall. intros row Hr.
  apply score_between_ordered in Hr. congruence.
Qed.

Lemma returned_none (m : M ref) (h : heap) :
  returned_rows m h (fun _ => False) -> returns_no_row m h.
Proof.
  intros Hr r h' E. destruct (Hr r h' E) as (d & Hd & F).
  exists d. split; [exact Hd |].
  destruct (rows d) as [| row l]; [reflexivity |].
  inversion F as [| ? ? Fx _]. contradiction.
Qed.

(** X5.  An empty range is no error: when the frame has scores and the
    lower bound is above the upper bound, or one of the bounds is not a
    number ([NaN]), the pipelines of [app.py] and [app1.py] return a
    frame without rows whenever they return. *)
Theorem empty_range_returns_no_row (h : heap) (r : ref) (df : DataFrame)
  (g : Globals) (lo hi : pyfloat) :
  holds h r df ->
  startup r h = (inr g, h) ->
  has_column "sentiment_score_signed" df = true ->
  fle lo hi = false ->
  (forall y s kw,
      returns_no_row (App.filtered g y s (Some lo) (Some hi) kw) h) /\
  (forall y s kw nid,
      returns_no_row (App1.filtered g y s (Some lo) (Some hi) kw nid) h).
Proof.
  intros H S C F. destruct (startup_inv _ _ _ _ _ H S) as [-> _].
  assert (MIN_SCORE (globals_of r df) <> None) as N
      by (destruct (globals_of_MIN r df C) as [-> _]; discriminate).
  assert (holds h (DF (globals_of r df)) df) as H'
      by now rewrite globals_of_DF.
  split; intros; apply returned_none.
  - eapply yields_returned; [apply App_filtered_yields, H' |].
    intros d. unfold App_stages.
    apply (run_stages_establish [_; _] [_; _]); auto with narrowing.
    intros x z _ _. now apply Flask_sentiment_empty.
  - eapply yields_returned; [apply App1_filtered_yields, H' |].
    intros d. unfold App1_stages.
    apply (run_stages_establish [_; _] [_; _; _]); auto with narrowing.
    intros x z _ _. now apply Flask_sentiment_empty.
Qed.

Lemma range_raises_startup (r : ref) (df : DataFrame) (req : Request) :
  range_raises (globals_of r df)
    (fst (sentiment_range (globals_of r df) req))
    (snd (sentiment_range (globals_of r df) req)) df = None.
Proof.
  unfold range_raises, sentiment_range, float_arg, globals_of.
  destruct (has_column "sentiment_score_signed" df);
    cbn [MIN_SCORE MAX_SCORE]; [| reflexivity].
  destruct (arg_sent_min req) as [a |]; [destruct (py_float a) |];
    (destruct (arg_sent_max req) as [b |]; [destruct (py_float b) |]);
    reflexivity.
Qed.

(** X6.  With the globals computed at startup, filtering in [app.py]
    fails for one reason only: a keyword that is not a valid pattern,
    on a frame with a title column.  For every other request the
    pipeline returns, whatever columns the frame lacks and whatever the
    range parameters hold. *)
Theorem App_filtering_fails_on_bad_patterns_only (h : heap) (r : ref)
  (df : DataFrame) (g : Globals) (req : Request) :
  holds h r df ->
  startup r h = (inr g, h) ->
  let run :=
    App.filtered g (App_selected_year req) (App_selected_symbol req)
      (fst (sentiment_range g req)) (snd (sentiment_range g req))
      (requested_keyword req) h in
  (truthy (requested_keyword req) && has_column "Article_title" df = true /\
   re_compile_ic (requested_keyword req) = None ->
   fst run = inl ReError) /\
  (truthy (requested_keyword req) && has_column "Article_title" df = false \/
   re_compile_ic (requested_keyword req) <> None ->
   exists ref d, fst run = inr ref /\ holds (snd run) ref d).
Proof.
  intros H S. destruct (startup_inv _ _ _ _ _ H S) as [-> _].
  assert (holds h (DF (globals_of r df)) df) as H'
      by now rewrite globals_of_DF.
  intros run.
  destruct (App_filtered_is_one_filter (globals_of r df)
              (App_selected_year req) (App_selected_symbol req)
              (fst (sentiment_range (globals_of r df) req))
              (snd (sentiment_range (globals_of r df) req))
              (requested_keyword req) h df H') as (E & _).
  fold run in E. unfold App_raises in E.
  rewrite range_raises_startup in E.
  split.
  - intros [T C]. rewrite T, C in E. exact E.
  - intros [T | C].
    + rewrite T in E. destruct E as (ref & E1 & E2). eauto.
    + destruct (truthy (requested_keyword req)
                && has_column "Article_title" df);
        [destruct (re_compile_ic (requested_keyword req)); [| congruence] |];
        destruct E as (ref & E1 & E2); eauto.
Qed.

End RangeParameters.

(* ================================================================== *)
(** * The table shown *)
(* ================================================================== *)

Lemma In_firstn {A : Type} (n : nat) (l : list A) (x : A) :
  In x (firstn n l) -> In x l.
Proof.
  revert l. induction n as [| n IH]; intros [| a l]; cbn [firstn In];
    try contradiction.
  intros [-> | H]; [now left | right; auto].
Qed.

Lemma table_of_frame (f df : DataFrame) (candidates : list string) :
  columns f = columns df ->
  (forall r, In r (rows f) -> In r (rows df)) ->
  table_of (List.length (rows f))
    (filter (fun c => has_column c f) candidates)
    (map (row_to_dict (filter (fun c => has_column c f) candidates))
         (firstn 200 (rows f)))
    candidates df.
Proof.
  intros C I. split; [| split].
  - apply filter_ext. intros c. now apply has_column_columns.
  - now rewrite length_map, length_firstn.
  - apply Forall_forall. intros d Hd. apply in_map_iff in Hd.
    destruct Hd as (row & <- & Hr). exists row. split; [| reflexivity].
    apply I. eapply In_firstn. exact Hr.
Qed.

Section TableShown.

Context {R : Runtime}.

Lemma Backnew_script_run (r : ref) (w : Widgets) (h : heap) (df : DataFrame) :
  holds h r df ->
  post (Backnew.script r w) h
    (fun res h' =>
       forall out, res = inr out ->
         exists f, run_stages (Backnew_stages df w) df = inr f /\
                   result_count out = List.length (rows f) /\
                   result_table out = editor_table f).
Proof.
  intros H. unfold Backnew.script.
  apply post_bind, (post_read _ _ _ _ H).
  apply post_bind.
  eapply post_conseq; [apply Backnew_filtered_yields, H |].
  intros res h1 [E1 Y].
  destruct (run_stages (Backnew_stages df w) df) as [e | f].
  { subst res. discriminate. }
  destruct Y as (r1 & -> & H1).
  apply post_bind, post_allocating; [apply allocating_Backnew_trend |].
  intros [e | trend] h2 E2; [discriminate |].
  apply post_bind, post_allocating; [apply allocating_Backnew_summary |].
  intros [e | summary] h3 E3; [discriminate |].
  assert (holds h3 r1 f) as H3 by eauto with heap.
  apply post_bind, (post_read _ _ _ _ H3).
  apply post_bind. unfold derive_pure.
  apply (post_derive _ _ _ _ _ H3).
  apply post_bind, (post_derive _ _ _ _ _ (holds_new _ _)).
  apply post_bind, (post_read _ _ _ _ (holds_new _ _)).
  apply post_bind, post_allocating; [apply allocating_Backnew_detail |].
  intros [e | view] h4 E4; [discriminate |].
  apply post_ret. intros out Eo. apply inr_inj in Eo. subst out. exists f.
  cbn [result_count result_table].
  split; [reflexivity |]. split; reflexivity.
Qed.

Lemma App_stages_narrowing (g : Globals) (req : Request) :
  Forall narrowing (App_stages_of g req).
Proof. unfold App_stages_of, App_stages. repeat (apply Forall_cons; [auto with narrowing |]).
  apply Forall_nil. Qed.

Lemma App1_stages_narrowing (g : Globals) (req : Request) :
  Forall narrowing (App1_stages_of g req).
Proof. unfold App1_stages_of, App1_stages. repeat (apply Forall_cons; [auto with narrowing |]).
  apply Forall_nil. Qed.

Lemma Backend_stages_narrowing (df : DataFrame) (w : Widgets) :
  Forall narrowing (Backend_stages df w).
Proof. unfold Backend_stages. repeat (apply Forall_cons; [auto with narrowing |]).
  apply Forall_nil. Qed.

Lemma Backnew_stages_narrowing (df : DataFrame) (w : Widgets) :
  Forall narrowing (Backnew_stages df w).
Proof. unfold Backnew_stages. repeat (apply Forall_cons; [auto with narrowing |]).
  apply Forall_nil. Qed.


End TableShown.

(* ================================================================== *)
(** * Instances on the sample frames *)
(* ================================================================== *)

Lemma App_filtered_is_one_filter_witness :
  holds (Sample.loaded Sample.news) (DF (globals_of 0 Sample.news))
        Sample.news /\
  ends_with
    (@App.filtered Builtins.runtime (globals_of 0 Sample.news) "all" "AAA"
       (Some (Fl 0)) (Some (Fl 1)) "NEWS" (Sample.loaded Sample.news))
    (inr (mkDF Sample.all_columns [Sample.great; Sample.good])).
Proof.
  assert (holds (Sample.loaded Sample.news) (DF (globals_of 0 Sample.news))
                Sample.news) as H by reflexivity.
  split; [exact H |].
  destruct (@App_filtered_is_one_filter Builtins.runtime
              (globals_of 0 Sample.news) "all" "AAA" (Some (Fl 0))
              (Some (Fl 1)) "NEWS" _ _ H) as (E & _).
  exact E.
Defined.

Lemma App1_filtered_is_one_filter_witness :
  holds (Sample.loaded Sample.news) (DF (globals_of 0 Sample.news))
        Sample.news /\
  ends_with
    (@App1.filtered Builtins.runtime (globals_of 0 Sample.news) "2020" "all"
       (Some (Fl (-1))) (Some (Fl 1)) "" "2" (Sample.loaded Sample.news))
    (inr (mkDF Sample.all_columns [Sample.bad])).
Proof.
  assert (holds (Sample.loaded Sample.news) (DF (globals_of 0 Sample.news))
                Sample.news) as H by reflexivity.
  split; [exact H |].
  destruct (@App1_filtered_is_one_filter Builtins.runtime
              (globals_of 0 Sample.news) "2020" "all" (Some (Fl (-1)))
              (Some (Fl 1)) "" "2" _ _ H) as (E & _).
  exact E.
Defined.

Lemma sidebar_filtered_is_one_filter_witness :
  holds (Sample.loaded Sample.news) 0 Sample.news /\
  ends_with
    (@Backend.filtered Builtins.runtime 0
       (mkWidgets (Some 2020%Z) "(All)" (Fl (-1), Fl 1) "good" (IdInt 1))
       (Sample.loaded Sample.news))
    (inr (mkDF Sample.all_columns [Sample.good])).
Proof.
  assert (holds (Sample.loaded Sample.news) 0 Sample.news) as H
      by reflexivity.
  split; [exact H |].
  destruct (@sidebar_filtered_is_one_filter Builtins.runtime
              (mkWidgets (Some 2020%Z) "(All)" (Fl (-1), Fl 1) "good"
                         (IdInt 1)) _ _ _ H) as (E & _).
  exact E.
Defined.

Lemma malformed_bound_discards_both_witness :
  @malformed Builtins.runtime (Some "low") /\
  @App.index Builtins.runtime (globals_of 0 Sample.news)
    (mkRequest None None None None (Some "low") (Some "0.1"))
    (Sample.loaded Sample.news)
  = @App.index Builtins.runtime (globals_of 0 Sample.news)
      (mkRequest None None None None None None)
      (Sample.loaded Sample.news).
Proof.
  assert (@malformed Builtins.runtime (Some "low")) as B
      by (exists "low"; split; reflexivity).
  split; [exact B |].
  destruct (@malformed_bound_discards_both Builtins.runtime
              (globals_of 0 Sample.news)
              (mkRequest None None None None (Some "low") (Some "0.1"))
              (Sample.loaded Sample.news) (or_introl B)) as (E & _).
  exact E.
Defined.

Lemma empty_range_returns_no_row_witness :
  holds (Sample.loaded Sample.news) 0 Sample.news /\
  has_column "sentiment_score_signed" Sample.news = true /\
  fle (Fl 1) (Fl 0) = false /\
  returns_no_row
    (@App.filtered Builtins.runtime (globals_of 0 Sample.news) "all" "all"
       (Some (Fl 1)) (Some (Fl 0)) "")
    (Sample.loaded Sample.news).
Proof.
  assert (holds (Sample.loaded Sample.news) 0 Sample.news) as H
      by reflexivity.
  assert (startup 0 (Sample.loaded Sample.news)
          = (inr (globals_of 0 Sample.news), Sample.loaded Sample.news)) as S
      by reflexivity.
  assert (has_column "sentiment_score_signed" Sample.news = true) as C
      by reflexivity.
  assert (fle (Fl 1) (Fl 0) = false) as F by reflexivity.
  split; [exact H |]. split; [exact C |]. split; [exact F |].
  destruct (@empty_range_returns_no_row Builtins.runtime _ _ _ _ _ _
              H S C F) as (A & _).
  apply A.
Defined.

Lemma App_filtering_fails_on_bad_patterns_only_witness :
  holds (Sample.loaded Sample.news) 0 Sample.news /\
  fst (@App.filtered Builtins.runtime (globals_of 0 Sample.news) "all" "all"
         (Some (Fl (-3 # 10))) (Some (Fl (8 # 10))) "\"
         (Sample.loaded Sample.news))
  = inl ReError.
Proof.
  assert (holds (Sample.loaded Sample.news) 0 Sample.news) as H
      by reflexivity.
  assert (startup 0 (Sample.loaded Sample.news)
          = (inr (globals_of 0 Sample.news), Sample.loaded Sample.news)) as S
      by reflexivity.
  split; [exact H |].
  destruct (@App_filtering_fails_on_bad_patterns_only Builtins.runtime _ _ _
              _ (mkRequest None None (Some "\") None None None) H S)
    as (A & _).
  apply A. split; reflexivity.
Defined.


(* ================================================================== *)
(** * The bounds computed at startup *)
(* ================================================================== *)

Lemma series_min_cases (l : list pyfloat) :
  (series_min l = NaN /\ dropna l = []) \/
  (exists q, series_min l = Fl q /\ In (Fl q) l).
Proof.
  induction l as [| x l IH]; [left; split; reflexivity |].
  cbn [series_min fold_right]. fold (series_min l).
  destruct x as [| a].
  - cbn [fmin2 dropna]. destruct IH as [IH | (q & E & I)]; [now left |].
    right. exists q. split; [exact E | now right].
  - right. destruct IH as [[E _] | (q & E & I)]; rewrite E; cbn [fmin2].
    + exists a. split; [reflexivity | now left].
    + destruct (Qle_bool a q).
      * exists a. split; [reflexivity | now left].
      * exists q. split; [reflexivity | now right].
Qed.

Lemma series_max_cases (l : list pyfloat) :
  (series_max l = NaN /\ dropna l = []) \/
  (exists q, series_max l = Fl q /\ In (Fl q) l).
Proof.
  induction l as [| x l IH]; [left; split; reflexivity |].
  cbn [series_max fold_right]. fold (series_max l).
  destruct x as [| a].
  - cbn [fmax2 dropna]. destruct IH as [IH | (q & E & I)]; [now left |].
    right. exists q. split; [exact E | now right].
  - right. destruct IH as [[E _] | (q & E & I)]; rewrite E; cbn [fmax2].
    + exists a. split; [reflexivity | now left].
    + destruct (Qle_bool a q).
      * exists q. split; [reflexivity | now right].
      * exists a. split; [reflexivity | now left].
Qed.

Lemma dropna_scores_nil (df : DataFrame) :
  dropna (scores df) = [] <-> scored_rows df = [].
Proof.
  unfold scores, scored_rows. induction (rows df) as [| r l IH];
    [split; reflexivity |].
  cbn [map dropna filter]. destruct (sentiment_score_signed r);
    cbn [notna]; [exact IH | split; discriminate].
Qed.

Lemma In_scores (df : DataFrame) (v : pyfloat) :
  In v (scores df) -> attained v df.
Proof.
  unfold scores. intros I. apply in_map_iff in I.
  destruct I as (row & E & I). now exists row.
Qed.

Lemma fle_Qle (a b : Q) : fle (Fl a) (Fl b) = true -> (a <= b)%Q.
Proof. cbn [fle]. apply Qle_bool_imp_le. Qed.

(** X8.  The bounds computed at startup from a frame with scores: when
    no row has a score both bounds are [NaN]; otherwise both are numbers,
    each is the score of some row, the lower one is not above the upper
    one, and the score of every scored row lies between them. *)
Theorem startup_bounds_are_attained (h : heap) (r : ref) (df : DataFrame)
  (g : Globals) :
  holds h r df ->
  startup r h = (inr g, h) ->
  has_column "sentiment_score_signed" df = true ->
  (scored_rows df = [] ->
   MIN_SCORE g = Some NaN /\ MAX_SCORE g = Some NaN) /\
  (scored_rows df <> [] ->
   exists a b,
     MIN_SCORE g = Some (Fl a) /\ MAX_SCORE g = Some (Fl b) /\
     attained (Fl a) df /\ attained (Fl b) df /\ (a <= b)%Q /\
     Forall (score_within (Some (Fl a)) (Some (Fl b))) (scored_rows df)).
Proof.
  intros H S C. destruct (startup_inv _ _ _ _ _ H S) as [-> _].
  destruct (globals_of_MIN r df C) as [-> ->].
  destruct (series_min_cases (scores df)) as [[E1 N] | (a & E1 & I1)];
    destruct (series_max_cases (scores df)) as [[E2 N'] | (b & E2 & I2)].
  - split; [now rewrite E1, E2 |].
    intros X. apply dropna_scores_nil in N. contradiction.
  - split; intros X; apply dropna_scores_nil in N; [| contradiction].
    apply dropna_scores_nil in N. unfold scores in N, I2.
    exfalso. induction (rows df) as [| x l IH]; [contradiction |].
    cbn [map dropna In] in N, I2. destruct I2 as [E | I2].
    + rewrite E in N. discriminate.
    + destruct (sentiment_score_signed x); [auto | discriminate].
  - split; intros X; apply dropna_scores_nil in N'; [| contradiction].
    apply dropna_scores_nil in N'. unfold scores in N', I1.
    exfalso. induction (rows df) as [| x l IH]; [contradiction |].
    cbn [map dropna In] in N', I1. destruct I1 as [E | I1].
    + rewrite E in N'. discriminate.
    + destruct (sentiment_score_signed x); [auto | discriminate].
  - split; intros X.
    + exfalso. apply In_scores in I1. destruct I1 as (row & I & E).
      assert (In row (scored_rows df)) as I'.
      { unfold scored_rows. apply filter_In. split; [exact I |].
        now rewrite E. }
      rewrite X in I'. contradiction.
    + exists a, b. rewrite E1, E2.
      split; [reflexivity |]. split; [reflexivity |].
      split; [now apply In_scores |]. split; [now apply In_scores |].
      split.
      * apply fle_Qle. rewrite <- E2. now apply series_max_ge.
      * apply Forall_forall. intros row I.
        unfold scored_rows in I. apply filter_In in I. destruct I as [I Nn].
        unfold score_within, within.
        destruct (sentiment_score_signed row) as [| q] eqn:Eq;
          [discriminate |].
        assert (In (Fl q) (scores df)) as Iq.
        { unfold scores. apply in_map_iff. now exists row. }
        exists a, b, q. split; [reflexivity |]. split; [reflexivity |].
        split; [reflexivity |]. split; apply fle_Qle.
        -- rewrite <- E1. now apply series_min_le.
        -- rewrite <- E2. now apply series_max_ge.
Qed.

Lemma startup_bounds_are_attained_witness :
  holds (Sample.loaded Sample.news) 0 Sample.news /\
  has_column "sentiment_score_signed" Sample.news = true /\
  scored_rows Sample.news <> [] /\
  exists a b,
    MIN_SCORE (globals_of 0 Sample.news) = Some (Fl a) /\
    MAX_SCORE (globals_of 0 Sample.news) = Some (Fl b) /\
    attained (Fl a) Sample.news /\ attained (Fl b) Sample.news.
Proof.
  assert (holds (Sample.loaded Sample.news) 0 Sample.news) as H
      by reflexivity.
  assert (startup 0 (Sample.loaded Sample.news)
          = (inr (globals_of 0 Sample.news), Sample.loaded Sample.news)) as S
      by reflexivity.
  assert (has_column "sentiment_score_signed" Sample.news = true) as C
      by reflexivity.
  assert (scored_rows Sample.news <> []) as N by discriminate.
  split; [exact H |]. split; [exact C |]. split; [exact N |].
  destruct (startup_bounds_are_attained _ _ _ _ H S C) as (_ & A).
  destruct (A N) as (a & b & E1 & E2 & A1 & A2 & _).
  exists a, b. repeat split; assumption.
Defined.

(* ================================================================== *)
(** * Counting the labels *)
(* ================================================================== *)

Lemma count_of_bump (k l : string) (c : list (string * nat)) :
  count_of k (bump l c)
  = if String.eqb l k then S (count_of k c) else count_of k c.
Proof.
  induction c as [| [x n] c IH]; cbn [bump count_of].
  - reflexivity.
  - destruct (String.eqb x l) eqn:E; cbn [count_of].
    + apply String.eqb_eq in E. subst x.
      destruct (String.eqb l k); reflexivity.
    + destruct (String.eqb x k) eqn:E'; [| exact IH].
      apply String.eqb_eq in E'. subst x. now rewrite String.eqb_sym, E.
Qed.

Lemma bump_keys (l : string) (c : list (string * nat)) :
  map fst (bump l c) = map fst c \/
  (~ In l (map fst c) /\ map fst (bump l c) = map fst c ++ [l]).
Proof.
  induction c as [| [x n] c IH]; cbn [bump map fst app].
  - right. split; [intros [] | reflexivity].
  - destruct (String.eqb x l) eqn:E; [now left |].
    cbn [map fst]. destruct IH as [-> | [N ->]]; [now left |].
    right. split; [| reflexivity].
    cbn [In]. intros [-> | I]; [| contradiction].
    now rewrite String.eqb_refl in E.
Qed.

Lemma bump_NoDup (l : string) (c : list (string * nat)) :
  NoDup (map fst c) -> NoDup (map fst (bump l c)).
Proof.
  intros N. destruct (bump_keys l c) as [-> | [I ->]]; [exact N |].
  apply NoDup_app; [exact N | repeat constructor; intros [] |].
  intros x Ix [-> | []]. contradiction.
Qed.

Lemma bump_positive (l : string) (c : list (string * nat)) :
  Forall (fun p => (0 < snd p)%nat) c ->
  Forall (fun p => (0 < snd p)%nat) (bump l c).
Proof.
  induction 1 as [| [x n] c P F IH]; cbn [bump].
  - repeat constructor.
  - destruct (String.eqb x l); constructor; cbn [snd] in *; auto; lia.
Qed.

Lemma bump_sum (l : string) (c : list (string * nat)) :
  counts_sum (bump l c) = S (counts_sum c).
Proof.
  unfold counts_sum.
  induction c as [| [x n] c IH]; cbn [bump fold_right snd]; [reflexivity |].
  destruct (String.eqb x l); cbn [fold_right snd]; [reflexivity |].
  rewrite IH. lia.
Qed.

Lemma count_of_In (c : list (string * nat)) :
  NoDup (map fst c) -> Forall (fun p => (0 < snd p)%nat) c ->
  forall l n, In (l, n) c <-> n = count_of l c /\ (0 < n)%nat.
Proof.
  induction c as [| [x m] c IH]; intros N P l n; cbn [count_of In].
  - split; [intros [] | lia].
  - inversion N as [| ? ? Nx Nc]; subst. inversion P as [| ? ? Px Pc]; subst.
    cbn [snd] in Px. destruct (String.eqb x l) eqn:E.
    + apply String.eqb_eq in E. subst x. split.
      * intros [Eq | I]; [inversion Eq; subst; split; [reflexivity | lia] |].
        exfalso. apply Nx. apply in_map_iff. now exists (l, n).
      * intros [-> _]. now left.
    + split.
      * intros [Eq | I]; [inversion Eq; subst;
                          now rewrite String.eqb_refl in E |].
        now apply IH.
      * intros Hn. right. now apply IH.
Qed.

Lemma count_labels_inv (ls : list (option string)) (c : list (string * nat)) :
  NoDup (map fst c) -> Forall (fun p => (0 < snd p)%nat) c ->
  NoDup (map fst (fold_left count_label ls c)) /\
  Forall (fun p => (0 < snd p)%nat) (fold_left count_label ls c) /\
  (forall k, count_of k (fold_left count_label ls c)
             = (count_of k c
                + List.length
                    (filter (fun o => match o with
                                      | Some x => String.eqb x k
                                      | None => false
                                      end) ls))%nat) /\
  counts_sum (fold_left count_label ls c)
  = (counts_sum c
     + List.length (filter (fun o => match o with
                                     | Some _ => true
                                     | None => false
                                     end) ls))%nat.
Proof.
  revert c. induction ls as [| o ls IH]; intros c N P; cbn [fold_left filter].
  - cbn [List.length]. repeat split; auto.
  - destruct o as [l |]; cbn [count_label].
    + destruct (IH (bump l c) (bump_NoDup l c N) (bump_positive l c P))
        as (N' & P' & C' & S').
      split; [exact N' |]. split; [exact P' |]. split.
      * intros k. rewrite C', count_of_bump.
        destruct (String.eqb l k); cbn [List.length]; lia.
      * rewrite S', bump_sum. cbn [List.length]. lia.
    + exact (IH c N P).
Qed.

Lemma count_ge_total (a b : string * nat) :
  (snd b <=? snd a)%nat = false -> count_ge b a.
Proof. unfold count_ge. intros H. apply Nat.leb_gt in H. lia. Qed.

Lemma insert_by_count_perm (x : string * nat) (l : list (string * nat)) :
  Permutation (insert_by_count x l) (x :: l).
Proof.
  induction l as [| y l IH]; cbn [insert_by_count]; [reflexivity |].
  destruct (snd y <=? snd x)%nat; [reflexivity |].
  rewrite IH. apply perm_swap.
Qed.

Lemma sort_counts_desc_perm (l : list (string * nat)) :
  Permutation (sort_counts_desc l) l.
Proof.
  induction l as [| x l IH]; cbn [sort_counts_desc]; [reflexivity |].
  rewrite insert_by_count_perm. now constructor.
Qed.

Lemma insert_by_count_sorted (x : string * nat) (l : list (string * nat)) :
  StronglySorted count_ge l -> StronglySorted count_ge (insert_by_count x l).
Proof.
  induction 1 as [| y l S IH F]; cbn [insert_by_count].
  - repeat constructor.
  - destruct (snd y <=? snd x)%nat eqn:E.
    + apply Nat.leb_le in E. constructor; [now constructor |].
      constructor; [exact E |].
      eapply Forall_impl; [| exact F]. unfold count_ge. intros z. lia.
    + constructor; [exact IH |].
      apply (Permutation_Forall (Permutation_sym (insert_by_count_perm x l))).
      constructor; [now apply count_ge_total | exact F].
Qed.

Lemma sort_counts_desc_sorted (l : list (string * nat)) :
  StronglySorted count_ge (sort_counts_desc l).
Proof.
  induction l; cbn [sort_counts_desc];
    [constructor | now apply insert_by_count_sorted].
Qed.

Lemma filter_map_length {A B : Type} (f : A -> B) (p : B -> bool)
  (l : list A) :
  List.length (filter p (map f l))
  = List.length (filter (fun x => p (f x)) l).
Proof.
  induction l as [| x l IH]; cbn [map filter]; [reflexivity |].
  destruct (p (f x)); cbn [List.length]; now rewrite IH.
Qed.

Lemma counts_sum_perm (c c' : list (string * nat)) :
  Permutation c c' -> counts_sum c = counts_sum c'.
Proof.
  unfold counts_sum. induction 1; cbn [fold_right]; lia.
Qed.

Lemma counts_labels_of_sort (c : list (string * nat)) (rs : list Row) :
  counts_labels_of c rs -> counts_labels_of (sort_counts_desc c) rs.
Proof.
  intros (N & I & _). pose proof (sort_counts_desc_perm c) as P.
  split; [| split].
  - apply (Permutation_NoDup (Permutation_map fst (Permutation_sym P)) N).
  - intros l n. rewrite <- I. split; apply Permutation_in;
      [exact P | exact (Permutation_sym P)].
  - apply sort_counts_desc_sorted.
Qed.

Lemma value_counts_spec (df : DataFrame) :
  counts_labels_of (value_counts df) (rows df) /\
  counts_sum (value_counts df) = List.length (filter labelled (rows df)).
Proof.
  unfold value_counts, count_labels.
  destruct (count_labels_inv (map sentiment_label (rows df)) []
              (NoDup_nil _) (Forall_nil _)) as (N & P & C & S).
  pose proof (sort_counts_desc_perm
                (fold_left count_label (map sentiment_label (rows df)) []))
    as Pm.
  split.
  - split; [| split].
    + apply (Permutation_NoDup (Permutation_map fst (Permutation_sym Pm)) N).
    + intros l n.
      assert (label_count l (rows df)
              = count_of l (fold_left count_label
                              (map sentiment_label (rows df)) [])) as ->.
      { rewrite C. cbn [count_of plus]. unfold label_count.
        now rewrite filter_map_length. }
      rewrite <- (count_of_In _ N P). split; apply Permutation_in;
        [exact Pm | exact (Permutation_sym Pm)].
    + apply sort_counts_desc_sorted.
  - rewrite (counts_sum_perm _ _ Pm), S. cbn [counts_sum fold_right plus].
    now rewrite filter_map_length.
Qed.

Lemma counts_positive_sum (c : list (string * nat)) (rs : list Row) :
  counts_labels_of c rs -> counts_sum c = 0%nat -> c = [].
Proof.
  intros (_ & I & _) S. destruct c as [| [l n] c]; [reflexivity |].
  assert (0 < n)%nat as P by (apply (I l n); now left).
  unfold counts_sum in S. cbn [fold_right snd] in S. lia.
Qed.

Lemma summary_of_counts_summarises (c : list (string * nat))
  (rs : list Row) :
  counts_labels_of c rs ->
  counts_sum c = List.length (filter labelled rs) ->
  summarises (summary_of_counts c) rs.
Proof.
  intros L S. unfold summary_of_counts.
  destruct (counts_sum c =? 0)%nat eqn:Z.
  { apply Nat.eqb_eq in Z. pose proof (counts_positive_sum c rs L Z) as ->.
    unfold summarises, empty_summary.
    cbn [total_articles summary_rows dominant_label dominant_pct map].
    split; [now rewrite <- S |]. split; [exact L |].
    split; [constructor | split; reflexivity]. }
  destruct c as [| [l n] c]; [discriminate |].
  unfold summarises.
  cbn [total_articles summary_rows dominant_label dominant_pct].
  split; [exact S |]. split; [| split].
  - rewrite map_map.
    rewrite (map_ext _ (fun p => p)) by (now intros [x y]).
    now rewrite map_id.
  - apply Forall_forall. intros x Ix. apply in_map_iff in Ix.
    destruct Ix as (p & <- & _). reflexivity.
  - cbn [map fst snd Sentiment Count]. split; reflexivity.
Qed.

Lemma summarises_dominant (s : Summary) (rs : list Row) (l : string) :
  summarises s rs -> dominant_label s = Some l ->
  (0 < label_count l rs)%nat /\
  forall k, (label_count k rs <= label_count l rs)%nat.
Proof.
  intros (_ & (_ & I & St) & _ & D) E.
  destruct (summary_rows s) as [| x xs]; destruct D as [D _];
    rewrite D in E; [discriminate |].
  inversion E; subst l. cbn [map] in I, St.
  assert (Count x = label_count (Sentiment x) rs /\ (0 < Count x)%nat)
    as [Ex Px] by (apply I; now left).
  split; [lia |]. intros k.
  destruct (label_count k rs) as [| m] eqn:Ek; [lia |].
  assert (In (k, S m) ((Sentiment x, Count x)
                       :: map (fun y => (Sentiment y, Count y)) xs)) as Ik
      by (apply I; split; [now rewrite Ek | lia]).
  destruct Ik as [Eq | Ik]; [inversion Eq; subst; lia |].
  inversion St as [| ? ? _ F]; subst. rewrite Forall_forall in F.
  specialize (F _ Ik). unfold count_ge in F. cbn [snd] in F. lia.
Qed.

Lemma summarises_empty : summarises empty_summary [].
Proof.
  apply (summary_of_counts_summarises [] []); [| reflexivity].
  split; [constructor |]. split; [| constructor].
  intros l n. split; [intros [] |]. unfold label_count. cbn. lia.
Qed.

Section SummaryCounts.

Context {R : Runtime}.

Lemma App_summary_summarises (y : string) (df : DataFrame) :
  has_column "sentiment_label" df = true ->
  summarises (App_summary y df) (rows (App_df_year y df)).
Proof.
  intros C. unfold App_summary. cbv zeta.
  rewrite (has_column_columns _ _ df (App_df_year_columns y df)), C.
  cbn [negb orb]. unfold empty.
  destruct (rows (App_df_year y df)) as [| x xs] eqn:E;
    [apply summarises_empty |].
  rewrite <- E.
  destruct (value_counts_spec (App_df_year y df)) as [L S].
  apply summary_of_counts_summarises.
  - now apply counts_labels_of_sort.
  - now rewrite (counts_sum_perm _ _ (sort_counts_desc_perm _)).
Qed.

Lemma App1_summary_summarises (y : string) (df : DataFrame) :
  has_column "sentiment_label" df = true ->
  summarises (App1_summary y df) (rows (App1_df_year y df)).
Proof.
  intros C. unfold App1_summary. cbv zeta.
  rewrite (has_column_columns _ _ df (App1_df_year_columns y df)), C.
  cbn [negb orb]. unfold empty.
  destruct (rows (App1_df_year y df)) as [| x xs] eqn:E;
    [apply summarises_empty |].
  rewrite <- E.
  destruct (value_counts_spec (App1_df_year y df)) as [L S].
  now apply summary_of_counts_summarises.
Qed.

(** X9.  [compute_yearly_summary] of [app.py] and of [app1.py], on a
    frame with labels, returns a summary of the rows of the selected
    year: the total is the number of rows with a label, each label that
    occurs has exactly one line, with the number of rows that carry it
    and its share of the total, the lines are in descending order of
    count, and the dominant label is a most frequent one. *)
Theorem yearly_summary_counts_the_labels (h : heap) (r : ref)
  (df : DataFrame) (y : string) :
  holds h r df ->
  has_column "sentiment_label" df = true ->
  (exists s h',
      App.compute_yearly_summary r y h = (inr s, h') /\
      summarises s (rows (App_df_year y df)) /\
      forall l, dominant_label s = Some l ->
        (0 < label_count l (rows (App_df_year y df)))%nat /\
        forall k, (label_count k (rows (App_df_year y df))
                   <= label_count l (rows (App_df_year y df)))%nat) /\
  (exists s h',
      App1.compute_yearly_summary r y h = (inr s, h') /\
      summarises s (rows (App1_df_year y df)) /\
      forall l, dominant_label s = Some l ->
        (0 < label_count l (rows (App1_df_year y df)))%nat /\
        forall k, (label_count k (rows (App1_df_year y df))
                   <= label_count l (rows (App1_df_year y df)))%nat).
Proof.
  intros H C. split.
  - destruct (post_returns _ _ _ (App_compute_yearly_summary_run h r df y H))
      as [h' E].
    exists (App_summary y df), h'. split; [exact E |].
    pose proof (App_summary_summarises y df C) as S.
    split; [exact S |]. intros l. now apply summarises_dominant.
  - destruct (post_returns _ _ _ (App1_compute_yearly_summary_run h r df y H))
      as [h' E].
    exists (App1_summary y df), h'. split; [exact E |].
    pose proof (App1_summary_summarises y df C) as S.
    split; [exact S |]. intros l. now apply summarises_dominant.
Qed.

End SummaryCounts.

Lemma yearly_summary_counts_the_labels_witness :
  holds (Sample.loaded Sample.news) 0 Sample.news /\
  has_column "sentiment_label" Sample.news = true /\
  exists s h',
    @App.compute_yearly_summary Builtins.runtime 0 "2020"
      (Sample.loaded Sample.news) = (inr s, h') /\
    summarises s (rows (@App_df_year Builtins.runtime "2020" Sample.news)).
Proof.
  assert (holds (Sample.loaded Sample.news) 0 Sample.news) as H
      by reflexivity.
  assert (has_column "sentiment_label" Sample.news = true) as C
      by reflexivity.
  split; [exact H |]. split; [exact C |].
  destruct (@yearly_summary_counts_the_labels Builtins.runtime _ _ _ "2020"
              H C) as ((s & h' & E & S & _) & _).
  exists s, h'. split; [exact E | exact S].
Defined.

(* ================================================================== *)
(** * The summary of the Streamlit scripts *)
(* ================================================================== *)

Section SidebarSummary.

Context {R : Runtime}.

Lemma Backend_yearly_summary_run (h : heap) (r : ref) (df : DataFrame)
  (w : Widgets) :
  holds h r df ->
  post (Backend.yearly_summary r (Backend.selected_year df w)) h
       (fun res h' => extends h h' /\
                      res = Backend_summary_of (year_frame df w)).
Proof.
  intros H. unfold Backend.yearly_summary, Backend.selected_year, year_frame.
  apply post_bind.
  assert (forall (yf : DataFrame) (h1 : heap) (r1 : ref),
             extends h h1 -> holds h1 r1 yf ->
             post (y <- read r1 ;;
                   if has_column "sentiment_label" y && negb (empty y) then
                     match value_counts y with
                     | (label, cnt) :: _ =>
                         ret (Some (mkSummaryView label
                                (format_pct
                                   (percent cnt (counts_sum (value_counts y))))
                                (map (fun p => (fst p, snd p,
                                        CFloat (round_to 1
                                          (percent (snd p)
                                             (counts_sum (value_counts y))))))
                                     (value_counts y))))
                     | [] => raise IndexError
                     end
                   else ret None) h1
               (fun res h' => extends h h' /\ res = Backend_summary_of yf))
    as K.
  { intros yf h1 r1 E1 H1. apply post_bind, (post_read _ _ _ _ H1).
    unfold Backend_summary_of.
    destruct (has_column "sentiment_label" yf && negb (empty yf));
      [| apply post_ret; now split].
    destruct (value_counts yf) as [| [label cnt] c];
      [apply post_raise | apply post_ret]; now split. }
  destruct (has_column "Year" df) eqn:Y; [destruct (w_year w) as [n |] |].
  - apply (post_derive _ _ _ _ _ H). rewrite Y.
    apply K; eauto with heap.
  - apply post_ret. apply K; auto with heap.
  - apply post_ret. apply K; auto with heap.
Qed.

Lemma Backnew_yearly_summary_run (h : heap) (r : ref) (df : DataFrame)
  (w : Widgets) :
  holds h r df ->
  post (Backnew.yearly_summary r (Backnew.selected_year df w)) h
       (fun res h' => extends h h' /\
                      res = Backnew_summary_of (year_frame df w)).
Proof.
  intros H. unfold Backnew.yearly_summary, Backnew.selected_year, year_frame.
  apply post_bind.
  eapply post_conseq; [apply (post_copy _ _ _ H) |].
  intros res h1 [E1 (r1 & -> & H1)].
  assert (forall (yf : DataFrame) (h2 : heap) (r2 : ref),
             extends h h2 -> holds h2 r2 yf ->
             post (y <- read r2 ;;
                   if has_column "sentiment_label" y then
                     let sentiment_counts :=
                       sort_counts_desc (value_counts y) in
                     let total_articles := counts_sum sentiment_counts in
                     if (0 <? total_articles)%nat then
                       match sentiment_counts with
                       | (label, cnt) :: _ =>
                           ret (Some (mkSummaryView (upper label)
                                  (format_pct (percent cnt total_articles))
                                  (map (fun p => (fst p, snd p,
                                          CStr (format_pct
                                                  (percent (snd p)
                                                           total_articles))))
                                       sentiment_counts)))
                       | [] => raise IndexError
                       end
                     else ret None
                   else ret None) h2
               (fun res h' => extends h h' /\ res = Backnew_summary_of yf))
    as K.
  { intros yf h2 r2 E2 H2. apply post_bind, (post_read _ _ _ _ H2).
    unfold Backnew_summary_of. cbv zeta.
    destruct (has_column "sentiment_label" yf); [| apply post_ret; now split].
    destruct (0 <? counts_sum (sort_counts_desc (value_counts yf)))%nat;
      [| apply post_ret; now split].
    destruct (sort_counts_desc (value_counts yf)) as [| [label cnt] c];
      [apply post_raise | apply post_ret]; now split. }
  apply post_bind, (post_assign _ _ _ _ _ H1).
  destruct (has_column "Year" df) eqn:Y; [destruct (w_year w) as [n |] |].
  - apply K; eauto with heap.
  - apply K; auto.
  - apply K; auto.
Qed.

Lemma Backend_summary_view (yf : DataFrame) :
  has_column "sentiment_label" yf = true ->
  match filter labelled (rows yf) with
  | [] => Backend_summary_of yf
          = if empty yf then inr None else inl IndexError
  | _ :: _ => exists v, Backend_summary_of yf = inr (Some v) /\
                        view_of false v (rows yf)
  end.
Proof.
  intros C. unfold Backend_summary_of. rewrite C. cbn [andb].
  destruct (value_counts_spec yf) as [L S].
  destruct (filter labelled (rows yf)) as [| x xs] eqn:F.
  - cbn [List.length] in S. rewrite (counts_positive_sum _ _ L S).
    now destruct (empty yf).
  - assert (empty yf = false) as ->.
    { unfold empty. destruct (rows yf); [discriminate | reflexivity]. }
    cbn [negb]. rewrite S. clear S.
    destruct (value_counts yf) as [| [label cnt] c] eqn:V.
    { exfalso. destruct L as (_ & I & _).
      assert (In x (filter labelled (rows yf))) as Ix
          by (rewrite F; now left).
      apply filter_In in Ix. destruct Ix as [Ix Lx]. unfold labelled in Lx.
      destruct (sentiment_label x) as [l |] eqn:El; [| discriminate].
      assert (0 < label_count l (rows yf))%nat as P.
      { unfold label_count.
        assert (In x (filter (label_is l) (rows yf))) as I'.
        { apply filter_In. split; [exact Ix |]. unfold label_is.
          rewrite El. apply String.eqb_refl. }
        destruct (filter (label_is l) (rows yf)); [contradiction |].
        cbn [List.length]. lia. }
      apply (I l (label_count l (rows yf))). now split. }
    eexists. split; [reflexivity |].
    unfold view_of. cbn [breakdown top_label top_pct]. rewrite F.
    assert (map fst
              (map (fun p : string * nat =>
                      (fst p, snd p,
                       CFloat (round_to 1
                                 (percent (snd p)
                                          (List.length (x :: xs))))))
                   ((label, cnt) :: c))
            = (label, cnt) :: c) as ->.
    { rewrite map_map. rewrite (map_ext _ (fun p => p)) by (now intros [a b]).
      apply map_id. }
    split; [exact L |]. split.
    + apply Forall_forall. intros y Iy. apply in_map_iff in Iy.
      destruct Iy as (p & <- & _). reflexivity.
    + exists label.
      assert (cnt = label_count label (rows yf) /\ (0 < cnt)%nat) as [Ec Pc]
          by (apply L; now left).
      split; [reflexivity |]. split; [lia |]. split; [| now rewrite <- Ec].
      intros k. destruct (label_count k (rows yf)) as [| m] eqn:Ek; [lia |].
      destruct L as (_ & I & St).
      assert (In (k, S m) ((label, cnt) :: c)) as Ik
          by (apply I; split; [now rewrite Ek | lia]).
      destruct Ik as [Eq | Ik]; [inversion Eq; subst; lia |].
      inversion St as [| ? ? _ Fa]; subst. rewrite Forall_forall in Fa.
      specialize (Fa _ Ik). unfold count_ge in Fa. cbn [snd] in Fa. lia.
Qed.

Lemma counts_head_dominant (label : string) (cnt : nat)
  (c : list (string * nat)) (rs : list Row) :
  counts_labels_of ((label, cnt) :: c) rs ->
  cnt = label_count label rs /\ (0 < cnt)%nat /\
  forall k, (label_count k rs <= label_count label rs)%nat.
Proof.
  intros (_ & I & St).
  assert (cnt = label_count label rs /\ (0 < cnt)%nat) as [Ec Pc]
      by (apply I; now left).
  split; [exact Ec |]. split; [exact Pc |].
  intros k. destruct (label_count k rs) as [| m] eqn:Ek; [lia |].
  assert (In (k, S m) ((label, cnt) :: c)) as Ik
      by (apply I; split; [now rewrite Ek | lia]).
  destruct Ik as [Eq | Ik]; [inversion Eq; subst; lia |].
  inversion St as [| ? ? _ Fa]; subst. rewrite Forall_forall in Fa.
  specialize (Fa _ Ik). unfold count_ge in Fa. cbn [snd] in Fa. lia.
Qed.

Lemma Backnew_summary_view (yf : DataFrame) :
  has_column "sentiment_label" yf = true ->
  match filter labelled (rows yf) with
  | [] => Backnew_summary_of yf = inr None
  | _ :: _ => exists v, Backnew_summary_of yf = inr (Some v) /\
                        view_of true v (rows yf)
  end.
Proof.
  intros C. unfold Backnew_summary_of. rewrite C. cbv zeta.
  destruct (value_counts_spec yf) as [L Hs].
  apply counts_labels_of_sort in L.
  rewrite <- (counts_sum_perm _ _ (sort_counts_desc_perm _)) in Hs.
  rewrite Hs.
  destruct (filter labelled (rows yf)) as [| x xs] eqn:F; [reflexivity |].
  cbn [List.length Nat.ltb Nat.leb].
  destruct (sort_counts_desc (value_counts yf)) as [| [label cnt] c] eqn:V.
  { discriminate Hs. }
  eexists. split; [reflexivity |].
  unfold view_of. cbn [breakdown top_label top_pct]. rewrite F.
  assert (map fst
            (map (fun p : string * nat =>
                    (fst p, snd p,
                     CStr (format_pct
                             (percent (snd p) (S (List.length xs))))))
                 ((label, cnt) :: c))
          = (label, cnt) :: c) as ->.
  { rewrite map_map. rewrite (map_ext _ (fun p => p)) by (now intros [a b]).
    apply map_id. }
  split; [exact L |]. split.
  - apply Forall_forall. intros y Iy. apply in_map_iff in Iy.
    destruct Iy as (p & <- & _). reflexivity.
  - exists label. destruct (counts_head_dominant _ _ _ _ L) as (Ec & Pc & D).
    split; [reflexivity |]. split; [lia |]. split; [exact D |].
    now rewrite <- Ec.
Qed.

(** X10.  The summary paragraph of the Streamlit scripts, on a frame
    with a label column.  When the rows of the chosen year carry at
    least one label, both scripts show a view whose lines count the
    labels and whose dominant label is a most frequent one.  When the
    year has rows but none carries a label, [backend.py] raises
    [IndexError] where [backnew.py] shows no summary; when the year has
    no row, neither shows one. *)
Theorem sidebar_summary_counts_the_labels (h : heap) (r : ref)
  (df : DataFrame) (w : Widgets) :
  holds h r df ->
  has_column "sentiment_label" df = true ->
  match filter labelled (rows (year_frame df w)) with
  | [] =>
      fst (Backend.yearly_summary r (Backend.selected_year df w) h)
      = (if empty (year_frame df w) then inr None else inl IndexError) /\
      fst (Backnew.yearly_summary r (Backnew.selected_year df w) h)
      = inr None
  | _ :: _ =>
      exists v v',
        fst (Backend.yearly_summary r (Backend.selected_year df w) h)
        = inr (Some v) /\
        fst (Backnew.yearly_summary r (Backnew.selected_year df w) h)
        = inr (Some v') /\
        view_of false v (rows (year_frame df w)) /\
        view_of true v' (rows (year_frame df w))
  end.
Proof.
  intros H C.
  destruct (Backend_yearly_summary_run h r df w H) as [_ E1].
  destruct (Backnew_yearly_summary_run h r df w H) as [_ E2].
  rewrite E1, E2.
  assert (has_column "sentiment_label" (year_frame df w) = true) as C'.
  { unfold year_frame.
    destruct (if has_column "Year" df then w_year w else None); exact C. }
  pose proof (Backend_summary_view _ C') as V1.
  pose proof (Backnew_summary_view _ C') as V2.
  destruct (filter labelled (rows (year_frame df w))) as [| x xs].
  - now split.
  - destruct V1 as (v & -> & V1). destruct V2 as (v' & -> & V2).
    exists v, v'. split; [reflexivity |]. split; [reflexivity |].
    split; assumption.
Qed.

End SidebarSummary.

Lemma sidebar_summary_counts_the_labels_witness :
  holds (Sample.loaded Sample.news_with_null) 0 Sample.news_with_null /\
  has_column "sentiment_label" Sample.news_with_null = true /\
  fst (Backend.yearly_summary 0 (Some 2022%Z)
         (Sample.loaded Sample.news_with_null)) = inl IndexError /\
  fst (Backnew.yearly_summary 0 (Some 2022%Z)
         (Sample.loaded Sample.news_with_null)) = inr None.
Proof.
  assert (holds (Sample.loaded Sample.news_with_null) 0
                Sample.news_with_null) as H by reflexivity.
  assert (has_column "sentiment_label" Sample.news_with_null = true) as C
      by reflexivity.
  split; [exact H |]. split; [exact C |].
  exact (sidebar_summary_counts_the_labels _ _ _
           (mkWidgets (Some 2022%Z) "(All)" (Fl (-1), Fl 1) "" (IdInt 4))
           H C).
Defined.

(* ================================================================== *)
(** * The trend chart in the four programs *)
(* ================================================================== *)

Lemma chart_points_map {A : Type} (f : A -> Z) (g : A -> pyfloat)
  (l : list A) :
  chart_points (map (fun x => (Some (f x), g x)) l)
  = map (fun x => (f x, g x)) l.
Proof.
  induction l as [| x l IH]; cbn [map chart_points]; [reflexivity |].
  now rewrite IH.
Qed.

Lemma groupby_chart_of (df : DataFrame) :
  chart_of (map (fun g => (fst g, series_mean (snd g)))
                (groupby_Year (rows df))) df.
Proof.
  unfold chart_of. rewrite map_map. cbn [fst].
  split; [apply groupby_Year_sorted |]. split; [apply groupby_Year_keys |].
  apply Forall_forall. intros p Ip. apply in_map_iff in Ip.
  destruct Ip as ([k vs] & <- & I). cbn [fst snd].
  now rewrite (groupby_Year_group _ _ _ I).
Qed.

Lemma Backend_annual_trend_run (h : heap) (r : ref) (df : DataFrame) :
  holds h r df ->
  Backend.annual_trend r h
  = (if has_column "Year" df then
       if has_column "sentiment_score_signed" df
       then inr (Some (map (fun g => (fst g, series_mean (snd g)))
                           (groupby_Year (rows df))))
       else inl (KeyError "sentiment_score_signed")
     else inr None, h).
Proof.
  intros H. unfold Backend.annual_trend, bind, read. rewrite H.
  destruct (has_column "Year" df);
    [destruct (has_column "sentiment_score_signed" df) |]; reflexivity.
Qed.

Lemma Backnew_annual_trend_run (h : heap) (r : ref) (df : DataFrame) :
  holds h r df ->
  Backnew.annual_trend r h
  = if has_trend_columns df
    then (inr (Some (map (fun g => (fst g, series_mean (snd g)))
                         (groupby_Year (rows df)))),
          h ++ [renamed_trend
                  (map (fun g => (fst g, series_mean (snd g)))
                       (groupby_Year (rows df)))])
    else (inr None, h).
Proof.
  intros H. unfold Backnew.annual_trend, bind at 1, read. rewrite H.
  unfold has_trend_columns.
  destruct (has_column "Year" df && has_column "sentiment_score_signed" df);
    [| reflexivity].
  unfold bind, alloc. rewrite !update_trend_new.
  unfold groupby_mean_reset_index, rename_column.
  cbn [t_index t_columns t_rows map].
  change (String.eqb "Year" "sentiment_score_signed") with false.
  change (String.eqb "sentiment_score_signed" "sentiment_score_signed")
    with true.
  cbv iota. unfold set_index. cbn [t_index t_columns t_rows existsb].
  change (String.eqb "Year" "Year") with true. cbn [orb filter negb].
  change (String.eqb "Average Sentiment Score" "Year") with false.
  cbn [negb]. unfold read_trend. rewrite nth_error_new.
  unfold ret. cbn [t_rows]. rewrite chart_points_map.
  unfold renamed_trend. rewrite map_map. reflexivity.
Qed.

(** X11.  The trend of the four programs on the same frame.  When the
    frame has years and scores, the two Streamlit scripts draw the same
    chart, one point per year of the frame in ascending order with the
    mean of the year's scores, and the two Flask programs return its
    years and its means rounded to four decimals; [backnew.py] leaves
    one new frame behind, indexed by year with the single column
    "Average Sentiment Score", and [backend.py] none.  When a column is
    missing the Flask programs return two empty lists and [backnew.py]
    draws nothing, but [backend.py] raises [KeyError] if it is the score
    column that is missing. *)
Theorem trend_chart_agrees_across_programs (h : heap) (r : ref)
  (df : DataFrame) :
  holds h r df ->
  (has_trend_columns df = true ->
   exists chart,
     chart_of chart df /\
     Backend.annual_trend r h = (inr (Some chart), h) /\
     Backnew.annual_trend r h
     = (inr (Some chart), h ++ [renamed_trend chart]) /\
     fst (App.compute_annual_trend r h)
     = inr (map fst chart, map (fun p => fround 4 (snd p)) chart) /\
     fst (App1.compute_annual_trend r h)
     = inr (map fst chart, map (fun p => fround 4 (snd p)) chart)) /\
  (has_trend_columns df = false ->
   Backend.annual_trend r h
   = (if has_column "Year" df
      then inl (KeyError "sentiment_score_signed") else inr None, h) /\
   Backnew.annual_trend r h = (inr None, h) /\
   fst (App.compute_annual_trend r h) = inr ([], []) /\
   fst (App1.compute_annual_trend r h) = inr ([], [])).
Proof.
  intros H.
  destruct (App_compute_annual_trend_run h r df H) as [_ E1].
  destruct (App1_compute_annual_trend_run h r df H) as [_ E2].
  rewrite E1, E2, (Backend_annual_trend_run h r df H),
    (Backnew_annual_trend_run h r df H).
  clear E1 E2. unfold trend_value, yearly_means.
  split; intros C; rewrite C; unfold has_trend_columns in C.
  - apply andb_prop in C. destruct C as [CY CS]. rewrite CY, CS.
    cbn [negb orb].
    exists (map (fun g => (fst g, series_mean (snd g)))
                (groupby_Year (rows df))).
    split; [apply groupby_chart_of |]. split; [reflexivity |].
    split; [reflexivity |]. rewrite !map_map. split; reflexivity.
  - destruct (has_column "Year" df);
      destruct (has_column "sentiment_score_signed" df);
      [discriminate | | |]; repeat split; reflexivity.
Qed.

Lemma trend_chart_agrees_across_programs_witness :
  holds (Sample.loaded Sample.news) 0 Sample.news /\
  has_trend_columns Sample.news = true /\
  exists chart,
    chart_of chart Sample.news /\
    Backnew.annual_trend 0 (Sample.loaded Sample.news)
    = (inr (Some chart), Sample.loaded Sample.news ++ [renamed_trend chart]).
Proof.
  assert (holds (Sample.loaded Sample.news) 0 Sample.news) as H
      by reflexivity.
  assert (has_trend_columns Sample.news = true) as C by reflexivity.
  split; [exact H |]. split; [exact C |].
  destruct (trend_chart_agrees_across_programs _ _ _ H) as (A & _).
  destruct (A C) as (chart & P & _ & E & _).
  exists chart. split; [exact P | exact E].
Defined.

(* ================================================================== *)
(** * The detail section *)
(* ================================================================== *)

Lemma head_filter_find {A : Type} (p : A -> bool) (l : list A) :
  match filter p l with
  | x :: _ => Some x
  | [] => None
  end = find p l.
Proof.
  induction l as [| x l IH]; cbn [filter find]; [reflexivity |].
  now destruct (p x).
Qed.

Lemma str_of_int_inj (a b : Z) : str_of_int a = str_of_int b -> a = b.
Proof.
  unfold str_of_int. intros E. apply DecimalZ.to_int_inj.
  assert (forall n, Z.to_int n <> Decimal.Pos Decimal.Nil /\
                    Z.to_int n <> Decimal.Neg Decimal.Nil) as N.
  { intros n. split; intros C;
      pose proof (DecimalZ.of_to n) as O; rewrite C in O;
      rewrite <- O in C; discriminate C. }
  assert (Some (Z.to_int a) = Some (Z.to_int b)) as S'.
  { rewrite <- (NilZero.isi (Z.to_int a)), <- (NilZero.isi (Z.to_int b));
      try apply N. now rewrite E. }
  now inversion S'.
Qed.

Section DetailSection.

Context {R : Runtime}.

Lemma App1_detail_value (h : heap) (r : ref) (f : DataFrame) (nid : string) :
  holds h r f ->
  fst (App1.detail r nid h)
  = if truthy nid then
      if has_column "news_id" f
      then inr (first_row (news_id_str_is nid) f)
      else inl (KeyError "news_id")
    else inr None.
Proof.
  intros H. unfold App1.detail. destruct (truthy nid); [| reflexivity].
  change (post (found <- derive r (fun f0 =>
                   if has_column "news_id" f0
                   then inr (getitem_mask (news_id_str_is nid) f0)
                   else inl (KeyError "news_id")) ;;
                m <- read found ;;
                match rows m with
                | r0 :: _ => ret (Some (row_to_dict (columns m) r0))
                | [] => ret None
                end) h
            (fun res _ =>
               res = if has_column "news_id" f
                     then inr (first_row (news_id_str_is nid) f)
                     else inl (KeyError "news_id"))).
  apply post_bind, (post_derive _ _ _ _ _ H).
  destruct (has_column "news_id" f); [| reflexivity].
  apply post_bind, (post_read _ _ _ _ (holds_new _ _)).
  unfold first_row. rewrite <- head_filter_find.
  cbn [getitem_mask rows columns].
  destruct (filter (news_id_str_is nid) (rows f)); reflexivity.
Qed.

Lemma App_detail_value (h : heap) (r : ref) (f : DataFrame) (nid : string) :
  holds h r f ->
  fst (App.detail r nid h)
  = if truthy nid && negb (empty f) then
      if has_column "news_id" f
      then inr (first_row (App_id_test f nid) f)
      else inl (KeyError "news_id")
    else inr None.
Proof.
  intros H. unfold App.detail.
  change (post (f0 <- read r ;;
                if truthy nid && negb (empty f0) then
                  row <- try_except
                    (derive r (fun f1 =>
                       if has_column "news_id" f1 then
                         match rows f1 with
                         | r0 :: _ =>
                             match App.convert_like (news_id r0) nid with
                             | inr i => inr (getitem_mask (news_id_is i) f1)
                             | inl e => inl e
                             end
                         | [] => inl IndexError
                         end
                       else inl (KeyError "news_id")))
                    (derive r (fun f1 =>
                       if has_column "news_id" f1
                       then inr (getitem_mask (news_id_str_is nid) f1)
                       else inl (KeyError "news_id"))) ;;
                  rw <- read row ;;
                  match rows rw with
                  | r1 :: _ => ret (Some (row_to_dict (columns rw) r1))
                  | [] => ret None
                  end
                else ret None) h
            (fun res _ =>
               res = if truthy nid && negb (empty f) then
                       if has_column "news_id" f
                       then inr (first_row (App_id_test f nid) f)
                       else inl (KeyError "news_id")
                     else inr None)).
  apply post_bind, (post_read _ _ _ _ H).
  destruct (truthy nid && negb (empty f)) eqn:T; [| reflexivity].
  assert (forall (p : Row -> bool) (h1 : heap),
             post (rw <- read (List.length h1) ;;
                   match rows rw with
                   | r1 :: _ => ret (Some (row_to_dict (columns rw) r1))
                   | [] => ret None
                   end) (h1 ++ [News (getitem_mask p f)])
               (fun res _ => res = inr (first_row p f))) as K.
  { intros p h1. apply post_bind, (post_read _ _ _ _ (holds_new _ _)).
    unfold first_row. rewrite <- head_filter_find.
    cbn [getitem_mask rows columns].
    destruct (filter p (rows f)); reflexivity. }
  apply post_bind, post_try, (post_derive _ _ _ _ _ H).
  unfold App_id_test.
  destruct (has_column "news_id" f) eqn:C.
  - destruct (rows f) as [| r0 l] eqn:Er.
    { apply andb_prop in T. destruct T as [_ T]. unfold empty in T.
      rewrite Er in T. discriminate. }
    destruct (App.convert_like (news_id r0) nid) as [e | i].
    + apply (post_derive _ _ _ _ _ H). rewrite C. apply K.
    + apply K.
  - apply (post_derive _ _ _ _ _ H). rewrite C. reflexivity.
Qed.

End DetailSection.

Lemma find_ext_in {A : Type} (p q : A -> bool) (l : list A) :
  (forall x, In x l -> p x = q x) -> find p l = find q l.
Proof.
  induction l as [| x l IH]; intros E; cbn [find]; [reflexivity |].
  rewrite (E x (or_introl eq_refl)).
  destruct (q x); [reflexivity |]. apply IH. intros y I. apply E. now right.
Qed.

Lemma news_id_is_refl (row : Row) : news_id_is (news_id row) row = true.
Proof.
  unfold news_id_is. destruct (news_id row);
    [apply Z.eqb_refl | apply String.eqb_refl].
Qed.

Section DetailClaims.

Context {R : Runtime}.

Lemma App_id_test_canonical (f : DataFrame) (nid : string) (n : Z) :
  Forall int_id (rows f) -> py_int nid = Some n -> str_of_int n = nid ->
  forall row, In row (rows f) ->
              App_id_test f nid row = news_id_str_is nid row.
Proof.
  intros F P C row I. unfold App_id_test.
  destruct (rows f) as [| r0 l]; [contradiction |].
  inversion F as [| ? ? [k Ek] _]; subst. rewrite Ek.
  unfold App.convert_like. rewrite P.
  rewrite Forall_forall in F. destruct (F row I) as [a Ea].
  unfold news_id_is, news_id_str_is. rewrite Ea. cbn [str_of_ident].
  destruct (Z.eqb a n) eqn:E.
  - apply Z.eqb_eq in E. subst a. symmetry. apply String.eqb_refl.
  - symmetry. apply String.eqb_neq. intros Eq. apply str_of_int_inj in Eq.
    subst a. now rewrite Z.eqb_refl in E.
Qed.

(** X12.  The detail section of the two Flask programs on the frame
    left by the filters.  With a [news_id] column, [app1.py] shows the
    first row whose identifier, as text, is the requested text, and
    [app.py] the first row whose identifier equals the text converted to
    the type of the frame's first identifier (or whose text equals it
    when the conversion fails); neither raises, and both show nothing
    when no row matches or no record is asked for.  On a frame of
    integer identifiers and for the decimal text of an integer, the two
    programs show the same record.  Without a [news_id] column a request
    for a record raises [KeyError], except in [app.py] on an empty
    frame. *)
Theorem flask_detail_shows_the_first_match (h : heap) (r : ref)
  (f : DataFrame) (nid : string) :
  holds h r f ->
  (has_column "news_id" f = true ->
   fst (App.detail r nid h)
   = inr (if truthy nid then first_row (App_id_test f nid) f else None) /\
   fst (App1.detail r nid h)
   = inr (if truthy nid then first_row (news_id_str_is nid) f else None) /\
   (Forall int_id (rows f) ->
    forall n, py_int nid = Some n -> str_of_int n = nid ->
              fst (App.detail r nid h) = fst (App1.detail r nid h))) /\
  (has_column "news_id" f = false -> truthy nid = true ->
   fst (App.detail r nid h)
   = (if empty f then inr None else inl (KeyError "news_id")) /\
   fst (App1.detail r nid h) = inl (KeyError "news_id")).
Proof.
  intros H.
  rewrite (App_detail_value h r f nid H), (App1_detail_value h r f nid H).
  split.
  - intros C. rewrite C.
    assert ((if truthy nid && negb (empty f)
             then inr (first_row (App_id_test f nid) f) else inr None)
            = (inr (if truthy nid then first_row (App_id_test f nid) f
                    else None) : exn + option (list (string * cell)))) as ->.
    { destruct (truthy nid); [| reflexivity]. cbn [andb].
      unfold empty, first_row.
      destruct (rows f); reflexivity. }
    split; [reflexivity |].
    split; [now destruct (truthy nid) |].
    intros F n P Cn. destruct (truthy nid); [| reflexivity].
    unfold first_row.
    now rewrite (find_ext_in _ _ _ (App_id_test_canonical f nid n F P Cn)).
  - intros C T. rewrite C, T. cbn [andb].
    split; [now destruct (empty f) | reflexivity].
Qed.

End DetailClaims.

Lemma flask_detail_shows_the_first_match_witness :
  holds (Sample.loaded Sample.news) 0 Sample.news /\
  has_column "news_id" Sample.news = true /\
  Forall int_id (rows Sample.news) /\
  fst (@App.detail Builtins.runtime 0 "2" (Sample.loaded Sample.news))
  = fst (App1.detail 0 "2" (Sample.loaded Sample.news)).
Proof.
  assert (holds (Sample.loaded Sample.news) 0 Sample.news) as H
      by reflexivity.
  assert (has_column "news_id" Sample.news = true) as C by reflexivity.
  assert (Forall int_id (rows Sample.news)) as F
      by (repeat constructor; eexists; reflexivity).
  split; [exact H |]. split; [exact C |]. split; [exact F |].
  destruct (@flask_detail_shows_the_first_match Builtins.runtime _ _ _ "2" H)
    as (A & _).
  destruct (A C) as (_ & _ & E).
  exact (E F 2%Z eq_refl eq_refl).
Defined.

Lemma Backnew_detail_value (h : heap) (r : ref) (f : DataFrame) (i : ident) :
  holds h r f ->
  fst (Backnew.detail r i h)
  = if empty f then inr None
    else if has_column "news_id" f then
      match first_row (news_id_is i) f with
      | Some d => inr (Some d)
      | None => inl IndexError
      end
    else inl (KeyError "news_id").
Proof.
  intros H.
  change (post (Backnew.detail r i) h
            (fun res _ =>
               res = if empty f then inr None
                     else if has_column "news_id" f then
                       match first_row (news_id_is i) f with
                       | Some d => inr (Some d)
                       | None => inl IndexError
                       end
                     else inl (KeyError "news_id"))).
  unfold Backnew.detail. apply post_bind, (post_read _ _ _ _ H).
  destruct (empty f); [reflexivity |].
  destruct (has_column "news_id" f); cbn [negb]; [| reflexivity].
  apply post_bind. unfold derive_pure. apply (post_derive _ _ _ _ _ H).
  apply post_bind, (post_read _ _ _ _ (holds_new _ _)).
  unfold first_row. rewrite <- head_filter_find.
  cbn [getitem_mask rows columns].
  destruct (filter (news_id_is i) (rows f)); reflexivity.
Qed.

Lemma Backend_detail_value (h : heap) (r : ref) (f : DataFrame) (i : ident) :
  holds h r f ->
  fst (Backend.detail r i h)
  = if empty f then inr None
    else if has_column "news_id" f then
      match first_row (news_id_is i) f with
      | Some d => if has_column "Article_title" f then inr (Some d)
                  else inl (KeyError "Article_title")
      | None => inl IndexError
      end
    else inl (KeyError "news_id").
Proof.
  intros H.
  change (post (Backend.detail r i) h
            (fun res _ =>
               res = if empty f then inr None
                     else if has_column "news_id" f then
                       match first_row (news_id_is i) f with
                       | Some d =>
                           if has_column "Article_title" f then inr (Some d)
                           else inl (KeyError "Article_title")
                       | None => inl IndexError
                       end
                     else inl (KeyError "news_id"))).
  unfold Backend.detail. apply post_bind, (post_read _ _ _ _ H).
  destruct (empty f); [reflexivity |].
  destruct (has_column "news_id" f); cbn [negb]; [| reflexivity].
  apply post_bind. unfold derive_pure. apply (post_derive _ _ _ _ _ H).
  apply post_bind, (post_read _ _ _ _ (holds_new _ _)).
  unfold first_row. rewrite <- head_filter_find, has_column_mask.
  cbn [getitem_mask rows columns].
  destruct (filter (news_id_is i) (rows f)); [reflexivity |].
  cbn [option_map].
  destruct (has_column "Article_title" f); reflexivity.
Qed.

(** X13.  The detail viewer of the Streamlit scripts on the frame left
    by the filters.  For an identifier taken from that frame, as the
    select box offers, [backnew.py] shows the first row with this
    identifier and never raises [IndexError]; [backend.py] shows the
    same row when the frame has a title column and raises [KeyError]
    otherwise.  On an empty frame both show nothing; on a frame with
    rows and no [news_id] column both raise [KeyError]. *)
Theorem sidebar_detail_shows_the_chosen_row (h : heap) (r : ref)
  (f : DataFrame) :
  holds h r f ->
  (forall i, empty f = true ->
     fst (Backend.detail r i h) = inr None /\
     fst (Backnew.detail r i h) = inr None) /\
  (forall i, empty f = false -> has_column "news_id" f = false ->
     fst (Backend.detail r i h) = inl (KeyError "news_id") /\
     fst (Backnew.detail r i h) = inl (KeyError "news_id")) /\
  (forall row, In row (rows f) -> has_column "news_id" f = true ->
     exists first,
       In first (rows f) /\ news_id first = news_id row /\
       find (news_id_is (news_id row)) (rows f) = Some first /\
       fst (Backnew.detail r (news_id row) h)
       = inr (Some (row_to_dict (columns f) first)) /\
       fst (Backend.detail r (news_id row) h)
       = if has_column "Article_title" f
         then inr (Some (row_to_dict (columns f) first))
         else inl (KeyError "Article_title")).
Proof.
  intros H. split; [| split].
  - intros i E.
    rewrite (Backend_detail_value h r f i H), (Backnew_detail_value h r f i H),
      E. now split.
  - intros i E C.
    rewrite (Backend_detail_value h r f i H), (Backnew_detail_value h r f i H),
      E, C. now split.
  - intros row I C.
    rewrite (Backend_detail_value h r f _ H), (Backnew_detail_value h r f _ H),
      C.
    assert (empty f = false) as ->
        by (unfold empty; destruct (rows f); [contradiction | reflexivity]).
    unfold first_row.
    destruct (find (news_id_is (news_id row)) (rows f)) as [first |] eqn:F.
    + destruct (find_some _ _ F) as [I1 T1]. exists first.
      split; [exact I1 |]. split.
      * unfold news_id_is in T1.
        destruct (news_id first) as [a | a], (news_id row) as [b | b];
          try discriminate.
        -- apply Z.eqb_eq in T1. now subst.
        -- apply String.eqb_eq in T1. now subst.
      * split; [reflexivity |]. cbn [option_map]. split; reflexivity.
    + pose proof (find_none _ _ F row I) as N.
      rewrite news_id_is_refl in N. discriminate.
Qed.

Lemma sidebar_detail_shows_the_chosen_row_witness :
  holds (Sample.loaded Sample.news) 0 Sample.news /\
  In Sample.bad (rows Sample.news) /\
  has_column "news_id" Sample.news = true /\
  fst (Backnew.detail 0 (IdInt 2) (Sample.loaded Sample.news))
  = inr (Some (row_to_dict (columns Sample.news) Sample.bad)).
Proof.
  assert (holds (Sample.loaded Sample.news) 0 Sample.news) as H
      by reflexivity.
  assert (In Sample.bad (rows Sample.news)) as I
      by (right; left; reflexivity).
  assert (has_column "news_id" Sample.news = true) as C by reflexivity.
  split; [exact H |]. split; [exact I |]. split; [exact C |].
  destruct (sidebar_detail_shows_the_chosen_row _ _ _ H) as (_ & _ & A).
  destruct (A Sample.bad I C) as (first & _ & _ & F & E & _).
  assert (first = Sample.bad) as <- by (inversion F; reflexivity).
  exact E.
Defined.

(* ================================================================== *)
(** * The two Flask programs side by side *)
(* ================================================================== *)

Lemma sort_counts_desc_sorted_id (l : list (string * nat)) :
  StronglySorted count_ge l -> sort_counts_desc l = l.
Proof.
  induction 1 as [| x l St IH F]; cbn [sort_counts_desc]; [reflexivity |].
  rewrite IH. destruct l as [| y l']; cbn [insert_by_count]; [reflexivity |].
  inversion F as [| ? ? Hy _]; subst. unfold count_ge in Hy.
  apply Nat.leb_le in Hy. now rewrite Hy.
Qed.

Lemma is_set_cases (y : string) :
  (y = "" /\ App1.is_set y = false) \/
  (y = "all" /\ App1.is_set y = false) \/
  (String.eqb y "" = false /\ String.eqb y "all" = false /\
   App1.is_set y = true).
Proof.
  unfold App1.is_set.
  destruct (String.eqb y "") eqn:E1.
  { apply String.eqb_eq in E1. left. now subst. }
  destruct (String.eqb y "all") eqn:E2.
  { apply String.eqb_eq in E2. right. left. now subst. }
  right. right. repeat split; reflexivity.
Qed.

Section SideBySide.

Context {R : Runtime}.

Lemma Flask_df_year_agree (req : Request) (df : DataFrame) :
  App_df_year (App_selected_year req) df
  = App1_df_year (get (arg_year req) "all") df.
Proof.
  unfold App_df_year, App1_df_year, App_selected_year.
  destruct (is_set_cases (get (arg_year req) "all"))
    as [[-> ->] | [[-> ->] | (E1 & E2 & ->)]].
  - cbn [String.eqb]. now rewrite andb_false_r.
  - change (String.eqb "all" "") with false. cbv iota.
    change (String.eqb "all" "all") with true. cbn [negb andb].
    now rewrite andb_false_r.
  - rewrite E1, E2. cbn [negb andb]. now rewrite andb_true_r.
Qed.

Lemma Flask_summary_agree (req : Request) (df : DataFrame) :
  App_summary (App_selected_year req) df
  = App1_summary (get (arg_year req) "all") df.
Proof.
  unfold App_summary, App1_summary. cbv zeta.
  rewrite Flask_df_year_agree.
  destruct (negb (has_column "sentiment_label"
                    (App1_df_year (get (arg_year req) "all") df))
            || empty (App1_df_year (get (arg_year req) "all") df));
    [reflexivity |].
  rewrite sort_counts_desc_sorted_id; [reflexivity |].
  apply sort_counts_desc_sorted.
Qed.

Lemma Flask_stages_agree (g : Globals) (req : Request) (df : DataFrame) :
  read_alike df req ->
  run_stages (App_stages_of g req) df = run_stages (App1_stages_of g req) df.
Proof.
  intros (Sy & Kw & Ni). unfold App_stages_of, App1_stages_of.
  rewrite App_pipeline_is_one_filter, App1_pipeline_is_one_filter.
  assert (App_raises g (fst (sentiment_range g req))
            (snd (sentiment_range g req)) (requested_keyword req) df
          = App1_raises g (get (arg_symbol req) "all")
              (fst (sentiment_range g req)) (snd (sentiment_range g req))
              (requested_keyword req) (requested_news_id req) df) as ->.
  { unfold App_raises, App1_raises. rewrite Ni. cbn [andb].
    destruct (App1.is_set (get (arg_symbol req) "all")) eqn:Is.
    - destruct (Sy eq_refl) as [-> _]. cbn [negb andb].
      destruct (range_raises _ _ _ df); [reflexivity |].
      destruct (truthy (requested_keyword req)) eqn:T; [| reflexivity].
      rewrite (Kw eq_refl). cbn [negb andb].
      destruct (re_compile_ic (requested_keyword req)); reflexivity.
    - cbn [andb].
      destruct (range_raises _ _ _ df); [reflexivity |].
      destruct (truthy (requested_keyword req)) eqn:T; [| reflexivity].
      rewrite (Kw eq_refl). cbn [negb andb].
      destruct (re_compile_ic (requested_keyword req)); reflexivity. }
  destruct (App1_raises _ _ _ _ _ _ df); [reflexivity |].
  f_equal. f_equal. f_equal. apply filter_ext. intros row.
  unfold App_keeps, App1_keeps, App1_news_id_keeps. rewrite Ni, andb_true_r.
  f_equal; [f_equal; f_equal |].
  - unfold App_year_keeps, App1_year_keeps, App_selected_year.
    destruct (is_set_cases (get (arg_year req) "all"))
      as [[-> ->] | [[-> ->] | (E1 & E2 & ->)]].
    + reflexivity.
    + reflexivity.
    + rewrite E1, E2. reflexivity.
  - unfold App_symbol_keeps, App1_symbol_keeps, App_selected_symbol.
    destruct (is_set_cases (get (arg_symbol req) "all"))
      as [[E ->] | [[E ->] | (E1 & E2 & Is)]].
    + rewrite E. reflexivity.
    + rewrite E. reflexivity.
    + rewrite E1, E2, Is. destruct (Sy Is) as [-> ->]. reflexivity.
  - unfold App_keyword_keeps, App1_keyword_keeps.
    destruct (truthy (requested_keyword req)) eqn:T; [| reflexivity].
    now rewrite (Kw eq_refl).
Qed.


End SideBySide.


(* ================================================================== *)
(** * The two Streamlit scripts side by side *)
(* ================================================================== *)

Section ScriptValues.

Context {R : Runtime}.

Lemma Backend_detail_post (h : heap) (r : ref) (f : DataFrame) (i : ident) :
  holds h r f ->
  post (Backend.detail r i) h
       (fun res h' => extends h h' /\ res = Backend_detail_of i f).
Proof.
  intros H. split; [apply allocating_Backend_detail |].
  apply (Backend_detail_value h r f i H).
Qed.

Lemma Backnew_detail_post (h : heap) (r : ref) (f : DataFrame) (i : ident) :
  holds h r f ->
  post (Backnew.detail r i) h
       (fun res h' => extends h h' /\ res = Backnew_detail_of i f).
Proof.
  intros H. split; [apply allocating_Backnew_detail |].
  apply (Backnew_detail_value h r f i H).
Qed.

Lemma Backend_trend_post (h : heap) (r : ref) (df : DataFrame) :
  holds h r df ->
  post (Backend.annual_trend r) h
       (fun res h' => extends h h' /\ res = Backend_trend_of df).
Proof.
  intros H. unfold post. rewrite (Backend_annual_trend_run h r df H).
  cbn [fst snd]. split; [apply extends_refl |].
  unfold Backend_trend_of, yearly_chart.
  destruct (has_column "Year" df);
    [destruct (has_column "sentiment_score_signed" df) |]; reflexivity.
Qed.

Lemma Backnew_trend_post (h : heap) (r : ref) (df : DataFrame) :
  holds h r df ->
  post (Backnew.annual_trend r) h
       (fun res h' => extends h h' /\ res = Backnew_trend_of df).
Proof.
  intros H. split; [apply allocating_Backnew_trend |].
  rewrite (Backnew_annual_trend_run h r df H).
  unfold Backnew_trend_of, yearly_chart.
  destruct (has_trend_columns df); reflexivity.
Qed.

(** [backend.py]: one run of the script, in full. *)
Lemma Backend_script_value (h : heap) (r : ref) (df : DataFrame)
  (w : Widgets) :
  holds h r df ->
  fst (Backend.script r w h)
  = script_of (run_stages (Backend_stages df w) df) (Backend_trend_of df)
              (Backend_summary_of (year_frame df w))
              (Backend_detail_of (w_news_id w)).
Proof.
  intros H.
  change (post (Backend.script r w) h
            (fun res _ =>
               res = script_of (run_stages (Backend_stages df w) df)
                       (Backend_trend_of df)
                       (Backend_summary_of (year_frame df w))
                       (Backend_detail_of (w_news_id w)))).
  unfold Backend.script, script_of.
  apply post_bind, (post_read _ _ _ _ H).
  apply post_bind.
  eapply post_conseq; [apply Backend_filtered_yields, H |].
  intros res h1 [E1 Y].
  destruct (run_stages (Backend_stages df w) df) as [e | f].
  { subst res. reflexivity. }
  destruct Y as (r1 & -> & H1).
  apply post_bind.
  eapply post_conseq; [apply (Backend_trend_post h1 r df); eauto with heap |].
  intros res2 h2 [E2 ->].
  destruct (Backend_trend_of df) as [e | t]; [reflexivity |].
  apply post_bind.
  eapply post_conseq;
    [apply (Backend_yearly_summary_run h2 r df w); eauto with heap |].
  intros res3 h3 [E3 ->].
  destruct (Backend_summary_of (year_frame df w)) as [e | sv];
    [reflexivity |].
  assert (holds h3 r1 f) as H3 by eauto with heap.
  apply post_bind, (post_read _ _ _ _ H3).
  apply post_bind. unfold derive_pure.
  apply (post_derive _ _ _ _ _ H3).
  apply post_bind, (post_derive _ _ _ _ _ (holds_new _ _)).
  apply post_bind, (post_read _ _ _ _ (holds_new _ _)).
  apply post_bind.
  eapply post_conseq;
    [apply (Backend_detail_post _ r1 f); eauto 6 with heap |].
  intros res4 h4 [E4 ->].
  destruct (Backend_detail_of (w_news_id w) f) as [e | v]; [reflexivity |].
  apply post_ret. reflexivity.
Qed.

(** [backnew.py]: one run of the script, in full. *)
Lemma Backnew_script_value (h : heap) (r : ref) (df : DataFrame)
  (w : Widgets) :
  holds h r df ->
  fst (Backnew.script r w h)
  = script_of (run_stages (Backnew_stages df w) df) (Backnew_trend_of df)
              (Backnew_summary_of (year_frame df w))
              (Backnew_detail_of (w_news_id w)).
Proof.
  intros H.
  change (post (Backnew.script r w) h
            (fun res _ =>
               res = script_of (run_stages (Backnew_stages df w) df)
                       (Backnew_trend_of df)
                       (Backnew_summary_of (year_frame df w))
                       (Backnew_detail_of (w_news_id w)))).
  unfold Backnew.script, script_of.
  apply post_bind, (post_read _ _ _ _ H).
  apply post_bind.
  eapply post_conseq; [apply Backnew_filtered_yields, H |].
  intros res h1 [E1 Y].
  destruct (run_stages (Backnew_stages df w) df) as [e | f].
  { subst res. reflexivity. }
  destruct Y as (r1 & -> & H1).
  apply post_bind.
  eapply post_conseq; [apply (Backnew_trend_post h1 r df); eauto with heap |].
  intros res2 h2 [E2 ->].
  destruct (Backnew_trend_of df) as [e | t]; [reflexivity |].
  apply post_bind.
  eapply post_conseq;
    [apply (Backnew_yearly_summary_run h2 r df w); eauto with heap |].
  intros res3 h3 [E3 ->].
  destruct (Backnew_summary_of (year_frame df w)) as [e | sv];
    [reflexivity |].
  assert (holds h3 r1 f) as H3 by eauto with heap.
  apply post_bind, (post_read _ _ _ _ H3).
  apply post_bind. unfold derive_pure.
  apply (post_derive _ _ _ _ _ H3).
  apply post_bind, (post_derive _ _ _ _ _ (holds_new _ _)).
  apply post_bind, (post_read _ _ _ _ (holds_new _ _)).
  apply post_bind.
  eapply post_conseq;
    [apply (Backnew_detail_post _ r1 f); eauto 6 with heap |].
  intros res4 h4 [E4 ->].
  destruct (Backnew_detail_of (w_news_id w) f) as [e | v]; [reflexivity |].
  apply post_ret. reflexivity.
Qed.

End ScriptValues.

Section Reproduces.

Context {R : Runtime}.

Lemma sidebar_guard (kw : string) (df : DataFrame) :
  Backend_raises kw df = None ->
  Backnew_raises kw df = None /\
  forall y s rg row,
    sidebar_keeps y s rg kw true df row = sidebar_keeps y s rg kw false df row.
Proof.
  unfold Backend_raises, Backnew_raises, sidebar_keeps.
  destruct (truthy kw); [| intros _; split; reflexivity].
  destruct (has_column "Article_title" df); [| discriminate].
  cbn [andb negb orb]. intros E. split; [exact E | reflexivity].
Qed.

Lemma trend_refines (df : DataFrame) (t : option (list (Z * pyfloat))) :
  Backend_trend_of df = inr t -> Backnew_trend_of df = inr t.
Proof.
  unfold Backend_trend_of, Backnew_trend_of, has_trend_columns.
  destruct (has_column "Year" df);
    [destruct (has_column "sentiment_score_signed" df) |];
    cbn [andb]; intros E; [exact E | discriminate | exact E].
Qed.

Lemma summary_refines (yf : DataFrame) (sv : option SummaryView) :
  Backend_summary_of yf = inr sv ->
  exists sv', Backnew_summary_of yf = inr sv' /\ (sv' = None <-> sv = None).
Proof.
  destruct (has_column "sentiment_label" yf) eqn:C.
  - pose proof (Backend_summary_view yf C) as V1.
    pose proof (Backnew_summary_view yf C) as V2.
    destruct (filter labelled (rows yf)) as [| x xs].
    + rewrite V1, V2. destruct (empty yf); [| discriminate].
      intros E. apply inr_inj in E. subst sv. exists None. now split.
    + destruct V1 as (v & -> & _). destruct V2 as (v' & -> & _).
      intros E. apply inr_inj in E. subst sv. exists (Some v').
      split; [reflexivity |]. split; discriminate.
  - unfold Backend_summary_of, Backnew_summary_of. rewrite C. cbn [andb].
    intros E. apply inr_inj in E. subst sv. exists None. now split.
Qed.

Lemma detail_refines (i : ident) (f : DataFrame)
  (v : option (list (string * cell))) :
  Backend_detail_of i f = inr v -> Backnew_detail_of i f = inr v.
Proof.
  unfold Backend_detail_of, Backnew_detail_of.
  destruct (empty f); [auto |].
  destruct (has_column "news_id" f); [| auto].
  destruct (first_row (news_id_is i) f); [| auto].
  destruct (has_column "Article_title" f); [auto | discriminate].
Qed.

(** X15.  [backnew.py] reproduces [backend.py]: for the same frame and
    the same sidebar (the slider range being the one [backnew.py]
    uses), every run of [backend.py] that completes is matched by a run
    of [backnew.py] that completes and shows the same trend chart, the
    same count, the same table and the same record, and a summary
    exactly when [backend.py] shows one: the guards added in
    [backnew.py] only remove failures. *)
Theorem backnew_reproduces_backend (h : heap) (r : ref) (df : DataFrame)
  (w : Widgets) :
  holds h r df ->
  Backend.sentiment_range df w = Backnew.sentiment_range df w ->
  forall a ha,
    Backend.script r w h = (inr a, ha) ->
    exists b hb,
      Backnew.script r w h = (inr b, hb) /\
      trend_chart b = trend_chart a /\
      result_count b = result_count a /\
      result_table b = result_table a /\
      detail_view b = detail_view a /\
      (summary_view b = None <-> summary_view a = None).
Proof.
  intros H Rg a ha E.
  pose proof (Backend_script_value h r df w H) as VA.
  pose proof (Backnew_script_value h r df w H) as VB.
  rewrite E in VA. cbn [fst] in VA. unfold script_of in VA, VB.
  rewrite Backend_pipeline_is_one_filter in VA.
  rewrite Backnew_pipeline_is_one_filter in VB.
  destruct (Backend_raises (w_keyword w) df) eqn:BR; [discriminate |].
  destruct (sidebar_guard _ _ BR) as [BN K].
  rewrite BN, <- Rg in VB.
  rewrite (filter_ext _ _ (K (Backnew.selected_year df w)
                             (Backnew.symbol df w)
                             (Backend.sentiment_range df w))) in VB.
  change (Backnew.selected_year df w) with (Backend.selected_year df w) in VB.
  change (Backnew.symbol df w) with (Backend.symbol df w) in VB.
  destruct (Backend_trend_of df) as [e | t] eqn:T; [discriminate |].
  rewrite (trend_refines _ _ T) in VB.
  destruct (Backend_summary_of (year_frame df w)) as [e | sv] eqn:Sm;
    [discriminate |].
  destruct (summary_refines _ _ Sm) as (sv' & Sm' & Nn). rewrite Sm' in VB.
  destruct (Backend_detail_of (w_news_id w) _) as [e | v] eqn:D;
    [discriminate |].
  rewrite (detail_refines _ _ _ D) in VB.
  apply inr_inj in VA. subst a.
  destruct (Backnew.script r w h) as [res hb]. cbn [fst] in VB. subst res.
  eexists. exists hb. split; [reflexivity |].
  cbn [trend_chart result_count result_table detail_view summary_view].
  split; [reflexivity |]. split; [reflexivity |]. split; [reflexivity |].
  split; [reflexivity | exact Nn].
Qed.

End Reproduces.

Lemma backnew_reproduces_backend_witness :
  holds (Sample.loaded Sample.news) 0 Sample.news /\
  exists a ha b hb,
    @Backend.script Builtins.runtime 0
      (mkWidgets (Some 2020%Z) "(All)" (Fl (-1), Fl 1) "good" (IdInt 1))
      (Sample.loaded Sample.news) = (inr a, ha) /\
    @Backnew.script Builtins.runtime 0
      (mkWidgets (Some 2020%Z) "(All)" (Fl (-1), Fl 1) "good" (IdInt 1))
      (Sample.loaded Sample.news) = (inr b, hb) /\
    result_table b = result_table a.
Proof.
  assert (holds (Sample.loaded Sample.news) 0 Sample.news) as H
      by reflexivity.
  split; [exact H |].
  assert (exists a ha,
             @Backend.script Builtins.runtime 0
               (mkWidgets (Some 2020%Z) "(All)" (Fl (-1), Fl 1) "good"
                          (IdInt 1))
               (Sample.loaded Sample.news) = (inr a, ha)) as (a & ha & E)
      by (eexists; eexists; vm_compute; reflexivity).
  destruct (@backnew_reproduces_backend Builtins.runtime _ _ _
              (mkWidgets (Some 2020%Z) "(All)" (Fl (-1), Fl 1) "good"
                         (IdInt 1))
              H eq_refl a ha E) as (b & hb & Eb & _ & _ & Tb & _).
  exists a, ha, b, hb. split; [exact E |]. split; [exact Eb | exact Tb].
Defined.

(* ================================================================== *)
(** * The menus *)
(* ================================================================== *)

Section SortedUnique.

Variable A : Type.
Variable eqb leb : A -> A -> bool.
Hypothesis eqb_spec : forall x y, eqb x y = true <-> x = y.
Hypothesis leb_total : forall x y, leb x y = true \/ leb y x = true.
Hypothesis leb_antisym : forall x y, leb x y = true -> leb y x = true -> x = y.
Hypothesis leb_trans :
  forall x y z, leb x y = true -> leb y z = true -> leb x z = true.

Lemma unique_In (l : list A) (x : A) :
  In x (Options.unique eqb l) <-> In x l.
Proof.
  induction l as [| a l IH]; cbn [Options.unique In]; [reflexivity |].
  rewrite filter_In, IH. split.
  - intros [E | [I _]]; auto.
  - intros [E | I]; [now left |].
    destruct (eqb a x) eqn:Ex; [left; now apply eqb_spec |].
    right. split; [exact I | reflexivity].
Qed.

Lemma unique_NoDup (l : list A) : NoDup (Options.unique eqb l).
Proof.
  induction l as [| a l IH]; cbn [Options.unique]; constructor.
  - rewrite filter_In. intros [_ E].
    assert (eqb a a = true) as Ea by now apply eqb_spec.
    now rewrite Ea in E.
  - now apply NoDup_filter.
Qed.

Lemma insert_sorted_perm (x : A) (l : list A) :
  Permutation (Options.insert_sorted leb x l) (x :: l).
Proof.
  induction l as [| y l IH]; cbn [Options.insert_sorted]; [reflexivity |].
  destruct (leb x y); [reflexivity |]. rewrite IH. apply perm_swap.
Qed.

Lemma sorted_perm (l : list A) : Permutation (Options.sorted leb l) l.
Proof.
  unfold Options.sorted.
  induction l as [| x l IH]; cbn [fold_right]; [reflexivity |].
  rewrite insert_sorted_perm. now constructor.
Qed.

Lemma insert_sorted_sorted (x : A) (l : list A) :
  StronglySorted (fun a b => leb a b = true) l ->
  StronglySorted (fun a b => leb a b = true) (Options.insert_sorted leb x l).
Proof.
  induction 1 as [| y l St IH F]; cbn [Options.insert_sorted].
  - repeat constructor.
  - destruct (leb x y) eqn:E.
    + constructor; [now constructor |]. constructor; [exact E |].
      eapply Forall_impl; [| exact F]. intros z. now apply leb_trans.
    + constructor; [exact IH |].
      apply (Permutation_Forall (Permutation_sym (insert_sorted_perm x l))).
      constructor; [| exact F].
      destruct (leb_total x y) as [C | C]; [congruence | exact C].
Qed.

Lemma sorted_sorted (l : list A) :
  StronglySorted (fun a b => leb a b = true) (Options.sorted leb l).
Proof.
  unfold Options.sorted. induction l; cbn [fold_right];
    [constructor | now apply insert_sorted_sorted].
Qed.

Lemma sorted_strictly (l : list A) :
  NoDup l -> StronglySorted (strictly leb) (Options.sorted leb l).
Proof.
  intros N.
  assert (NoDup (Options.sorted leb l)) as N'
      by (apply (Permutation_NoDup (Permutation_sym (sorted_perm l)) N)).
  pose proof (sorted_sorted l) as St.
  induction St as [| x s St IH F]; constructor.
  - apply IH. now inversion N'.
  - inversion N' as [| ? ? Nx _]; subst.
    rewrite Forall_forall in *. intros y Iy. split; [now apply F |].
    intros ->. contradiction.
Qed.

(** Two lists in strict order with the same elements are equal. *)
Lemma strictly_sorted_unique (l1 l2 : list A) :
  StronglySorted (strictly leb) l1 -> StronglySorted (strictly leb) l2 ->
  (forall x, In x l1 <-> In x l2) -> l1 = l2.
Proof.
  intros S1. revert l2.
  induction S1 as [| a l1 S1 IH F1]; intros l2 S2 E.
  - destruct l2 as [| b l2]; [reflexivity |].
    destruct (proj2 (E b) (or_introl eq_refl)).
  - destruct S2 as [| b l2 S2 F2].
    { destruct (proj1 (E a) (or_introl eq_refl)). }
    rewrite Forall_forall in F1, F2.
    assert (a = b) as ->.
    { destruct (proj1 (E a) (or_introl eq_refl)) as [Eb | Ib]; [auto |].
      destruct (proj2 (E b) (or_introl eq_refl)) as [Ea | Ia]; [auto |].
      destruct (F1 _ Ia) as [L1 _]. destruct (F2 _ Ib) as [L2 _].
      now apply leb_antisym. }
    f_equal. apply IH; [exact S2 |].
    intros x. split; intros I.
    + destruct (proj1 (E x) (or_intror I)) as [Eb | Ib]; [| exact Ib].
      subst x. destruct (F1 _ I) as [_ N]. now contradiction N.
    + destruct (proj2 (E x) (or_intror I)) as [Eb | Ib]; [| exact Ib].
      subst x. destruct (F2 _ I) as [_ N]. now contradiction N.
Qed.

End SortedUnique.

Lemma dropna_list_In {A : Type} (l : list (option A)) (x : A) :
  In x (Options.dropna_list l) <-> In (Some x) l.
Proof.
  induction l as [| [a |] l IH]; cbn [Options.dropna_list In].
  - reflexivity.
  - rewrite IH. split; intros [E | I]; auto; left; congruence.
  - rewrite IH. split; [auto | intros [E | I]; [discriminate | exact I]].
Qed.

Lemma StronglySorted_snoc {A : Type} (R : A -> A -> Prop) (l : list A)
  (x : A) :
  StronglySorted R l -> Forall (fun z => R z x) l ->
  StronglySorted R (l ++ [x]).
Proof.
  induction 1 as [| y l St IH F]; intros Fx; cbn [app].
  - repeat constructor.
  - inversion Fx; subst. constructor; [now apply IH |].
    apply Forall_app. split; [exact F | now repeat constructor].
Qed.

Lemma StronglySorted_rev {A : Type} (R : A -> A -> Prop) (l : list A) :
  StronglySorted R l -> StronglySorted (fun a b => R b a) (rev l).
Proof.
  induction 1 as [| x l St IH F]; cbn [rev]; [constructor |].
  apply StronglySorted_snoc; [exact IH |].
  apply Forall_forall. intros z Iz. rewrite Forall_forall in F.
  apply F. now apply in_rev.
Qed.

Lemma StronglySorted_impl {A : Type} (R R' : A -> A -> Prop) (l : list A) :
  (forall a b, R a b -> R' a b) -> StronglySorted R l -> StronglySorted R' l.
Proof.
  intros I. induction 1 as [| x l St IH F]; constructor; [exact IH |].
  eapply Forall_impl; [| exact F]. intros b. apply I.
Qed.

Lemma string_compare_trans (s t u : string) :
  String.compare s t <> Gt -> String.compare t u <> Gt ->
  String.compare s u <> Gt.
Proof.
  revert t u. induction s as [| a s IH]; intros [| b t] [| c u];
    cbn [String.compare]; try congruence.
  unfold Ascii.compare.
  destruct (N.compare_spec (N_of_ascii a) (N_of_ascii b)) as [E1 | L1 | G1];
    try congruence;
    destruct (N.compare_spec (N_of_ascii b) (N_of_ascii c))
      as [E2 | L2 | G2];
    try congruence;
    destruct (N.compare_spec (N_of_ascii a) (N_of_ascii c))
      as [E3 | L3 | G3];
    try congruence; try lia; try (intros; discriminate).
  apply IH.
Qed.

Lemma string_leb_trans (x y z : string) :
  String.leb x y = true -> String.leb y z = true -> String.leb x z = true.
Proof.
  unfold String.leb. intros H1 H2.
  pose proof (string_compare_trans x y z) as T.
  destruct (String.compare x y); try discriminate;
    destruct (String.compare y z); try discriminate;
    destruct (String.compare x z); try reflexivity;
    exfalso; (apply T; [discriminate | discriminate | reflexivity]).
Qed.

Lemma Z_leb_total (x y : Z) : Z.leb x y = true \/ Z.leb y x = true.
Proof. rewrite !Z.leb_le. lia. Qed.

Lemma Z_leb_antisym (x y : Z) :
  Z.leb x y = true -> Z.leb y x = true -> x = y.
Proof. rewrite !Z.leb_le. lia. Qed.

Lemma Z_leb_trans (x y z : Z) :
  Z.leb x y = true -> Z.leb y z = true -> Z.leb x z = true.
Proof. rewrite !Z.leb_le. lia. Qed.

Lemma strictly_Z_lt (a b : Z) : strictly Z.leb a b <-> (a < b)%Z.
Proof. unfold strictly. rewrite Z.leb_le. lia. Qed.

Lemma year_values_In (df : DataFrame) (y : Z) :
  In y (Options.unique Z.eqb (Options.dropna_list (map Year (rows df))))
  <-> exists row, In row (rows df) /\ Year row = Some y.
Proof.
  rewrite (unique_In Z Z.eqb Z.eqb_eq), dropna_list_In, in_map_iff.
  split; intros (row & E & I); exists row; auto.
Qed.

Lemma YEARS_spec (df : DataFrame) :
  has_column "Year" df = true ->
  StronglySorted (strictly Z.leb) (Options.YEARS df) /\
  (forall y, In y (Options.YEARS df) <->
             exists row, In row (rows df) /\ Year row = Some y).
Proof.
  intros C. unfold Options.YEARS. rewrite C. split.
  - apply (sorted_strictly Z Z.leb Z_leb_total Z_leb_trans).
    apply NoDup_rev, (unique_NoDup Z Z.eqb Z.eqb_eq).
  - intros y. rewrite <- year_values_In.
    rewrite (in_rev (Options.unique Z.eqb _)).
    split; apply Permutation_in;
      [apply sorted_perm | apply Permutation_sym, sorted_perm].
Qed.

(** X16.  The year menus.  On a frame with years, the list [YEARS] of
    the Flask programs holds each year that occurs in the frame once, in
    strictly ascending order; the select box of the Streamlit scripts
    offers "(All)" and then the same years in descending order; every
    year offered selects at least one row; and on a frame with scores
    the years of the trend that [compute_annual_trend] returns are
    exactly the years of the menu. *)
Theorem year_menu_lists_the_years (df : DataFrame) :
  has_column "Year" df = true ->
  StronglySorted Z.lt (Options.YEARS df) /\
  (forall y, In y (Options.YEARS df) <->
             exists row, In row (rows df) /\ Year row = Some y) /\
  Options.year_options df = None :: map Some (rev (Options.YEARS df)) /\
  (forall y, In (Some y) (Options.year_options df) ->
             rows (getitem_mask (year_is y) df) <> []) /\
  (has_column "sentiment_score_signed" df = true ->
   forall h r, holds h r df ->
     exists scores,
       fst (App.compute_annual_trend r h) = inr (Options.YEARS df, scores) /\
       fst (App1.compute_annual_trend r h)
       = inr (Options.YEARS df, scores)).
Proof.
  intros C. destruct (YEARS_spec df C) as [St In_Y].
  assert (Options.year_options df = None :: map Some (rev (Options.YEARS df)))
    as Eo.
  { unfold Options.year_options. rewrite C. f_equal. f_equal.
    apply (strictly_sorted_unique Z (fun a b => Z.leb b a)).
    - intros x y H1 H2. now apply Z_leb_antisym.
    - apply sorted_strictly.
      + intros x y. apply Z_leb_total.
      + intros x y z H1 H2. exact (Z_leb_trans z y x H2 H1).
      + apply (unique_NoDup Z Z.eqb Z.eqb_eq).
    - apply StronglySorted_rev in St.
      eapply StronglySorted_impl; [| exact St].
      intros a b [L N]. split; [exact L | congruence].
    - intros x. rewrite <- in_rev, In_Y, <- year_values_In.
      split; apply Permutation_in;
        [apply sorted_perm | apply Permutation_sym, sorted_perm]. }
  split; [| split; [exact In_Y | split; [exact Eo | split]]].
  - eapply StronglySorted_impl; [| exact St]. intros a b.
    apply strictly_Z_lt.
  - intros y I. rewrite Eo in I. destruct I as [E | I]; [discriminate |].
    apply in_map_iff in I. destruct I as (y' & E & I). inversion E; subst y'.
    apply in_rev, In_Y in I. destruct I as (row & I & Ey).
    cbn [getitem_mask rows]. intros N.
    assert (In row (filter (year_is y) (rows df))) as I'.
    { apply filter_In. split; [exact I |]. unfold year_is. rewrite Ey.
      apply Z.eqb_refl. }
    rewrite N in I'. contradiction.
  - intros Cs h r H.
    destruct (App_compute_annual_trend_run h r df H) as [_ ->].
    destruct (App1_compute_annual_trend_run h r df H) as [_ ->].
    destruct (trend_value_spec df C Cs) as (T1 & T2 & _).
    exists (snd (trend_value df)).
    assert (fst (trend_value df) = Options.YEARS df) as <-.
    { apply (strictly_sorted_unique Z Z.leb Z_leb_antisym).
      - eapply StronglySorted_impl; [| exact T1]. intros a b.
        apply strictly_Z_lt.
      - exact St.
      - intros y. now rewrite T2, In_Y. }
    destruct (trend_value df); split; reflexivity.
Qed.

Lemma year_menu_lists_the_years_witness :
  has_column "Year" Sample.news = true /\
  StronglySorted Z.lt (Options.YEARS Sample.news) /\
  Options.year_options Sample.news
  = None :: map Some (rev (Options.YEARS Sample.news)).
Proof.
  assert (has_column "Year" Sample.news = true) as C by reflexivity.
  split; [exact C |].
  destruct (year_menu_lists_the_years Sample.news C) as (A & _ & B & _).
  split; [exact A | exact B].
Defined.

Lemma ident_eqb_eq (a b : ident) : Options.ident_eqb a b = true <-> a = b.
Proof.
  destruct a as [x | x], b as [y | y]; cbn [Options.ident_eqb];
    try (split; discriminate).
  - rewrite Z.eqb_eq. split; congruence.
  - rewrite String.eqb_eq. split; congruence.
Qed.

(** X17.  The symbol menu and the record menu.  On a frame with symbols,
    the list [SYMBOLS] of the Flask programs holds each symbol that
    occurs in the frame once, in strictly ascending code-point order,
    and the select box of the Streamlit scripts offers "(All)" and then
    the same list.  The record select box offers each identifier of the
    filtered frame once, and for every identifier it offers the detail
    viewer of [backnew.py] shows a record. *)
Theorem symbol_and_record_menus (df f : DataFrame) :
  has_column "Stock_symbol" df = true ->
  StronglySorted (strictly String.leb) (Options.SYMBOLS df) /\
  (forall s, In s (Options.SYMBOLS df) <->
             exists row, In row (rows df) /\ Stock_symbol row = Some s) /\
  Options.symbol_options df = "(All)" :: Options.SYMBOLS df /\
  NoDup (Options.id_options f) /\
  (forall i, In i (Options.id_options f) <->
             exists row, In row (rows f) /\ news_id row = i) /\
  (has_column "news_id" f = true ->
   forall i h r, In i (Options.id_options f) -> holds h r f ->
     exists d, fst (Backnew.detail r i h) = inr (Some d)).
Proof.
  intros C.
  assert (forall i, In i (Options.id_options f) <->
                    exists row, In row (rows f) /\ news_id row = i) as Ids.
  { intros i. unfold Options.id_options.
    rewrite (unique_In ident Options.ident_eqb ident_eqb_eq), in_map_iff.
    split; intros (row & E & I); exists row; auto. }
  unfold Options.SYMBOLS, Options.symbol_options. rewrite C.
  split; [| split; [| split; [reflexivity | split; [| split]]]].
  - apply (sorted_strictly string String.leb String.leb_total
             string_leb_trans).
    apply (unique_NoDup string String.eqb String.eqb_eq).
  - intros s.
    assert (In s (Options.unique String.eqb
                    (Options.dropna_list (map Stock_symbol (rows df))))
            <-> exists row, In row (rows df) /\ Stock_symbol row = Some s)
      as <-.
    { rewrite (unique_In string String.eqb String.eqb_eq), dropna_list_In,
        in_map_iff.
      split; intros (row & E & I); exists row; auto. }
    split; apply Permutation_in;
      [apply sorted_perm | apply Permutation_sym, sorted_perm].
  - apply (unique_NoDup ident Options.ident_eqb ident_eqb_eq).
  - exact Ids.
  - intros Cn i h r I H. apply Ids in I. destruct I as (row & I & <-).
    rewrite (Backnew_detail_value h r f _ H), Cn.
    assert (empty f = false) as ->
        by (unfold empty; destruct (rows f); [contradiction | reflexivity]).
    unfold first_row.
    destruct (find (news_id_is (news_id row)) (rows f)) as [first |] eqn:F.
    + eexists. reflexivity.
    + pose proof (find_none _ _ F row I) as N.
      rewrite news_id_is_refl in N. discriminate.
Qed.

Lemma symbol_and_record_menus_witness :
  has_column "Stock_symbol" Sample.news = true /\
  Options.symbol_options Sample.news = ["(All)"; "AAA"; "BBB"] /\
  NoDup (Options.id_options Sample.news).
Proof.
  assert (has_column "Stock_symbol" Sample.news = true) as C by reflexivity.
  split; [exact C |].
  destruct (symbol_and_record_menus Sample.news Sample.news C)
    as (_ & _ & A & B & _).
  split; [exact A | exact B].
Defined.

(* ================================================================== *)
(** * Loading *)
(* ================================================================== *)

Lemma filter_map_commute {A B : Type} (f : A -> B) (p : B -> bool)
  (l : list A) :
  filter p (map f l) = map f (filter (fun x => p (f x)) l).
Proof.
  induction l as [| x l IH]; cbn [map filter]; [reflexivity |].
  destruct (p (f x)); cbn [map]; now rewrite IH.
Qed.

Lemma endswith_csv_not_parquet (p : string) :
  endswith ".csv" p = true -> endswith ".parquet" p = false.
Proof.
  induction p as [| c p IH]; [discriminate |].
  cbn [endswith]. intros E. apply orb_prop in E.
  destruct (String.eqb (String c p) ".parquet") eqn:Ep.
  { apply String.eqb_eq in Ep. inversion Ep; subst. vm_compute in E.
    destruct E; discriminate. }
  cbn [orb]. destruct E as [E | E]; [| now apply IH].
  apply String.eqb_eq in E. inversion E. reflexivity.
Qed.

Section Loaded.

Context {F : Files} {R : Runtime}.

Lemma normalize_symbols_columns (df : DataFrame) :
  columns (normalize_symbols df) = columns df.
Proof.
  unfold normalize_symbols. now destruct (has_column "Stock_symbol" df).
Qed.

Lemma symbol_is_loaded (s : string) (r : Row) :
  symbol_is (App1.normalize_symbol s)
    (with_symbol r (option_map App1.normalize_symbol
                      (astype_str (Stock_symbol r))))
  = reads_as s r.
Proof.
  unfold symbol_is, reads_as. cbn [with_symbol Stock_symbol].
  now destruct (astype_str (Stock_symbol r)).
Qed.

Lemma loaded_symbol_stage (base : DataFrame) (s : string) :
  has_column "Stock_symbol" base = true -> App1.is_set s = true ->
  stage_value (App1.filter_symbol s) (normalize_symbols base)
  = inr (normalize_symbols (getitem_mask (reads_as s) base)).
Proof.
  intros C Is. unfold stage_value, App1.filter_symbol. rewrite Is.
  rewrite (has_column_columns _ _ base (normalize_symbols_columns base)), C.
  f_equal. unfold normalize_symbols. rewrite has_column_mask, C.
  unfold getitem_mask. cbn [columns rows]. f_equal.
  rewrite filter_map_commute. f_equal. apply filter_ext. intros r.
  apply symbol_is_loaded.
Qed.

Lemma SYMBOLS_In (df : DataFrame) (s : string) :
  In s (Options.SYMBOLS df) ->
  exists row, In row (rows df) /\ Stock_symbol row = Some s.
Proof.
  unfold Options.SYMBOLS.
  destruct (has_column "Stock_symbol" df); [| intros []].
  intros I. apply (Permutation_in _ (sorted_perm _ _ _)) in I.
  apply (unique_In string String.eqb String.eqb_eq), dropna_list_In,
    in_map_iff in I.
  destruct I as (row & E & I). now exists row.
Qed.

(** X18.  [app1.py] loads its symbols in normal form, which makes its
    symbol search insensitive to case and to blanks with respect to the
    file: the frame [load_data] returns is the parsed file with every
    symbol trimmed and in capitals; on it, the symbol paragraph for a
    requested symbol keeps exactly the rows whose symbol in the file
    reads as the requested one once both are trimmed and capitalised,
    two spellings of a symbol give the same result, and every entry of
    the symbol menu is in normal form.  Where [astype(str)] turns a null
    into a text, no loaded row is without symbol: the rows without
    symbol in the file carry that text, capitalised, as their symbol. *)
Theorem loaded_symbol_search_is_insensitive (path : string)
  (df : DataFrame) :
  App1_load_data path = inr df ->
  exists raw,
    df = normalize_symbols (parse_dates raw) /\
    List.length (rows df) = List.length (raw_rows raw) /\
    (has_column "Stock_symbol" df = true ->
     (forall s, App1.is_set s = true ->
        stage_value (App1.filter_symbol s) df
        = inr (normalize_symbols
                 (getitem_mask (reads_as s) (parse_dates raw)))) /\
     (forall s t, App1.is_set s = true -> App1.is_set t = true ->
        App1.normalize_symbol s = App1.normalize_symbol t ->
        stage_value (App1.filter_symbol s) df
        = stage_value (App1.filter_symbol t) df) /\
     Forall (fun s => App1.normalize_symbol s = s) (Options.SYMBOLS df) /\
     (forall text, str_of_null = Some text ->
        Forall (fun row => exists s, Stock_symbol row = Some s) (rows df))).
Proof.
  unfold App1_load_data. destruct (negb (path_exists path)); [discriminate |].
  destruct (if path_isdir path then read_dataset path
            else if endswith ".parquet" path then read_parquet path
            else if endswith ".csv" path then read_csv path else None)
    as [raw |]; [| discriminate].
  intros E. apply inr_inj in E. subst df. exists raw.
  split; [reflexivity |]. split.
  { unfold normalize_symbols, parse_dates.
    destruct (has_column "Stock_symbol" _);
      destruct (existsb (String.eqb "Date") (raw_columns raw));
      cbn [rows]; now rewrite ?length_map. }
  set (base := parse_dates raw).
  rewrite (has_column_columns _ _ base (normalize_symbols_columns base)).
  intros C.
  assert (Forall (fun row => exists t,
                    Stock_symbol row = option_map App1.normalize_symbol t)
                 (rows (normalize_symbols base))) as Fn.
  { unfold normalize_symbols. rewrite C. cbn [rows].
    apply Forall_forall. intros row I. apply in_map_iff in I.
    destruct I as (r & <- & _). now eexists. }
  split; [| split; [| split]].
  - intros s Is. now apply loaded_symbol_stage.
  - intros s t Is It E. unfold stage_value, App1.filter_symbol.
    now rewrite Is, It, E.
  - apply Forall_forall. intros s I. apply SYMBOLS_In in I.
    destruct I as (row & I & Es). rewrite Forall_forall in Fn.
    destruct (Fn row I) as ([t |] & Et); rewrite Et in Es;
      [| discriminate].
    cbn [option_map] in Es. inversion Es. apply normalize_symbol_idem.
  - intros text Nt. unfold normalize_symbols. rewrite C. cbn [rows].
    apply Forall_forall. intros row I. apply in_map_iff in I.
    destruct I as (r & <- & _). cbn [with_symbol Stock_symbol].
    unfold astype_str. rewrite Nt.
    destruct (Stock_symbol r); cbn [option_map]; now eexists.
Qed.

(** X19.  The loaders side by side on a CSV file.  Where the file is
    missing, the Flask programs raise [FileNotFoundError] and
    [backnew.py] stops; where it cannot be read, [app.py] lets the
    reader's exception through, [app1.py] raises [RuntimeError] and
    [backnew.py] stops.  Where it can be read, [app.py] returns the
    parsed frame, [app1.py] the same frame with its symbols in normal
    form, and [backnew.py] the frame of [app.py], unless it is empty:
    then [backnew.py] stops where the Flask programs serve an empty
    frame. *)
Theorem loaders_agree_on_a_csv_file (path : string) :
  path_isdir path = false ->
  endswith ".csv" path = true ->
  match App_load_data path with
  | inr df =>
      App1_load_data path = inr (normalize_symbols df) /\
      Backnew_load_data path
      = (if empty df || match columns df with [] => true | _ => false end
         then inl Stopped else inr df)
  | inl e =>
      e = (if path_exists path then ReaderError else FileNotFoundError) /\
      App1_load_data path
      = inl (if path_exists path then RuntimeError else FileNotFoundError) /\
      Backnew_load_data path = inl Stopped
  end.
Proof.
  intros D C. unfold App_load_data, App1_load_data, Backnew_load_data.
  rewrite D, (endswith_csv_not_parquet path C), C.
  destruct (path_exists path); cbn [negb]; [| repeat split].
  destruct (read_csv path) as [raw |]; [| repeat split].
  split; [reflexivity |].
  assert (raw_empty raw
          = (empty (parse_dates raw)
             || match columns (parse_dates raw) with
                | [] => true
                | _ :: _ => false
                end)) as ->; [| reflexivity].
  unfold raw_empty, empty, parse_dates, setitem_column.
  destruct (raw_rows raw) as [| r rs], (raw_columns raw) as [| c cs];
    try reflexivity;
    (destruct (existsb (String.eqb "Date") (c :: cs)); [| reflexivity];
     destruct (existsb (String.eqb "Year") (c :: cs)); reflexivity).
Qed.

End Loaded.

Lemma loaded_symbol_search_is_insensitive_witness :
  @App1_load_data SampleFiles.files "news.csv"
  = inr (@normalize_symbols SampleFiles.files
           (@parse_dates SampleFiles.files SampleFiles.raw_news)) /\
  exists raw,
    @normalize_symbols SampleFiles.files
      (@parse_dates SampleFiles.files SampleFiles.raw_news)
    = @normalize_symbols SampleFiles.files
        (@parse_dates SampleFiles.files raw) /\
    List.length
      (rows (@normalize_symbols SampleFiles.files
               (@parse_dates SampleFiles.files SampleFiles.raw_news)))
    = List.length (raw_rows raw).
Proof.
  assert (@App1_load_data SampleFiles.files "news.csv"
          = inr (@normalize_symbols SampleFiles.files
                   (@parse_dates SampleFiles.files SampleFiles.raw_news)))
    as E by (vm_compute; reflexivity).
  split; [exact E |].
  destruct (@loaded_symbol_search_is_insensitive SampleFiles.files
              "news.csv" _ E) as (raw & Er & Len & _).
  exists raw. split; [exact Er | exact Len].
Defined.

Lemma loaders_agree_on_a_csv_file_witness :
  @path_isdir SampleFiles.files "news.csv" = false /\
  endswith ".csv" "news.csv" = true /\
  @App1_load_data SampleFiles.files "news.csv"
  = inr (@normalize_symbols SampleFiles.files
           (@parse_dates SampleFiles.files SampleFiles.raw_news)).
Proof.
  assert (@path_isdir SampleFiles.files "news.csv" = false) as D
      by reflexivity.
  assert (endswith ".csv" "news.csv" = true) as C
      by (vm_compute; reflexivity).
  assert (@App_load_data SampleFiles.files "news.csv"
          = inr (@parse_dates SampleFiles.files SampleFiles.raw_news)) as E
      by (vm_compute; reflexivity).
  split; [exact D |]. split; [exact C |].
  pose proof (@loaders_agree_on_a_csv_file SampleFiles.files "news.csv" D C)
    as A.
  rewrite E in A. destruct A as [A _]. exact A.
Defined.

(* ================================================================== *)
(** * Runs that complete *)
(* ================================================================== *)

Section Completes.

Context {R : Runtime}.

Lemma Backnew_summary_returns (yf : DataFrame) :
  exists sv, Backnew_summary_of yf = inr sv.
Proof.
  destruct (has_column "sentiment_label" yf) eqn:C.
  - pose proof (Backnew_summary_view yf C) as V.
    destruct (filter labelled (rows yf)); [eexists; exact V |].
    destruct V as (v & -> & _). eexists. reflexivity.
  - unfold Backnew_summary_of. rewrite C. eexists. reflexivity.
Qed.

Lemma In_id_options (f : DataFrame) (i : ident) :
  In i (Options.id_options f) ->
  exists row, In row (rows f) /\ news_id row = i.
Proof.
  unfold Options.id_options. intros I.
  apply (unique_In ident Options.ident_eqb ident_eqb_eq), in_map_iff in I.
  destruct I as (row & E & I). now exists row.
Qed.

(** X20.  [backnew.py] completes: on a frame with a [news_id] column,
    for a keyword that is empty or a valid pattern and a record chosen
    among those the record select box offers, a run of the script shows
    its page, whatever other columns the frame lacks and whatever the
    year, the symbol and the range are. *)
Theorem backnew_completes (h : heap) (r : ref) (df : DataFrame)
  (w : Widgets) :
  holds h r df ->
  has_column "news_id" df = true ->
  (truthy (w_keyword w) = true -> re_compile_ic (w_keyword w) <> None) ->
  (forall f, run_stages (Backnew_stages df w) df = inr f ->
             rows f <> [] -> In (w_news_id w) (Options.id_options f)) ->
  exists out h', Backnew.script r w h = (inr out, h').
Proof.
  intros H Cn Kw Ids.
  pose proof (Backnew_script_value h r df w H) as V.
  unfold script_of in V.
  assert (exists f, run_stages (Backnew_stages df w) df = inr f) as [f Ef].
  { rewrite Backnew_pipeline_is_one_filter. unfold Backnew_raises.
    destruct (truthy (w_keyword w)); cbn [andb];
      [| eexists; reflexivity].
    destruct (has_column "Article_title" df); [| eexists; reflexivity].
    destruct (re_compile_ic (w_keyword w)); [eexists; reflexivity |].
    now contradiction (Kw eq_refl). }
  rewrite Ef in V. unfold Backnew_trend_of in V.
  destruct (Backnew_summary_returns (year_frame df w)) as [sv Es].
  rewrite Es in V.
  assert (exists v, Backnew_detail_of (w_news_id w) f = inr v) as [v Ev].
  { unfold Backnew_detail_of, empty.
    destruct (rows f) as [| x xs] eqn:Er; [eexists; reflexivity |].
    destruct (run_stages_narrowing _ (Backnew_stages_narrowing df w) _ _ Ef)
      as [Cf _].
    rewrite (has_column_columns _ _ df Cf), Cn.
    assert (rows f <> []) as Ne by (rewrite Er; discriminate).
    destruct (In_id_options f _ (Ids f Ef Ne)) as (row & I & Ei).
    unfold first_row.
    destruct (find (news_id_is (w_news_id w)) (rows f)) as [first |] eqn:Fd;
      [eexists; reflexivity |].
    pose proof (find_none _ _ Fd row I) as N.
    rewrite <- Ei, news_id_is_refl in N. discriminate. }
  rewrite Ev in V.
  destruct (Backnew.script r w h) as [res h']. cbn [fst] in V. subst res.
  eexists. eexists. reflexivity.
Qed.

End Completes.

Lemma backnew_completes_witness :
  holds (Sample.loaded Sample.news_with_null) 0 Sample.news_with_null /\
  has_column "news_id" Sample.news_with_null = true /\
  exists out h',
    @Backnew.script Builtins.runtime 0
      (mkWidgets (Some 2020%Z) "(All)" (Fl (-1), Fl 1) "" (IdInt 1))
      (Sample.loaded Sample.news_with_null) = (inr out, h').
Proof.
  assert (holds (Sample.loaded Sample.news_with_null) 0
                Sample.news_with_null) as H by reflexivity.
  assert (has_column "news_id" Sample.news_with_null = true) as C
      by reflexivity.
  split; [exact H |]. split; [exact C |].
  apply (@backnew_completes Builtins.runtime _ _ _ _ H C).
  - intros T. discriminate T.
  - intros f E _. vm_compute in E. apply inr_inj in E. subst f.
    vm_compute. left. reflexivity.
Defined.

Section HandlerOutcomes.

Context {R : Runtime}.

Lemma App_index_outcome (g : Globals) (req : Request) (h : heap)
  (df : DataFrame) :
  holds h (DF g) df ->
  handler_ends (fst (App.index g req h))
    (run_stages (App_stages_of g req) df)
    (App_detail_of (requested_news_id req)).
Proof.
  intros H.
  change (post (App.index g req) h
            (fun res _ =>
               handler_ends res (run_stages (App_stages_of g req) df)
                 (App_detail_of (requested_news_id req)))).
  unfold App.index, handler_ends. cbv zeta.
  fold (App_selected_year req) (App_selected_symbol req)
       (requested_keyword req) (requested_news_id req).
  apply post_bind.
  eapply post_conseq; [apply App_filtered_yields, H |].
  fold (App_stages_of g req).
  intros res h1 [E1 Y].
  destruct (run_stages (App_stages_of g req) df) as [e | f].
  { now subst res. }
  destruct Y as (r1 & -> & H1).
  apply post_bind, (post_read _ _ _ _ H1).
  apply post_bind. unfold derive_pure.
  apply (post_derive _ _ _ _ _ H1).
  apply post_bind, (post_derive _ _ _ _ _ (holds_new _ _)).
  apply post_bind, (post_read _ _ _ _ (holds_new _ _)).
  set (h2 := (h1 ++ _) ++ _).
  assert (extends h1 h2) as E2 by (subst h2; eauto with heap).
  assert (holds h2 r1 f) as H2 by eauto with heap.
  apply post_bind.
  apply post_conseq with
    (Q := fun res h' => extends h2 h' /\
                        res = App_detail_of (requested_news_id req) f).
  { split; [apply allocating_App_detail |].
    apply (App_detail_value h2 r1 f _ H2). }
  intros res3 h3 [E3 ->].
  destruct (App_detail_of (requested_news_id req) f) as [e | sel];
    [reflexivity |].
  apply post_bind.
  eapply post_conseq;
    [apply (App_compute_annual_trend_run h3 (DF g) df); eauto 6 with heap |].
  intros res4 h4 [E4 ->].
  apply post_bind.
  eapply post_conseq;
    [apply (App_compute_yearly_summary_run h4 (DF g) df);
     eauto 7 with heap |].
  intros res5 h5 [E5 ->].
  apply post_ret. eexists. reflexivity.
Qed.

Lemma App1_index_outcome (g : Globals) (req : Request) (h : heap)
  (df : DataFrame) :
  holds h (DF g) df ->
  handler_ends (fst (App1.index g req h))
    (run_stages (App1_stages_of g req) df)
    (App1_detail_of (requested_news_id req)).
Proof.
  intros H.
  change (post (App1.index g req) h
            (fun res _ =>
               handler_ends res (run_stages (App1_stages_of g req) df)
                 (App1_detail_of (requested_news_id req)))).
  unfold App1.index, handler_ends. cbv zeta.
  fold (requested_keyword req) (requested_news_id req).
  apply post_bind.
  eapply post_conseq; [apply App1_filtered_yields, H |].
  fold (App1_stages_of g req).
  intros res h1 [E1 Y].
  destruct (run_stages (App1_stages_of g req) df) as [e | f].
  { now subst res. }
  destruct Y as (r1 & -> & H1).
  apply post_bind, (post_read _ _ _ _ H1).
  apply post_bind. unfold derive_pure.
  apply (post_derive _ _ _ _ _ H1).
  apply post_bind, (post_derive _ _ _ _ _ (holds_new _ _)).
  apply post_bind, (post_read _ _ _ _ (holds_new _ _)).
  set (h2 := (h1 ++ _) ++ _).
  assert (extends h1 h2) as E2 by (subst h2; eauto with heap).
  assert (holds h2 r1 f) as H2 by eauto with heap.
  apply post_bind.
  apply post_conseq with
    (Q := fun res h' => extends h2 h' /\
                        res = App1_detail_of (requested_news_id req) f).
  { split; [apply allocating_App1_detail |].
    apply (App1_detail_value h2 r1 f _ H2). }
  intros res3 h3 [E3 ->].
  destruct (App1_detail_of (requested_news_id req) f) as [e | sel];
    [reflexivity |].
  apply post_bind.
  eapply post_conseq;
    [apply (App1_compute_annual_trend_run h3 (DF g) df); eauto 6 with heap |].
  intros res4 h4 [E4 ->].
  apply post_bind.
  eapply post_conseq;
    [apply (App1_compute_yearly_summary_run h4 (DF g) df);
     eauto 7 with heap |].
  intros res5 h5 [E5 ->].
  apply post_ret. eexists. reflexivity.
Qed.

End HandlerOutcomes.

Section HandlerFailures.

Context {R : Runtime}.

Lemma App_detail_raises (nid : string) (f df : DataFrame) (e : exn) :
  columns f = columns df -> App_detail_of nid f = inl e ->
  e = KeyError "news_id" /\ truthy nid = true /\
  has_column "news_id" df = false.
Proof.
  intros C. unfold App_detail_of. rewrite (has_column_columns _ _ _ C).
  destruct (truthy nid); cbn [andb]; [| discriminate].
  destruct (negb (empty f)); [| discriminate].
  destruct (has_column "news_id" df); [discriminate |].
  intros E. inversion E. auto.
Qed.

Lemma App1_detail_raises (nid : string) (f df : DataFrame) (e : exn) :
  columns f = columns df -> App1_detail_of nid f = inl e ->
  e = KeyError "news_id" /\ truthy nid = true /\
  has_column "news_id" df = false.
Proof.
  intros C. unfold App1_detail_of. rewrite (has_column_columns _ _ _ C).
  destruct (truthy nid); [| discriminate].
  destruct (has_column "news_id" df); [discriminate |].
  intros E. inversion E. auto.
Qed.

Lemma App_detail_returns (nid : string) (f df : DataFrame) :
  columns f = columns df ->
  (truthy nid = true -> has_column "news_id" df = true) ->
  exists v, App_detail_of nid f = inr v.
Proof.
  intros C N. unfold App_detail_of. rewrite (has_column_columns _ _ _ C).
  destruct (truthy nid); cbn [andb]; [| eexists; reflexivity].
  rewrite (N eq_refl). destruct (negb (empty f)); eexists; reflexivity.
Qed.

Lemma App1_detail_returns (nid : string) (f df : DataFrame) :
  columns f = columns df ->
  (truthy nid = true -> has_column "news_id" df = true) ->
  exists v, App1_detail_of nid f = inr v.
Proof.
  intros C N. unfold App1_detail_of. rewrite (has_column_columns _ _ _ C).
  destruct (truthy nid); [| eexists; reflexivity].
  rewrite (N eq_refl). eexists; reflexivity.
Qed.

Lemma App_stages_outcome (r : ref) (df : DataFrame) (req : Request) :
  match run_stages (App_stages_of (globals_of r df) req) df with
  | inl e =>
      e = ReError /\ truthy (requested_keyword req) = true /\
      has_column "Article_title" df = true /\
      re_compile_ic (requested_keyword req) = None
  | inr f =>
      columns f = columns df /\
      (truthy (requested_keyword req) = true ->
       has_column "Article_title" df = true ->
       re_compile_ic (requested_keyword req) <> None)
  end.
Proof.
  unfold App_stages_of. rewrite App_pipeline_is_one_filter.
  unfold App_raises. rewrite range_raises_startup.
  destruct (truthy (requested_keyword req)); cbn [andb];
    [| split; [reflexivity | discriminate]].
  destruct (has_column "Article_title" df);
    [| split; [reflexivity | discriminate]].
  destruct (re_compile_ic (requested_keyword req));
    [split; [reflexivity | discriminate] | repeat split].
Qed.

Lemma App1_stages_outcome (r : ref) (df : DataFrame) (req : Request) :
  match run_stages (App1_stages_of (globals_of r df) req) df with
  | inl e =>
      (e = KeyError "Stock_symbol" /\
       App1.is_set (get (arg_symbol req) "all") = true /\
       has_column "Stock_symbol" df = false) \/
      (e = KeyError "Article_title" /\
       truthy (requested_keyword req) = true /\
       has_column "Article_title" df = false) \/
      (e = ReError /\ truthy (requested_keyword req) = true /\
       re_compile_ic (requested_keyword req) = None) \/
      (e = KeyError "news_id" /\ truthy (requested_news_id req) = true /\
       has_column "news_id" df = false)
  | inr f =>
      columns f = columns df /\
      (App1.is_set (get (arg_symbol req) "all") = true ->
       has_column "Stock_symbol" df = true) /\
      (truthy (requested_keyword req) = true ->
       has_column "Article_title" df = true /\
       re_compile_ic (requested_keyword req) <> None) /\
      (truthy (requested_news_id req) = true ->
       has_column "news_id" df = true)
  end.
Proof.
  unfold App1_stages_of. rewrite App1_pipeline_is_one_filter.
  unfold App1_raises. rewrite range_raises_startup.
  destruct (App1.is_set (get (arg_symbol req) "all")) eqn:Is;
    destruct (has_column "Stock_symbol" df) eqn:Cs; cbn [andb negb];
    try (left; repeat split; reflexivity);
    (destruct (truthy (requested_keyword req)) eqn:T;
     destruct (has_column "Article_title" df) eqn:Ct; cbn [andb negb];
     try (right; left; repeat split; reflexivity);
     (destruct (re_compile_ic (requested_keyword req)) eqn:Cp;
      cbn [andb negb];
      try (destruct T; right; right; left; repeat split; reflexivity);
      (destruct (truthy (requested_news_id req)) eqn:Tn;
       destruct (has_column "news_id" df) eqn:Cn; cbn [andb negb];
       try (right; right; right; repeat split; reflexivity);
       repeat split; congruence))).
Qed.

(** X21.  What can go wrong in the two Flask handlers, with the globals
    computed at startup.  [app.py] fails in two ways only: a keyword
    that is not a valid pattern on a frame with titles, and a record
    asked for on a frame without [news_id] column; [app1.py] in four:
    a symbol, a keyword or a record asked for on a frame without the
    column, and a keyword that is not a valid pattern.  Every other
    request gets a response. *)
Theorem flask_handlers_fail_for_these_reasons_only (h : heap) (r : ref)
  (df : DataFrame) (g : Globals) (req : Request) :
  holds h r df ->
  startup r h = (inr g, h) ->
  match fst (App.index g req h) with
  | inl e =>
      (e = ReError /\ truthy (requested_keyword req) = true /\
       has_column "Article_title" df = true /\
       re_compile_ic (requested_keyword req) = None) \/
      (e = KeyError "news_id" /\ truthy (requested_news_id req) = true /\
       has_column "news_id" df = false)
  | inr _ =>
      (truthy (requested_keyword req) = true ->
       has_column "Article_title" df = true ->
       re_compile_ic (requested_keyword req) <> None)
  end /\
  match fst (App1.index g req h) with
  | inl e =>
      (e = KeyError "Stock_symbol" /\
       App1.is_set (get (arg_symbol req) "all") = true /\
       has_column "Stock_symbol" df = false) \/
      (e = KeyError "Article_title" /\
       truthy (requested_keyword req) = true /\
       has_column "Article_title" df = false) \/
      (e = ReError /\ truthy (requested_keyword req) = true /\
       re_compile_ic (requested_keyword req) = None) \/
      (e = KeyError "news_id" /\ truthy (requested_news_id req) = true /\
       has_column "news_id" df = false)
  | inr _ =>
      (App1.is_set (get (arg_symbol req) "all") = true ->
       has_column "Stock_symbol" df = true) /\
      (truthy (requested_keyword req) = true ->
       has_column "Article_title" df = true /\
       re_compile_ic (requested_keyword req) <> None) /\
      (truthy (requested_news_id req) = true ->
       has_column "news_id" df = true)
  end.
Proof.
  intros H S. destruct (startup_inv _ _ _ _ _ H S) as [-> _].
  assert (holds h (DF (globals_of r df)) df) as H'
      by now rewrite globals_of_DF.
  split.
  - pose proof (App_index_outcome (globals_of r df) req h df H') as O.
    pose proof (App_stages_outcome r df req) as P.
    unfold handler_ends in O.
    destruct (run_stages (App_stages_of (globals_of r df) req) df)
      as [e | f].
    { rewrite O. now left. }
    destruct P as [C K].
    destruct (App_detail_of (requested_news_id req) f) as [e | v] eqn:D.
    + rewrite O. right. exact (App_detail_raises _ _ _ _ C D).
    + destruct O as [resp ->]. exact K.
  - pose proof (App1_index_outcome (globals_of r df) req h df H') as O.
    pose proof (App1_stages_outcome r df req) as P.
    unfold handler_ends in O.
    destruct (run_stages (App1_stages_of (globals_of r df) req) df)
      as [e | f].
    { rewrite O. exact P. }
    destruct P as [C K].
    destruct (App1_detail_of (requested_news_id req) f) as [e | v] eqn:D.
    + rewrite O. right. right. right.
      exact (App1_detail_raises _ _ _ _ C D).
    + destruct O as [resp ->]. exact K.
Qed.

End HandlerFailures.

Lemma flask_handlers_fail_for_these_reasons_only_witness :
  holds (Sample.loaded Sample.news) 0 Sample.news /\
  (@re_compile_ic Builtins.runtime "\" = None \/
   has_column "news_id" Sample.news = false).
Proof.
  assert (holds (Sample.loaded Sample.news) 0 Sample.news) as H
      by reflexivity.
  assert (startup 0 (Sample.loaded Sample.news)
          = (inr (globals_of 0 Sample.news), Sample.loaded Sample.news)) as S
      by reflexivity.
  assert (fst (@App.index Builtins.runtime (globals_of 0 Sample.news)
                 (mkRequest None None (Some "\") None None None)
                 (Sample.loaded Sample.news)) = inl ReError) as E
      by (vm_compute; reflexivity).
  split; [exact H |].
  destruct (@flask_handlers_fail_for_these_reasons_only Builtins.runtime
              _ _ _ _ (mkRequest None None (Some "\") None None None) H S)
    as (A & _).
  rewrite E in A.
  destruct A as [(_ & _ & _ & A) | (_ & _ & A)]; [left | right]; exact A.
Defined.
